(** * Skripsi: a retrieval-augmented chat assistant

    A shallow embedding of [src/main.py] (the query server) and
    [src/build_index.py] (the index builder), and the properties of the
    specification proved over it.

    Modelling conventions.
    - A Python [str] is a [string] that holds its UTF-8 encoding; a
      character is one to four bytes.  The built-ins [str.strip],
      [str.lower] and [str.capitalize] are those of CPython 3.11, with the
      character tables of Unicode 14.0: the white space of [str.isspace], the
      full lower-case and title-case mappings, and the rule of the final
      sigma.  A separator of one byte is found in the encoding where it is
      found in the text.
    - A [dict] whose iteration order is observed is an association list in
      insertion order; a [dict] that is only looked up and updated is a [gmap].
    - A call that may raise returns a [res]; the handlers thread the raised
      exception and the messages they send through the monad [M].
    - The retrieval framework, the reranker, the language model and the clock
      are inputs of the handlers. *)

From Stdlib Require Import Ascii.
From stdpp Require Import base option list strings gmap fin_maps sorting.

(** ** Python built-ins on [str] *)

Module Py.

(** *** Bytes and UTF-8 *)

Definition byte (c : ascii) : N := N_of_ascii c.

Definition between (lo hi n : N) : bool := ((lo <=? n) && (n <=? hi))%N.

(** A continuation byte. *)
Definition cont (c : ascii) : bool := between 0x80 0xBF (byte c).

(** The first bytes of a character of two, three and four bytes. *)
Definition lead2 (c : ascii) : bool := between 0xC2 0xDF (byte c).
Definition lead3 (c : ascii) : bool := between 0xE0 0xEF (byte c).
Definition lead4 (c : ascii) : bool := between 0xF0 0xF4 (byte c).

(** A well-formed character of two, three and four bytes: no overlong
    form, no surrogate, nothing above U+10FFFF. *)
Definition two (c1 c2 : ascii) : bool := lead2 c1 && cont c2.

Definition three (c1 c2 c3 : ascii) : bool :=
  lead3 c1 && cont c2 && cont c3 &&
  (if (byte c1 =? 0xE0)%N then between 0xA0 0xBF (byte c2)
   else if (byte c1 =? 0xED)%N then between 0x80 0x9F (byte c2)
   else true).

Definition four (c1 c2 c3 c4 : ascii) : bool :=
  lead4 c1 && cont c2 && cont c3 && cont c4 &&
  (if (byte c1 =? 0xF0)%N then between 0x90 0xBF (byte c2)
   else if (byte c1 =? 0xF4)%N then between 0x80 0x8F (byte c2)
   else true).

(** The characters of [s], each as its bytes.  A byte that starts no
    well-formed character, which the encoding of a [str] never holds, stands
    for itself. *)
Fixpoint chars (s : string) : list string :=
  match s with
  | EmptyString => []
  | String c1 s1 =>
      match s1 with
      | String c2 s2 =>
          if two c1 c2 then String c1 (String c2 EmptyString) :: chars s2
          else
            match s2 with
            | String c3 s3 =>
                if three c1 c2 c3
                then String c1 (String c2 (String c3 EmptyString)) :: chars s3
                else
                  match s3 with
                  | String c4 s4 =>
                      if four c1 c2 c3 c4
                      then String c1 (String c2 (String c3 (String c4 EmptyString)))
                           :: chars s4
                      else String c1 EmptyString :: chars s1
                  | EmptyString => String c1 EmptyString :: chars s1
                  end
            | EmptyString => String c1 EmptyString :: chars s1
            end
      | EmptyString => [String c1 EmptyString]
      end
  end.

(** The code point of a character; a number above all code points for a
    byte that is no character. *)
Definition code (ch : string) : N :=
  match ch with
  | String c1 EmptyString =>
      if (byte c1 <? 0x80)%N then byte c1 else (0x110000 + byte c1)%N
  | String c1 (String c2 EmptyString) =>
      ((byte c1 - 0xC0) * 0x40 + (byte c2 - 0x80))%N
  | String c1 (String c2 (String c3 EmptyString)) =>
      ((byte c1 - 0xE0) * 0x1000 + (byte c2 - 0x80) * 0x40 + (byte c3 - 0x80))%N
  | String c1 (String c2 (String c3 (String c4 EmptyString))) =>
      ((byte c1 - 0xF0) * 0x40000 + (byte c2 - 0x80) * 0x1000 +
       (byte c3 - 0x80) * 0x40 + (byte c4 - 0x80))%N
  | _ => 0x110000%N
  end.

(** The byte [0x80 + x], for [x] below [0x80]. *)
Definition high (x : N) : ascii := ascii_of_N (0x80 + x mod 0x80).

(** The bytes of the character with code point [n]. *)
Definition utf8 (n : N) : string :=
  if (n <? 0x80)%N then String (ascii_of_N n) EmptyString
  else if (n <? 0x800)%N then
    String (high (0x40 + n / 0x40)) (String (high (n mod 0x40)) EmptyString)
  else if (n <? 0x10000)%N then
    String (high (0x60 + n / 0x1000))
      (String (high (n / 0x40 mod 0x40)) (String (high (n mod 0x40)) EmptyString))
  else
    String (high (0x70 + n / 0x40000))
      (String (high (n / 0x1000 mod 0x40))
         (String (high (n / 0x40 mod 0x40)) (String (high (n mod 0x40)) EmptyString))).

Fixpoint utf8s (l : list N) : string :=
  match l with
  | [] => EmptyString
  | n :: l' => utf8 n +:+ utf8s l'
  end.

(** *** White space *)

(** [c.isspace()] for a character of one byte: TAB, LF, VT, FF, CR, the four
    separators FS, GS, RS, US, and SPACE. *)
Definition isspace (c : ascii) : bool :=
  let n := nat_of_ascii c in
  ((9 <=? n)%nat && (n <=? 13)%nat) || ((28 <=? n)%nat && (n <=? 32)%nat).

(** The white space of two bytes: U+0085 and U+00A0. *)
Definition space2 (c1 c2 : ascii) : bool :=
  (byte c1 =? 0xC2)%N && ((byte c2 =? 0x85)%N || (byte c2 =? 0xA0)%N).

(** The white space of three bytes: U+1680, U+2000 to U+200A, U+2028, U+2029,
    U+202F, U+205F and U+3000. *)
Definition space3 (c1 c2 c3 : ascii) : bool :=
  ((byte c1 =? 0xE1)%N && (byte c2 =? 0x9A)%N && (byte c3 =? 0x80)%N)
  || ((byte c1 =? 0xE2)%N && (byte c2 =? 0x80)%N &&
      (between 0x80 0x8A (byte c3) || (byte c3 =? 0xA8)%N || (byte c3 =? 0xA9)%N
       || (byte c3 =? 0xAF)%N))
  || ((byte c1 =? 0xE2)%N && (byte c2 =? 0x81)%N && (byte c3 =? 0x9F)%N)
  || ((byte c1 =? 0xE3)%N && (byte c2 =? 0x80)%N && (byte c3 =? 0x80)%N).

(** [s.lstrip()] *)
Fixpoint lstrip (s : string) : string :=
  match s with
  | EmptyString => EmptyString
  | String c1 s1 =>
      if isspace c1 then lstrip s1
      else
        match s1 with
        | String c2 s2 =>
            if space2 c1 c2 then lstrip s2
            else
              match s2 with
              | String c3 s3 => if space3 c1 c2 c3 then lstrip s3 else s
              | EmptyString => s
              end
        | EmptyString => s
        end
  end.

(** [s] holds white space only. *)
Definition all_space (s : string) : bool :=
  match lstrip s with EmptyString => true | String _ _ => false end.

(** [s.rstrip()] *)
Fixpoint rstrip (s : string) : string :=
  match s with
  | EmptyString => EmptyString
  | String c s' => if all_space s then EmptyString else String c (rstrip s')
  end.

(** [s.strip()] *)
Definition strip (s : string) : string := rstrip (lstrip s).

(** The truth value of a [str]: empty is false. *)
Definition truthy (s : string) : bool :=
  match s with EmptyString => false | String _ _ => true end.

(** *** Letter case *)

(** The simple lower-case mappings: [(lo, hi, step, to)] sends each
    [lo + k * step] up to [hi] to [to + k * step]. *)
Definition lower_rules : list (N * N * N * N) :=
  [
    (0x41, 0x5A, 1, 0x61); (0xC0, 0xD6, 1, 0xE0); (0xD8, 0xDE, 1, 0xF8);
    (0x100, 0x12E, 2, 0x101); (0x132, 0x136, 2, 0x133); (0x139, 0x147, 2, 0x13A);
    (0x14A, 0x176, 2, 0x14B); (0x178, 0x178, 1, 0xFF); (0x179, 0x17D, 2, 0x17A);
    (0x181, 0x181, 1, 0x253); (0x182, 0x184, 2, 0x183); (0x186, 0x186, 1, 0x254);
    (0x187, 0x187, 1, 0x188); (0x189, 0x18A, 1, 0x256); (0x18B, 0x18B, 1, 0x18C);
    (0x18E, 0x18E, 1, 0x1DD); (0x18F, 0x18F, 1, 0x259); (0x190, 0x190, 1, 0x25B);
    (0x191, 0x191, 1, 0x192); (0x193, 0x193, 1, 0x260); (0x194, 0x194, 1, 0x263);
    (0x196, 0x196, 1, 0x269); (0x197, 0x197, 1, 0x268); (0x198, 0x198, 1, 0x199);
    (0x19C, 0x19C, 1, 0x26F); (0x19D, 0x19D, 1, 0x272); (0x19F, 0x19F, 1, 0x275);
    (0x1A0, 0x1A4, 2, 0x1A1); (0x1A6, 0x1A6, 1, 0x280); (0x1A7, 0x1A7, 1, 0x1A8);
    (0x1A9, 0x1A9, 1, 0x283); (0x1AC, 0x1AC, 1, 0x1AD); (0x1AE, 0x1AE, 1, 0x288);
    (0x1AF, 0x1AF, 1, 0x1B0); (0x1B1, 0x1B2, 1, 0x28A); (0x1B3, 0x1B5, 2, 0x1B4);
    (0x1B7, 0x1B7, 1, 0x292); (0x1B8, 0x1B8, 1, 0x1B9); (0x1BC, 0x1BC, 1, 0x1BD);
    (0x1C4, 0x1C4, 1, 0x1C6); (0x1C5, 0x1C5, 1, 0x1C6); (0x1C7, 0x1C7, 1, 0x1C9);
    (0x1C8, 0x1C8, 1, 0x1C9); (0x1CA, 0x1CA, 1, 0x1CC); (0x1CB, 0x1DB, 2, 0x1CC);
    (0x1DE, 0x1EE, 2, 0x1DF); (0x1F1, 0x1F1, 1, 0x1F3); (0x1F2, 0x1F4, 2, 0x1F3);
    (0x1F6, 0x1F6, 1, 0x195); (0x1F7, 0x1F7, 1, 0x1BF); (0x1F8, 0x21E, 2, 0x1F9);
    (0x220, 0x220, 1, 0x19E); (0x222, 0x232, 2, 0x223); (0x23A, 0x23A, 1, 0x2C65);
    (0x23B, 0x23B, 1, 0x23C); (0x23D, 0x23D, 1, 0x19A); (0x23E, 0x23E, 1, 0x2C66);
    (0x241, 0x241, 1, 0x242); (0x243, 0x243, 1, 0x180); (0x244, 0x244, 1, 0x289);
    (0x245, 0x245, 1, 0x28C); (0x246, 0x24E, 2, 0x247); (0x370, 0x372, 2, 0x371);
    (0x376, 0x376, 1, 0x377); (0x37F, 0x37F, 1, 0x3F3); (0x386, 0x386, 1, 0x3AC);
    (0x388, 0x38A, 1, 0x3AD); (0x38C, 0x38C, 1, 0x3CC); (0x38E, 0x38F, 1, 0x3CD);
    (0x391, 0x3A1, 1, 0x3B1); (0x3A3, 0x3AB, 1, 0x3C3); (0x3CF, 0x3CF, 1, 0x3D7);
    (0x3D8, 0x3EE, 2, 0x3D9); (0x3F4, 0x3F4, 1, 0x3B8); (0x3F7, 0x3F7, 1, 0x3F8);
    (0x3F9, 0x3F9, 1, 0x3F2); (0x3FA, 0x3FA, 1, 0x3FB); (0x3FD, 0x3FF, 1, 0x37B);
    (0x400, 0x40F, 1, 0x450); (0x410, 0x42F, 1, 0x430); (0x460, 0x480, 2, 0x461);
    (0x48A, 0x4BE, 2, 0x48B); (0x4C0, 0x4C0, 1, 0x4CF); (0x4C1, 0x4CD, 2, 0x4C2);
    (0x4D0, 0x52E, 2, 0x4D1); (0x531, 0x556, 1, 0x561); (0x10A0, 0x10C5, 1, 0x2D00);
    (0x10C7, 0x10C7, 1, 0x2D27); (0x10CD, 0x10CD, 1, 0x2D2D); (0x13A0, 0x13EF, 1, 0xAB70);
    (0x13F0, 0x13F5, 1, 0x13F8); (0x1C90, 0x1CBA, 1, 0x10D0); (0x1CBD, 0x1CBF, 1, 0x10FD);
    (0x1E00, 0x1E94, 2, 0x1E01); (0x1E9E, 0x1E9E, 1, 0xDF); (0x1EA0, 0x1EFE, 2, 0x1EA1);
    (0x1F08, 0x1F0F, 1, 0x1F00); (0x1F18, 0x1F1D, 1, 0x1F10); (0x1F28, 0x1F2F, 1, 0x1F20);
    (0x1F38, 0x1F3F, 1, 0x1F30); (0x1F48, 0x1F4D, 1, 0x1F40); (0x1F59, 0x1F5F, 2, 0x1F51);
    (0x1F68, 0x1F6F, 1, 0x1F60); (0x1F88, 0x1F8F, 1, 0x1F80); (0x1F98, 0x1F9F, 1, 0x1F90);
    (0x1FA8, 0x1FAF, 1, 0x1FA0); (0x1FB8, 0x1FB9, 1, 0x1FB0); (0x1FBA, 0x1FBB, 1, 0x1F70);
    (0x1FBC, 0x1FBC, 1, 0x1FB3); (0x1FC8, 0x1FCB, 1, 0x1F72); (0x1FCC, 0x1FCC, 1, 0x1FC3);
    (0x1FD8, 0x1FD9, 1, 0x1FD0); (0x1FDA, 0x1FDB, 1, 0x1F76); (0x1FE8, 0x1FE9, 1, 0x1FE0);
    (0x1FEA, 0x1FEB, 1, 0x1F7A); (0x1FEC, 0x1FEC, 1, 0x1FE5); (0x1FF8, 0x1FF9, 1, 0x1F78);
    (0x1FFA, 0x1FFB, 1, 0x1F7C); (0x1FFC, 0x1FFC, 1, 0x1FF3); (0x2126, 0x2126, 1, 0x3C9);
    (0x212A, 0x212A, 1, 0x6B); (0x212B, 0x212B, 1, 0xE5); (0x2132, 0x2132, 1, 0x214E);
    (0x2160, 0x216F, 1, 0x2170); (0x2183, 0x2183, 1, 0x2184); (0x24B6, 0x24CF, 1, 0x24D0);
    (0x2C00, 0x2C2F, 1, 0x2C30); (0x2C60, 0x2C60, 1, 0x2C61); (0x2C62, 0x2C62, 1, 0x26B);
    (0x2C63, 0x2C63, 1, 0x1D7D); (0x2C64, 0x2C64, 1, 0x27D); (0x2C67, 0x2C6B, 2, 0x2C68);
    (0x2C6D, 0x2C6D, 1, 0x251); (0x2C6E, 0x2C6E, 1, 0x271); (0x2C6F, 0x2C6F, 1, 0x250);
    (0x2C70, 0x2C70, 1, 0x252); (0x2C72, 0x2C72, 1, 0x2C73); (0x2C75, 0x2C75, 1, 0x2C76);
    (0x2C7E, 0x2C7F, 1, 0x23F); (0x2C80, 0x2CE2, 2, 0x2C81); (0x2CEB, 0x2CED, 2, 0x2CEC);
    (0x2CF2, 0x2CF2, 1, 0x2CF3); (0xA640, 0xA66C, 2, 0xA641); (0xA680, 0xA69A, 2, 0xA681);
    (0xA722, 0xA72E, 2, 0xA723); (0xA732, 0xA76E, 2, 0xA733); (0xA779, 0xA77B, 2, 0xA77A);
    (0xA77D, 0xA77D, 1, 0x1D79); (0xA77E, 0xA786, 2, 0xA77F); (0xA78B, 0xA78B, 1, 0xA78C);
    (0xA78D, 0xA78D, 1, 0x265); (0xA790, 0xA792, 2, 0xA791); (0xA796, 0xA7A8, 2, 0xA797);
    (0xA7AA, 0xA7AA, 1, 0x266); (0xA7AB, 0xA7AB, 1, 0x25C); (0xA7AC, 0xA7AC, 1, 0x261);
    (0xA7AD, 0xA7AD, 1, 0x26C); (0xA7AE, 0xA7AE, 1, 0x26A); (0xA7B0, 0xA7B0, 1, 0x29E);
    (0xA7B1, 0xA7B1, 1, 0x287); (0xA7B2, 0xA7B2, 1, 0x29D); (0xA7B3, 0xA7B3, 1, 0xAB53);
    (0xA7B4, 0xA7C2, 2, 0xA7B5); (0xA7C4, 0xA7C4, 1, 0xA794); (0xA7C5, 0xA7C5, 1, 0x282);
    (0xA7C6, 0xA7C6, 1, 0x1D8E); (0xA7C7, 0xA7C9, 2, 0xA7C8); (0xA7D0, 0xA7D0, 1, 0xA7D1);
    (0xA7D6, 0xA7D8, 2, 0xA7D7); (0xA7F5, 0xA7F5, 1, 0xA7F6); (0xFF21, 0xFF3A, 1, 0xFF41);
    (0x10400, 0x10427, 1, 0x10428); (0x104B0, 0x104D3, 1, 0x104D8); (0x10570, 0x1057A, 1, 0x10597);
    (0x1057C, 0x1058A, 1, 0x105A3); (0x1058C, 0x10592, 1, 0x105B3); (0x10594, 0x10595, 1, 0x105BB);
    (0x10C80, 0x10CB2, 1, 0x10CC0); (0x118A0, 0x118BF, 1, 0x118C0); (0x16E40, 0x16E5F, 1, 0x16E60);
    (0x1E900, 0x1E921, 1, 0x1E922)
  ]%N.

(** The one character whose lower case is two characters: I with dot above. *)
Definition lower_special : list (N * list N) :=
  [
    (0x130, [0x69; 0x307])
  ]%N.

(** The simple title-case mappings, in the same form. *)
Definition title_rules : list (N * N * N * N) :=
  [
    (0x61, 0x7A, 1, 0x41); (0xB5, 0xB5, 1, 0x39C); (0xE0, 0xF6, 1, 0xC0);
    (0xF8, 0xFE, 1, 0xD8); (0xFF, 0xFF, 1, 0x178); (0x101, 0x12F, 2, 0x100);
    (0x131, 0x131, 1, 0x49); (0x133, 0x137, 2, 0x132); (0x13A, 0x148, 2, 0x139);
    (0x14B, 0x177, 2, 0x14A); (0x17A, 0x17E, 2, 0x179); (0x17F, 0x17F, 1, 0x53);
    (0x180, 0x180, 1, 0x243); (0x183, 0x185, 2, 0x182); (0x188, 0x188, 1, 0x187);
    (0x18C, 0x18C, 1, 0x18B); (0x192, 0x192, 1, 0x191); (0x195, 0x195, 1, 0x1F6);
    (0x199, 0x199, 1, 0x198); (0x19A, 0x19A, 1, 0x23D); (0x19E, 0x19E, 1, 0x220);
    (0x1A1, 0x1A5, 2, 0x1A0); (0x1A8, 0x1A8, 1, 0x1A7); (0x1AD, 0x1AD, 1, 0x1AC);
    (0x1B0, 0x1B0, 1, 0x1AF); (0x1B4, 0x1B6, 2, 0x1B3); (0x1B9, 0x1B9, 1, 0x1B8);
    (0x1BD, 0x1BD, 1, 0x1BC); (0x1BF, 0x1BF, 1, 0x1F7); (0x1C4, 0x1C4, 1, 0x1C5);
    (0x1C6, 0x1C6, 1, 0x1C5); (0x1C7, 0x1C7, 1, 0x1C8); (0x1C9, 0x1C9, 1, 0x1C8);
    (0x1CA, 0x1CA, 1, 0x1CB); (0x1CC, 0x1DC, 2, 0x1CB); (0x1DD, 0x1DD, 1, 0x18E);
    (0x1DF, 0x1EF, 2, 0x1DE); (0x1F1, 0x1F1, 1, 0x1F2); (0x1F3, 0x1F5, 2, 0x1F2);
    (0x1F9, 0x21F, 2, 0x1F8); (0x223, 0x233, 2, 0x222); (0x23C, 0x23C, 1, 0x23B);
    (0x23F, 0x240, 1, 0x2C7E); (0x242, 0x242, 1, 0x241); (0x247, 0x24F, 2, 0x246);
    (0x250, 0x250, 1, 0x2C6F); (0x251, 0x251, 1, 0x2C6D); (0x252, 0x252, 1, 0x2C70);
    (0x253, 0x253, 1, 0x181); (0x254, 0x254, 1, 0x186); (0x256, 0x257, 1, 0x189);
    (0x259, 0x259, 1, 0x18F); (0x25B, 0x25B, 1, 0x190); (0x25C, 0x25C, 1, 0xA7AB);
    (0x260, 0x260, 1, 0x193); (0x261, 0x261, 1, 0xA7AC); (0x263, 0x263, 1, 0x194);
    (0x265, 0x265, 1, 0xA78D); (0x266, 0x266, 1, 0xA7AA); (0x268, 0x268, 1, 0x197);
    (0x269, 0x269, 1, 0x196); (0x26A, 0x26A, 1, 0xA7AE); (0x26B, 0x26B, 1, 0x2C62);
    (0x26C, 0x26C, 1, 0xA7AD); (0x26F, 0x26F, 1, 0x19C); (0x271, 0x271, 1, 0x2C6E);
    (0x272, 0x272, 1, 0x19D); (0x275, 0x275, 1, 0x19F); (0x27D, 0x27D, 1, 0x2C64);
    (0x280, 0x280, 1, 0x1A6); (0x282, 0x282, 1, 0xA7C5); (0x283, 0x283, 1, 0x1A9);
    (0x287, 0x287, 1, 0xA7B1); (0x288, 0x288, 1, 0x1AE); (0x289, 0x289, 1, 0x244);
    (0x28A, 0x28B, 1, 0x1B1); (0x28C, 0x28C, 1, 0x245); (0x292, 0x292, 1, 0x1B7);
    (0x29D, 0x29D, 1, 0xA7B2); (0x29E, 0x29E, 1, 0xA7B0); (0x345, 0x345, 1, 0x399);
    (0x371, 0x373, 2, 0x370); (0x377, 0x377, 1, 0x376); (0x37B, 0x37D, 1, 0x3FD);
    (0x3AC, 0x3AC, 1, 0x386); (0x3AD, 0x3AF, 1, 0x388); (0x3B1, 0x3C1, 1, 0x391);
    (0x3C2, 0x3C2, 1, 0x3A3); (0x3C3, 0x3CB, 1, 0x3A3); (0x3CC, 0x3CC, 1, 0x38C);
    (0x3CD, 0x3CE, 1, 0x38E); (0x3D0, 0x3D0, 1, 0x392); (0x3D1, 0x3D1, 1, 0x398);
    (0x3D5, 0x3D5, 1, 0x3A6); (0x3D6, 0x3D6, 1, 0x3A0); (0x3D7, 0x3D7, 1, 0x3CF);
    (0x3D9, 0x3EF, 2, 0x3D8); (0x3F0, 0x3F0, 1, 0x39A); (0x3F1, 0x3F1, 1, 0x3A1);
    (0x3F2, 0x3F2, 1, 0x3F9); (0x3F3, 0x3F3, 1, 0x37F); (0x3F5, 0x3F5, 1, 0x395);
    (0x3F8, 0x3F8, 1, 0x3F7); (0x3FB, 0x3FB, 1, 0x3FA); (0x430, 0x44F, 1, 0x410);
    (0x450, 0x45F, 1, 0x400); (0x461, 0x481, 2, 0x460); (0x48B, 0x4BF, 2, 0x48A);
    (0x4C2, 0x4CE, 2, 0x4C1); (0x4CF, 0x4CF, 1, 0x4C0); (0x4D1, 0x52F, 2, 0x4D0);
    (0x561, 0x586, 1, 0x531); (0x13F8, 0x13FD, 1, 0x13F0); (0x1C80, 0x1C80, 1, 0x412);
    (0x1C81, 0x1C81, 1, 0x414); (0x1C82, 0x1C82, 1, 0x41E); (0x1C83, 0x1C84, 1, 0x421);
    (0x1C85, 0x1C85, 1, 0x422); (0x1C86, 0x1C86, 1, 0x42A); (0x1C87, 0x1C87, 1, 0x462);
    (0x1C88, 0x1C88, 1, 0xA64A); (0x1D79, 0x1D79, 1, 0xA77D); (0x1D7D, 0x1D7D, 1, 0x2C63);
    (0x1D8E, 0x1D8E, 1, 0xA7C6); (0x1E01, 0x1E95, 2, 0x1E00); (0x1E9B, 0x1E9B, 1, 0x1E60);
    (0x1EA1, 0x1EFF, 2, 0x1EA0); (0x1F00, 0x1F07, 1, 0x1F08); (0x1F10, 0x1F15, 1, 0x1F18);
    (0x1F20, 0x1F27, 1, 0x1F28); (0x1F30, 0x1F37, 1, 0x1F38); (0x1F40, 0x1F45, 1, 0x1F48);
    (0x1F51, 0x1F57, 2, 0x1F59); (0x1F60, 0x1F67, 1, 0x1F68); (0x1F70, 0x1F71, 1, 0x1FBA);
    (0x1F72, 0x1F75, 1, 0x1FC8); (0x1F76, 0x1F77, 1, 0x1FDA); (0x1F78, 0x1F79, 1, 0x1FF8);
    (0x1F7A, 0x1F7B, 1, 0x1FEA); (0x1F7C, 0x1F7D, 1, 0x1FFA); (0x1F80, 0x1F87, 1, 0x1F88);
    (0x1F90, 0x1F97, 1, 0x1F98); (0x1FA0, 0x1FA7, 1, 0x1FA8); (0x1FB0, 0x1FB1, 1, 0x1FB8);
    (0x1FB3, 0x1FB3, 1, 0x1FBC); (0x1FBE, 0x1FBE, 1, 0x399); (0x1FC3, 0x1FC3, 1, 0x1FCC);
    (0x1FD0, 0x1FD1, 1, 0x1FD8); (0x1FE0, 0x1FE1, 1, 0x1FE8); (0x1FE5, 0x1FE5, 1, 0x1FEC);
    (0x1FF3, 0x1FF3, 1, 0x1FFC); (0x214E, 0x214E, 1, 0x2132); (0x2170, 0x217F, 1, 0x2160);
    (0x2184, 0x2184, 1, 0x2183); (0x24D0, 0x24E9, 1, 0x24B6); (0x2C30, 0x2C5F, 1, 0x2C00);
    (0x2C61, 0x2C61, 1, 0x2C60); (0x2C65, 0x2C65, 1, 0x23A); (0x2C66, 0x2C66, 1, 0x23E);
    (0x2C68, 0x2C6C, 2, 0x2C67); (0x2C73, 0x2C73, 1, 0x2C72); (0x2C76, 0x2C76, 1, 0x2C75);
    (0x2C81, 0x2CE3, 2, 0x2C80); (0x2CEC, 0x2CEE, 2, 0x2CEB); (0x2CF3, 0x2CF3, 1, 0x2CF2);
    (0x2D00, 0x2D25, 1, 0x10A0); (0x2D27, 0x2D27, 1, 0x10C7); (0x2D2D, 0x2D2D, 1, 0x10CD);
    (0xA641, 0xA66D, 2, 0xA640); (0xA681, 0xA69B, 2, 0xA680); (0xA723, 0xA72F, 2, 0xA722);
    (0xA733, 0xA76F, 2, 0xA732); (0xA77A, 0xA77C, 2, 0xA779); (0xA77F, 0xA787, 2, 0xA77E);
    (0xA78C, 0xA78C, 1, 0xA78B); (0xA791, 0xA793, 2, 0xA790); (0xA794, 0xA794, 1, 0xA7C4);
    (0xA797, 0xA7A9, 2, 0xA796); (0xA7B5, 0xA7C3, 2, 0xA7B4); (0xA7C8, 0xA7CA, 2, 0xA7C7);
    (0xA7D1, 0xA7D1, 1, 0xA7D0); (0xA7D7, 0xA7D9, 2, 0xA7D6); (0xA7F6, 0xA7F6, 1, 0xA7F5);
    (0xAB53, 0xAB53, 1, 0xA7B3); (0xAB70, 0xABBF, 1, 0x13A0); (0xFF41, 0xFF5A, 1, 0xFF21);
    (0x10428, 0x1044F, 1, 0x10400); (0x104D8, 0x104FB, 1, 0x104B0); (0x10597, 0x105A1, 1, 0x10570);
    (0x105A3, 0x105B1, 1, 0x1057C); (0x105B3, 0x105B9, 1, 0x1058C); (0x105BB, 0x105BC, 1, 0x10594);
    (0x10CC0, 0x10CF2, 1, 0x10C80); (0x118C0, 0x118DF, 1, 0x118A0); (0x16E60, 0x16E7F, 1, 0x16E40);
    (0x1E922, 0x1E943, 1, 0x1E900)
  ]%N.

(** The characters whose title case is two or three characters. *)
Definition title_special : list (N * list N) :=
  [
    (0xDF, [0x53; 0x73]); (0x149, [0x2BC; 0x4E]);
    (0x1F0, [0x4A; 0x30C]); (0x390, [0x399; 0x308; 0x301]);
    (0x3B0, [0x3A5; 0x308; 0x301]); (0x587, [0x535; 0x582]);
    (0x1E96, [0x48; 0x331]); (0x1E97, [0x54; 0x308]);
    (0x1E98, [0x57; 0x30A]); (0x1E99, [0x59; 0x30A]);
    (0x1E9A, [0x41; 0x2BE]); (0x1F50, [0x3A5; 0x313]);
    (0x1F52, [0x3A5; 0x313; 0x300]); (0x1F54, [0x3A5; 0x313; 0x301]);
    (0x1F56, [0x3A5; 0x313; 0x342]); (0x1FB2, [0x1FBA; 0x345]);
    (0x1FB4, [0x386; 0x345]); (0x1FB6, [0x391; 0x342]);
    (0x1FB7, [0x391; 0x342; 0x345]); (0x1FC2, [0x1FCA; 0x345]);
    (0x1FC4, [0x389; 0x345]); (0x1FC6, [0x397; 0x342]);
    (0x1FC7, [0x397; 0x342; 0x345]); (0x1FD2, [0x399; 0x308; 0x300]);
    (0x1FD3, [0x399; 0x308; 0x301]); (0x1FD6, [0x399; 0x342]);
    (0x1FD7, [0x399; 0x308; 0x342]); (0x1FE2, [0x3A5; 0x308; 0x300]);
    (0x1FE3, [0x3A5; 0x308; 0x301]); (0x1FE4, [0x3A1; 0x313]);
    (0x1FE6, [0x3A5; 0x342]); (0x1FE7, [0x3A5; 0x308; 0x342]);
    (0x1FF2, [0x1FFA; 0x345]); (0x1FF4, [0x38F; 0x345]);
    (0x1FF6, [0x3A9; 0x342]); (0x1FF7, [0x3A9; 0x342; 0x345]);
    (0xFB00, [0x46; 0x66]); (0xFB01, [0x46; 0x69]);
    (0xFB02, [0x46; 0x6C]); (0xFB03, [0x46; 0x66; 0x69]);
    (0xFB04, [0x46; 0x66; 0x6C]); (0xFB05, [0x53; 0x74]);
    (0xFB06, [0x53; 0x74]); (0xFB13, [0x544; 0x576]);
    (0xFB14, [0x544; 0x565]); (0xFB15, [0x544; 0x56B]);
    (0xFB16, [0x54E; 0x576]); (0xFB17, [0x544; 0x56D])
  ]%N.

(** The cased characters that are not case-ignorable, as ranges. *)
Definition cased_ranges : list (N * N) :=
  [
    (0x41, 0x5A); (0x61, 0x7A); (0xAA, 0xAA); (0xB5, 0xB5); (0xBA, 0xBA);
    (0xC0, 0xD6); (0xD8, 0xF6); (0xF8, 0x1BA); (0x1BC, 0x1BF); (0x1C4, 0x293);
    (0x295, 0x2AF); (0x370, 0x373); (0x376, 0x377); (0x37B, 0x37D); (0x37F, 0x37F);
    (0x386, 0x386); (0x388, 0x38A); (0x38C, 0x38C); (0x38E, 0x3A1); (0x3A3, 0x3F5);
    (0x3F7, 0x481); (0x48A, 0x52F); (0x531, 0x556); (0x560, 0x588); (0x10A0, 0x10C5);
    (0x10C7, 0x10C7); (0x10CD, 0x10CD); (0x10D0, 0x10FA); (0x10FD, 0x10FF); (0x13A0, 0x13F5);
    (0x13F8, 0x13FD); (0x1C80, 0x1C88); (0x1C90, 0x1CBA); (0x1CBD, 0x1CBF); (0x1D00, 0x1D2B);
    (0x1D6B, 0x1D77); (0x1D79, 0x1D9A); (0x1E00, 0x1F15); (0x1F18, 0x1F1D); (0x1F20, 0x1F45);
    (0x1F48, 0x1F4D); (0x1F50, 0x1F57); (0x1F59, 0x1F59); (0x1F5B, 0x1F5B); (0x1F5D, 0x1F5D);
    (0x1F5F, 0x1F7D); (0x1F80, 0x1FB4); (0x1FB6, 0x1FBC); (0x1FBE, 0x1FBE); (0x1FC2, 0x1FC4);
    (0x1FC6, 0x1FCC); (0x1FD0, 0x1FD3); (0x1FD6, 0x1FDB); (0x1FE0, 0x1FEC); (0x1FF2, 0x1FF4);
    (0x1FF6, 0x1FFC); (0x2102, 0x2102); (0x2107, 0x2107); (0x210A, 0x2113); (0x2115, 0x2115);
    (0x2119, 0x211D); (0x2124, 0x2124); (0x2126, 0x2126); (0x2128, 0x2128); (0x212A, 0x212D);
    (0x212F, 0x2134); (0x2139, 0x2139); (0x213C, 0x213F); (0x2145, 0x2149); (0x214E, 0x214E);
    (0x2160, 0x217F); (0x2183, 0x2184); (0x24B6, 0x24E9); (0x2C00, 0x2C7B); (0x2C7E, 0x2CE4);
    (0x2CEB, 0x2CEE); (0x2CF2, 0x2CF3); (0x2D00, 0x2D25); (0x2D27, 0x2D27); (0x2D2D, 0x2D2D);
    (0xA640, 0xA66D); (0xA680, 0xA69B); (0xA722, 0xA76F); (0xA771, 0xA787); (0xA78B, 0xA78E);
    (0xA790, 0xA7CA); (0xA7D0, 0xA7D1); (0xA7D3, 0xA7D3); (0xA7D5, 0xA7D9); (0xA7F5, 0xA7F6);
    (0xA7FA, 0xA7FA); (0xAB30, 0xAB5A); (0xAB60, 0xAB68); (0xAB70, 0xABBF); (0xFB00, 0xFB06);
    (0xFB13, 0xFB17); (0xFF21, 0xFF3A); (0xFF41, 0xFF5A); (0x10400, 0x1044F); (0x104B0, 0x104D3);
    (0x104D8, 0x104FB); (0x10570, 0x1057A); (0x1057C, 0x1058A); (0x1058C, 0x10592); (0x10594, 0x10595);
    (0x10597, 0x105A1); (0x105A3, 0x105B1); (0x105B3, 0x105B9); (0x105BB, 0x105BC); (0x10C80, 0x10CB2);
    (0x10CC0, 0x10CF2); (0x118A0, 0x118DF); (0x16E40, 0x16E7F); (0x1D400, 0x1D454); (0x1D456, 0x1D49C);
    (0x1D49E, 0x1D49F); (0x1D4A2, 0x1D4A2); (0x1D4A5, 0x1D4A6); (0x1D4A9, 0x1D4AC); (0x1D4AE, 0x1D4B9);
    (0x1D4BB, 0x1D4BB); (0x1D4BD, 0x1D4C3); (0x1D4C5, 0x1D505); (0x1D507, 0x1D50A); (0x1D50D, 0x1D514);
    (0x1D516, 0x1D51C); (0x1D51E, 0x1D539); (0x1D53B, 0x1D53E); (0x1D540, 0x1D544); (0x1D546, 0x1D546);
    (0x1D54A, 0x1D550); (0x1D552, 0x1D6A5); (0x1D6A8, 0x1D6C0); (0x1D6C2, 0x1D6DA); (0x1D6DC, 0x1D6FA);
    (0x1D6FC, 0x1D714); (0x1D716, 0x1D734); (0x1D736, 0x1D74E); (0x1D750, 0x1D76E); (0x1D770, 0x1D788);
    (0x1D78A, 0x1D7A8); (0x1D7AA, 0x1D7C2); (0x1D7C4, 0x1D7CB); (0x1DF00, 0x1DF09); (0x1DF0B, 0x1DF1E);
    (0x1E900, 0x1E943); (0x1F130, 0x1F149); (0x1F150, 0x1F169); (0x1F170, 0x1F189)
  ]%N.

(** The case-ignorable characters, as ranges. *)
Definition ignorable_ranges : list (N * N) :=
  [
    (0x27, 0x27); (0x2E, 0x2E); (0x3A, 0x3A); (0x5E, 0x5E); (0x60, 0x60);
    (0xA8, 0xA8); (0xAD, 0xAD); (0xAF, 0xAF); (0xB4, 0xB4); (0xB7, 0xB8);
    (0x2B0, 0x36F); (0x374, 0x375); (0x37A, 0x37A); (0x384, 0x385); (0x387, 0x387);
    (0x483, 0x489); (0x559, 0x559); (0x55F, 0x55F); (0x591, 0x5BD); (0x5BF, 0x5BF);
    (0x5C1, 0x5C2); (0x5C4, 0x5C5); (0x5C7, 0x5C7); (0x5F4, 0x5F4); (0x600, 0x605);
    (0x610, 0x61A); (0x61C, 0x61C); (0x640, 0x640); (0x64B, 0x65F); (0x670, 0x670);
    (0x6D6, 0x6DD); (0x6DF, 0x6E8); (0x6EA, 0x6ED); (0x70F, 0x70F); (0x711, 0x711);
    (0x730, 0x74A); (0x7A6, 0x7B0); (0x7EB, 0x7F5); (0x7FA, 0x7FA); (0x7FD, 0x7FD);
    (0x816, 0x82D); (0x859, 0x85B); (0x888, 0x888); (0x890, 0x891); (0x898, 0x89F);
    (0x8C9, 0x902); (0x93A, 0x93A); (0x93C, 0x93C); (0x941, 0x948); (0x94D, 0x94D);
    (0x951, 0x957); (0x962, 0x963); (0x971, 0x971); (0x981, 0x981); (0x9BC, 0x9BC);
    (0x9C1, 0x9C4); (0x9CD, 0x9CD); (0x9E2, 0x9E3); (0x9FE, 0x9FE); (0xA01, 0xA02);
    (0xA3C, 0xA3C); (0xA41, 0xA42); (0xA47, 0xA48); (0xA4B, 0xA4D); (0xA51, 0xA51);
    (0xA70, 0xA71); (0xA75, 0xA75); (0xA81, 0xA82); (0xABC, 0xABC); (0xAC1, 0xAC5);
    (0xAC7, 0xAC8); (0xACD, 0xACD); (0xAE2, 0xAE3); (0xAFA, 0xAFF); (0xB01, 0xB01);
    (0xB3C, 0xB3C); (0xB3F, 0xB3F); (0xB41, 0xB44); (0xB4D, 0xB4D); (0xB55, 0xB56);
    (0xB62, 0xB63); (0xB82, 0xB82); (0xBC0, 0xBC0); (0xBCD, 0xBCD); (0xC00, 0xC00);
    (0xC04, 0xC04); (0xC3C, 0xC3C); (0xC3E, 0xC40); (0xC46, 0xC48); (0xC4A, 0xC4D);
    (0xC55, 0xC56); (0xC62, 0xC63); (0xC81, 0xC81); (0xCBC, 0xCBC); (0xCBF, 0xCBF);
    (0xCC6, 0xCC6); (0xCCC, 0xCCD); (0xCE2, 0xCE3); (0xD00, 0xD01); (0xD3B, 0xD3C);
    (0xD41, 0xD44); (0xD4D, 0xD4D); (0xD62, 0xD63); (0xD81, 0xD81); (0xDCA, 0xDCA);
    (0xDD2, 0xDD4); (0xDD6, 0xDD6); (0xE31, 0xE31); (0xE34, 0xE3A); (0xE46, 0xE4E);
    (0xEB1, 0xEB1); (0xEB4, 0xEBC); (0xEC6, 0xEC6); (0xEC8, 0xECD); (0xF18, 0xF19);
    (0xF35, 0xF35); (0xF37, 0xF37); (0xF39, 0xF39); (0xF71, 0xF7E); (0xF80, 0xF84);
    (0xF86, 0xF87); (0xF8D, 0xF97); (0xF99, 0xFBC); (0xFC6, 0xFC6); (0x102D, 0x1030);
    (0x1032, 0x1037); (0x1039, 0x103A); (0x103D, 0x103E); (0x1058, 0x1059); (0x105E, 0x1060);
    (0x1071, 0x1074); (0x1082, 0x1082); (0x1085, 0x1086); (0x108D, 0x108D); (0x109D, 0x109D);
    (0x10FC, 0x10FC); (0x135D, 0x135F); (0x1712, 0x1714); (0x1732, 0x1733); (0x1752, 0x1753);
    (0x1772, 0x1773); (0x17B4, 0x17B5); (0x17B7, 0x17BD); (0x17C6, 0x17C6); (0x17C9, 0x17D3);
    (0x17D7, 0x17D7); (0x17DD, 0x17DD); (0x180B, 0x180F); (0x1843, 0x1843); (0x1885, 0x1886);
    (0x18A9, 0x18A9); (0x1920, 0x1922); (0x1927, 0x1928); (0x1932, 0x1932); (0x1939, 0x193B);
    (0x1A17, 0x1A18); (0x1A1B, 0x1A1B); (0x1A56, 0x1A56); (0x1A58, 0x1A5E); (0x1A60, 0x1A60);
    (0x1A62, 0x1A62); (0x1A65, 0x1A6C); (0x1A73, 0x1A7C); (0x1A7F, 0x1A7F); (0x1AA7, 0x1AA7);
    (0x1AB0, 0x1ACE); (0x1B00, 0x1B03); (0x1B34, 0x1B34); (0x1B36, 0x1B3A); (0x1B3C, 0x1B3C);
    (0x1B42, 0x1B42); (0x1B6B, 0x1B73); (0x1B80, 0x1B81); (0x1BA2, 0x1BA5); (0x1BA8, 0x1BA9);
    (0x1BAB, 0x1BAD); (0x1BE6, 0x1BE6); (0x1BE8, 0x1BE9); (0x1BED, 0x1BED); (0x1BEF, 0x1BF1);
    (0x1C2C, 0x1C33); (0x1C36, 0x1C37); (0x1C78, 0x1C7D); (0x1CD0, 0x1CD2); (0x1CD4, 0x1CE0);
    (0x1CE2, 0x1CE8); (0x1CED, 0x1CED); (0x1CF4, 0x1CF4); (0x1CF8, 0x1CF9); (0x1D2C, 0x1D6A);
    (0x1D78, 0x1D78); (0x1D9B, 0x1DFF); (0x1FBD, 0x1FBD); (0x1FBF, 0x1FC1); (0x1FCD, 0x1FCF);
    (0x1FDD, 0x1FDF); (0x1FED, 0x1FEF); (0x1FFD, 0x1FFE); (0x200B, 0x200F); (0x2018, 0x2019);
    (0x2024, 0x2024); (0x2027, 0x2027); (0x202A, 0x202E); (0x2060, 0x2064); (0x2066, 0x206F);
    (0x2071, 0x2071); (0x207F, 0x207F); (0x2090, 0x209C); (0x20D0, 0x20F0); (0x2C7C, 0x2C7D);
    (0x2CEF, 0x2CF1); (0x2D6F, 0x2D6F); (0x2D7F, 0x2D7F); (0x2DE0, 0x2DFF); (0x2E2F, 0x2E2F);
    (0x3005, 0x3005); (0x302A, 0x302D); (0x3031, 0x3035); (0x303B, 0x303B); (0x3099, 0x309E);
    (0x30FC, 0x30FE); (0xA015, 0xA015); (0xA4F8, 0xA4FD); (0xA60C, 0xA60C); (0xA66F, 0xA672);
    (0xA674, 0xA67D); (0xA67F, 0xA67F); (0xA69C, 0xA69F); (0xA6F0, 0xA6F1); (0xA700, 0xA721);
    (0xA770, 0xA770); (0xA788, 0xA78A); (0xA7F2, 0xA7F4); (0xA7F8, 0xA7F9); (0xA802, 0xA802);
    (0xA806, 0xA806); (0xA80B, 0xA80B); (0xA825, 0xA826); (0xA82C, 0xA82C); (0xA8C4, 0xA8C5);
    (0xA8E0, 0xA8F1); (0xA8FF, 0xA8FF); (0xA926, 0xA92D); (0xA947, 0xA951); (0xA980, 0xA982);
    (0xA9B3, 0xA9B3); (0xA9B6, 0xA9B9); (0xA9BC, 0xA9BD); (0xA9CF, 0xA9CF); (0xA9E5, 0xA9E6);
    (0xAA29, 0xAA2E); (0xAA31, 0xAA32); (0xAA35, 0xAA36); (0xAA43, 0xAA43); (0xAA4C, 0xAA4C);
    (0xAA70, 0xAA70); (0xAA7C, 0xAA7C); (0xAAB0, 0xAAB0); (0xAAB2, 0xAAB4); (0xAAB7, 0xAAB8);
    (0xAABE, 0xAABF); (0xAAC1, 0xAAC1); (0xAADD, 0xAADD); (0xAAEC, 0xAAED); (0xAAF3, 0xAAF4);
    (0xAAF6, 0xAAF6); (0xAB5B, 0xAB5F); (0xAB69, 0xAB6B); (0xABE5, 0xABE5); (0xABE8, 0xABE8);
    (0xABED, 0xABED); (0xFB1E, 0xFB1E); (0xFBB2, 0xFBC2); (0xFE00, 0xFE0F); (0xFE13, 0xFE13);
    (0xFE20, 0xFE2F); (0xFE52, 0xFE52); (0xFE55, 0xFE55); (0xFEFF, 0xFEFF); (0xFF07, 0xFF07);
    (0xFF0E, 0xFF0E); (0xFF1A, 0xFF1A); (0xFF3E, 0xFF3E); (0xFF40, 0xFF40); (0xFF70, 0xFF70);
    (0xFF9E, 0xFF9F); (0xFFE3, 0xFFE3); (0xFFF9, 0xFFFB); (0x101FD, 0x101FD); (0x102E0, 0x102E0);
    (0x10376, 0x1037A); (0x10780, 0x10785); (0x10787, 0x107B0); (0x107B2, 0x107BA); (0x10A01, 0x10A03);
    (0x10A05, 0x10A06); (0x10A0C, 0x10A0F); (0x10A38, 0x10A3A); (0x10A3F, 0x10A3F); (0x10AE5, 0x10AE6);
    (0x10D24, 0x10D27); (0x10EAB, 0x10EAC); (0x10F46, 0x10F50); (0x10F82, 0x10F85); (0x11001, 0x11001);
    (0x11038, 0x11046); (0x11070, 0x11070); (0x11073, 0x11074); (0x1107F, 0x11081); (0x110B3, 0x110B6);
    (0x110B9, 0x110BA); (0x110BD, 0x110BD); (0x110C2, 0x110C2); (0x110CD, 0x110CD); (0x11100, 0x11102);
    (0x11127, 0x1112B); (0x1112D, 0x11134); (0x11173, 0x11173); (0x11180, 0x11181); (0x111B6, 0x111BE);
    (0x111C9, 0x111CC); (0x111CF, 0x111CF); (0x1122F, 0x11231); (0x11234, 0x11234); (0x11236, 0x11237);
    (0x1123E, 0x1123E); (0x112DF, 0x112DF); (0x112E3, 0x112EA); (0x11300, 0x11301); (0x1133B, 0x1133C);
    (0x11340, 0x11340); (0x11366, 0x1136C); (0x11370, 0x11374); (0x11438, 0x1143F); (0x11442, 0x11444);
    (0x11446, 0x11446); (0x1145E, 0x1145E); (0x114B3, 0x114B8); (0x114BA, 0x114BA); (0x114BF, 0x114C0);
    (0x114C2, 0x114C3); (0x115B2, 0x115B5); (0x115BC, 0x115BD); (0x115BF, 0x115C0); (0x115DC, 0x115DD);
    (0x11633, 0x1163A); (0x1163D, 0x1163D); (0x1163F, 0x11640); (0x116AB, 0x116AB); (0x116AD, 0x116AD);
    (0x116B0, 0x116B5); (0x116B7, 0x116B7); (0x1171D, 0x1171F); (0x11722, 0x11725); (0x11727, 0x1172B);
    (0x1182F, 0x11837); (0x11839, 0x1183A); (0x1193B, 0x1193C); (0x1193E, 0x1193E); (0x11943, 0x11943);
    (0x119D4, 0x119D7); (0x119DA, 0x119DB); (0x119E0, 0x119E0); (0x11A01, 0x11A0A); (0x11A33, 0x11A38);
    (0x11A3B, 0x11A3E); (0x11A47, 0x11A47); (0x11A51, 0x11A56); (0x11A59, 0x11A5B); (0x11A8A, 0x11A96);
    (0x11A98, 0x11A99); (0x11C30, 0x11C36); (0x11C38, 0x11C3D); (0x11C3F, 0x11C3F); (0x11C92, 0x11CA7);
    (0x11CAA, 0x11CB0); (0x11CB2, 0x11CB3); (0x11CB5, 0x11CB6); (0x11D31, 0x11D36); (0x11D3A, 0x11D3A);
    (0x11D3C, 0x11D3D); (0x11D3F, 0x11D45); (0x11D47, 0x11D47); (0x11D90, 0x11D91); (0x11D95, 0x11D95);
    (0x11D97, 0x11D97); (0x11EF3, 0x11EF4); (0x13430, 0x13438); (0x16AF0, 0x16AF4); (0x16B30, 0x16B36);
    (0x16B40, 0x16B43); (0x16F4F, 0x16F4F); (0x16F8F, 0x16F9F); (0x16FE0, 0x16FE1); (0x16FE3, 0x16FE4);
    (0x1AFF0, 0x1AFF3); (0x1AFF5, 0x1AFFB); (0x1AFFD, 0x1AFFE); (0x1BC9D, 0x1BC9E); (0x1BCA0, 0x1BCA3);
    (0x1CF00, 0x1CF2D); (0x1CF30, 0x1CF46); (0x1D167, 0x1D169); (0x1D173, 0x1D182); (0x1D185, 0x1D18B);
    (0x1D1AA, 0x1D1AD); (0x1D242, 0x1D244); (0x1DA00, 0x1DA36); (0x1DA3B, 0x1DA6C); (0x1DA75, 0x1DA75);
    (0x1DA84, 0x1DA84); (0x1DA9B, 0x1DA9F); (0x1DAA1, 0x1DAAF); (0x1E000, 0x1E006); (0x1E008, 0x1E018);
    (0x1E01B, 0x1E021); (0x1E023, 0x1E024); (0x1E026, 0x1E02A); (0x1E130, 0x1E13D); (0x1E2AE, 0x1E2AE);
    (0x1E2EC, 0x1E2EF); (0x1E8D0, 0x1E8D6); (0x1E944, 0x1E94B); (0x1F3FB, 0x1F3FF); (0xE0001, 0xE0001);
    (0xE0020, 0xE007F); (0xE0100, 0xE01EF)
  ]%N.

Definition in_ranges (ranges : list (N * N)) (n : N) : bool :=
  existsb (λ r, between r.1 r.2 n) ranges.

Definition rule_applies (n : N) (r : N * N * N * N) : bool :=
  let '(lo, hi, step, _) := r in between lo hi n && ((n - lo) mod step =? 0)%N.

(** The mapping of the code point [n] in a table, if it has one. *)
Definition mapped (special : list (N * list N)) (rules : list (N * N * N * N))
    (n : N) : option (list N) :=
  match List.find (λ kv, (kv.1 =? n)%N) special with
  | Some (_, l) => Some l
  | None =>
      match List.find (rule_applies n) rules with
      | Some (lo, _, _, to) => Some [(to + (n - lo))%N]
      | None => None
      end
  end.

Definition cased (ch : string) : bool := in_ranges cased_ranges (code ch).

Definition case_ignorable (ch : string) : bool := in_ranges ignorable_ranges (code ch).

(** The lower case of a character out of context. *)
Definition lower_char (ch : string) : string :=
  match mapped lower_special lower_rules (code ch) with
  | Some l => utf8s l
  | None => ch
  end.

(** The title case of a character. *)
Definition title_char (ch : string) : string :=
  match mapped title_special title_rules (code ch) with
  | Some l => utf8s l
  | None => ch
  end.

(** Whether a cased character follows, case-ignorable ones skipped. *)
Fixpoint cased_follows (l : list string) : bool :=
  match l with
  | [] => false
  | ch :: l' => if case_ignorable ch then cased_follows l' else cased ch
  end.

(** The capital sigma, in lower case: final after a cased character and
    not before one, case-ignorable characters skipped on both sides. *)
Definition lower_sigma (after_cased : bool) (rest : list string) : string :=
  if after_cased && negb (cased_follows rest) then utf8 0x3C2 else utf8 0x3C3.

(** The lower case of the characters [l]; [after_cased] tells whether
    a cased character stands before them, case-ignorable ones skipped. *)
Fixpoint lower_chars (after_cased : bool) (l : list string) : string :=
  match l with
  | [] => EmptyString
  | ch :: l' =>
      (if (code ch =? 0x3A3)%N then lower_sigma after_cased l' else lower_char ch)
      +:+ lower_chars (if case_ignorable ch then after_cased else cased ch) l'
  end.

(** [s.lower()] *)
Definition lower (s : string) : string := lower_chars false (chars s).

(** [s.capitalize()]: the first character in title case, the others in
    lower case. *)
Definition capitalize (s : string) : string :=
  match chars s with
  | [] => EmptyString
  | ch :: l =>
      title_char ch +:+ lower_chars (if case_ignorable ch then false else cased ch) l
  end.

(** *** What the properties of stripping are stated with *)

(** A character of one byte that is not white space. *)
Definition plain (c : ascii) : bool := (byte c <? 0x80)%N && negb (isspace c).

(** A byte with which a white-space character starts. *)
Definition starts_space (c : ascii) : bool :=
  isspace c || (byte c =? 0xC2)%N || between 0xE1 0xE3 (byte c).

(** What follows one white-space character at the front of [s]. *)
Definition skip_space (s : string) : option string :=
  match s with
  | EmptyString => None
  | String c1 s1 =>
      if isspace c1 then Some s1
      else
        match s1 with
        | String c2 s2 =>
            if space2 c1 c2 then Some s2
            else
              match s2 with
              | String c3 s3 => if space3 c1 c2 c3 then Some s3 else None
              | EmptyString => None
              end
        | EmptyString => None
        end
  end.

(** *** Searching, splitting and joining *)

(** [sep in s] for a one-character [sep] *)
Fixpoint contains (sep : ascii) (s : string) : bool :=
  match s with
  | EmptyString => false
  | String c s' => Ascii.eqb c sep || contains sep s'
  end.

(** The text before and after the first [sep], if there is one. *)
Fixpoint split_first (sep : ascii) (s : string) : option (string * string) :=
  match s with
  | EmptyString => None
  | String c s' =>
      if Ascii.eqb c sep then Some (EmptyString, s')
      else match split_first sep s' with
           | Some (a, b) => Some (String c a, b)
           | None => None
           end
  end.

(** [s.split(sep, maxsplit)] for a one-character [sep] *)
Fixpoint split (sep : ascii) (maxsplit : nat) (s : string) : list string :=
  match maxsplit with
  | O => [s]
  | S n =>
      match split_first sep s with
      | Some (a, b) => a :: split sep n b
      | None => [s]
      end
  end.

(** [sep.join(parts)] *)
Fixpoint join (sep : string) (parts : list string) : string :=
  match parts with
  | [] => EmptyString
  | [p] => p
  | p :: ps => p +:+ sep +:+ join sep ps
  end.

(** [x or ""] for an optional [str] *)
Definition or_empty (x : option string) : string := default EmptyString x.

(** The line feed, written [\n] in the source. *)
Definition nl : string := String "010"%char EmptyString.

Definition digit_char (d : N) : ascii := ascii_of_N (48 + d).

Definition isdigit (c : ascii) : bool :=
  let n := nat_of_ascii c in (48 <=? n)%nat && (n <=? 57)%nat.

Fixpoint all_digits (s : string) : bool :=
  match s with
  | EmptyString => true
  | String c s' => isdigit c && all_digits s'
  end.

(** The decimal digits of [n] in front of [acc]. *)
Fixpoint digits (fuel : nat) (n : N) (acc : string) : string :=
  match fuel with
  | O => acc
  | S fuel' =>
      let acc' := String (digit_char (n mod 10)) acc in
      if (n / 10 =? 0)%N then acc' else digits fuel' (n / 10) acc'
  end.

(** [str(n)] for a natural number; a number has no more decimal digits
    than binary ones. *)
Definition str_of_N (n : N) : string :=
  digits (S (N.to_nat (N.log2 n))) n EmptyString.

Fixpoint zeros (k : nat) : string :=
  match k with O => EmptyString | S k' => String "0"%char (zeros k') end.

(** ["%0<width>d" % n] *)
Definition zfill (width : nat) (n : N) : string :=
  let s := str_of_N n in zeros (width - String.length s) +:+ s.


(** *** White-space characters in the proofs *)

(** A character that lower case leaves alone and that is neither cased nor
    case-ignorable. *)
Definition caseless (ch : string) : bool :=
  negb (code ch =? 0x3A3)%N && String.eqb (lower_char ch) ch
  && negb (cased ch) && negb (case_ignorable ch).

(** [tok] is one white-space character, in front of any text. *)
Definition space_char (tok : string) : Prop :=
  tok ≠ EmptyString
  ∧ (∀ x, skip_space (tok +:+ x) = Some x)
  ∧ (∀ x, all_space x = false → rstrip (tok +:+ x) = tok +:+ rstrip x)
  ∧ (∀ c, plain c = true → contains c tok = false)
  ∧ (∀ x, chars (tok +:+ x) = tok :: chars x)
  ∧ caseless tok = true.

(** [tok] is one byte, or bytes none of which is a character of one byte. *)
Definition one_char (tok : string) : Prop :=
  (∃ c, tok = String c EmptyString)
  ∨ (∀ c, (byte c <? 0x80)%N = true → contains c tok = false).

(** No mapping of the table gives the code point [n]. *)
Definition never_mapped_to (n : N) (special : list (N * list N))
    (rules : list (N * N * N * N)) : bool :=
  forallb (λ kv, forallb (λ x, negb (x =? n)%N) kv.2) special
  && forallb (λ r, let '(lo, hi, _, to) := r in
                   (n <? to)%N || (to + (hi - lo) <? n)%N) rules.
End Py.

(** ** [datetime] *)

Module Datetime.

Record datetime : Type := {
  year : N; month : N; day : N;
  hour : N; minute : N; second : N; microsecond : N
}.

(** The ranges [datetime] enforces on its fields. *)
Definition valid (d : datetime) : Prop :=
  (1 ≤ year d ≤ 9999 ∧ 1 ≤ month d ≤ 12 ∧ 1 ≤ day d ≤ 31 ∧
   hour d < 24 ∧ minute d < 60 ∧ second d < 60 ∧ microsecond d < 1000000)%N.

(** [d.isoformat()] of a naive datetime: [YYYY-MM-DDTHH:MM:SS], followed by
    [.ffffff] when the microsecond is not 0. *)
Definition isoformat (d : datetime) : string :=
  Py.zfill 4 (year d) +:+ "-" +:+ Py.zfill 2 (month d) +:+ "-" +:+
  Py.zfill 2 (day d) +:+ "T" +:+ Py.zfill 2 (hour d) +:+ ":" +:+
  Py.zfill 2 (minute d) +:+ ":" +:+ Py.zfill 2 (second d) +:+
  (if (microsecond d =? 0)%N then "" else "." +:+ Py.zfill 6 (microsecond d)).

(** Whether [s] starts with [k] decimal digits; the rest of [s] if so. *)
Fixpoint eat_digits (k : nat) (s : string) : option string :=
  match k with
  | O => Some s
  | S k' =>
      match s with
      | String c s' => if Py.isdigit c then eat_digits k' s' else None
      | EmptyString => None
      end
  end.

Definition eat_char (c : ascii) (s : string) : option string :=
  match s with
  | String c' s' => if Ascii.eqb c' c then Some s' else None
  | EmptyString => None
  end.

(** The shape of an ISO-8601 calendar date and time of day:
    [dddd-dd-ddTdd:dd:dd] with an optional fraction [.dddddd]. *)
Definition is_iso8601 (s : string) : bool :=
  match
    s ← eat_digits 4 s; s ← eat_char "-" s; s ← eat_digits 2 s;
    s ← eat_char "-" s; s ← eat_digits 2 s; s ← eat_char "T" s;
    s ← eat_digits 2 s; s ← eat_char ":" s; s ← eat_digits 2 s;
    s ← eat_char ":" s; eat_digits 2 s
  with
  | Some EmptyString => true
  | Some rest =>
      match s ← eat_char "." rest; eat_digits 6 s with
      | Some EmptyString => true
      | _ => false
      end
  | None => false
  end.

End Datetime.

(** ** Exceptions and the handler monad *)

(** A raised exception, kept as [str(e)]. *)
Inductive res (A : Type) : Type :=
| Ok (a : A)
| Raise (e : string).
Arguments Ok {A} a.
Arguments Raise {A} e.

(** ** The part of the file system the two programs touch *)

Module Disk.

(** [Index] is what a directory of persisted index state holds. *)
Record disk (Index : Type) : Type := {
  md_files : gmap string (list string);
    (* directory ↦ the paths src_dir.glob("*.md") yields, in the order of
       the listing; no entry: no such directory, the glob yields nothing *)
  dirs : gmap string (option Index)
    (* the directories that exist at and under the persist root: None for
       a directory without index state, Some st for one that holds st *)
}.
Arguments md_files {Index} d.
Arguments dirs {Index} d.

(** [a / b] on paths *)
Definition path_join (a b : string) : string := a +:+ "/" +:+ b.

Definition PERSIST_ROOT : string := "storage".

End Disk.

(** ** main.py *)

Module Main.

Definition colon : ascii := ":"%char.
Definition bar : ascii := "|"%char.

Definition CATEGORIES : list string :=
  ["character"; "factions"; "items"; "maps"; "npc"; "timeline"].

(** [ALIASES], in the order of the dict literal. *)
Definition ALIASES : list (string * list string) :=
  [ ("character", ["character"; "karakter"]);
    ("factions",  ["faction"; "factions"; "tim"; "team"; "faksi"]);
    ("items",     ["item"; "items"; "artefak"; "artifact"; "barang"]);
    ("maps",      ["maps"; "map"; "peta"; "lokasi"; "area"]);
    ("npc",       ["npc"]);
    ("timeline",  ["timeline"; "linimasa"; "alur"; "sejarah"]) ].

(** The loop [for cat, keys in ALIASES.items(): if prefix in keys: return cat]. *)
Fixpoint alias_category (table : list (string * list string)) (prefix : string)
  : option string :=
  match table with
  | [] => None
  | (cat, keys) :: table' =>
      if bool_decide (prefix ∈ keys) then Some cat
      else alias_category table' prefix
  end.

(** [detect_category_and_query(text)]: the pair [(category or None, query)].
    The unpacking of [raw.split(":", 1)] raises [ValueError] unless the
    split has two parts. *)
Definition detect_category_and_query (text : option string)
  : res (option string * string) :=
  let raw := Py.strip (Py.or_empty text) in
  if Py.contains colon raw then
    match Py.split colon 1 raw with
    | [prefix; rest] =>
        let prefix := Py.strip (Py.lower prefix) in
        let rest := Py.strip rest in
        match alias_category ALIASES prefix with
        | Some cat => Ok (Some cat, rest)
        | None => Ok (None, raw)
        end
    | _ => Raise "not enough values to unpack (expected 2, got 1)"
    end
  else Ok (None, raw).

(** *** Retrieved chunks and the source note *)

Record TextNode : Type := { text : string; metadata : gmap string string }.

(** What a retriever hands back: a [NodeWithScore], which has a [node]
    attribute, or an object of some other class [cls], which has none. *)
Inductive retrieved : Type :=
| NodeWithScore (node : TextNode)
| Other (cls : string).

(** The truth value of an optional [str]: [None] and the empty string are false. *)
Definition truthy_opt (x : option string) : bool :=
  match x with Some s => Py.truthy s | None => false end.

(** [a or b] *)
Definition py_or (a b : option string) : option string :=
  if truthy_opt a then a else b.

(** [getattr(n, "node", n).metadata if hasattr(n, "node") else {}] *)
Definition meta_of (n : retrieved) : gmap string string :=
  match n with
  | NodeWithScore nd => metadata nd
  | Other _ => ∅
  end.

(** [meta.get("file_name") or meta.get("filename") or meta.get("id")] *)
Definition fname_of (n : retrieved) : option string :=
  let meta := meta_of n in
  py_or (py_or (meta !! "file_name") (meta !! "filename")) (meta !! "id").

(** The loop of [collect_sources], [files] being the list built so far. *)
Fixpoint collect_files (nodes : list retrieved) (max_files : nat)
    (files : list string) : list string :=
  match nodes with
  | [] => files
  | n :: nodes' =>
      let fname := fname_of n in
      let files' :=
        match fname with
        | Some f =>
            if truthy_opt fname && negb (bool_decide (f ∈@{list string} files))
            then files ++ [f] else files
        | None => files
        end in
      if (max_files <=? length files')%nat then files'
      else collect_files nodes' max_files files'
  end.

Definition max_files_default : nat := 5.

(** [collect_sources(nodes, max_files)] *)
Definition collect_sources (nodes : list retrieved) (max_files : nat) : string :=
  match collect_files nodes max_files [] with
  | [] => "dataset"
  | files => Py.join ", " files
  end.

(** *** What the handlers send and call *)

(** An inline keyboard: rows of buttons [(label, callback_data)]. *)
Definition keyboard : Type := list (list (string * string)).

Inductive event : Type :=
| ReplyText (text : string) (reply_markup : option keyboard)
    (* update.message.reply_text *)
| EditLoading (text : string)
    (* context.bot.edit_message_text on the placeholder message *)
| AnswerQuery
    (* q.answer() *)
| EditQueryMessage (text : string) (reply_markup : option keyboard)
    (* q.edit_message_text *)
| Retrieve (cat : string) (query : string)
    (* retrievers[cat].retrieve(query) *)
| Complete (prompt : string).
    (* Settings.llm.acomplete(prompt) *)

(** A computation that sends and calls, and then returns or raises.  The
    calls kept are those of the retrievers and of the language model. *)
Definition M (A : Type) : Type := res A * list event.

#[global] Instance M_ret : MRet M := λ A a, (Ok a, []).

#[global] Instance M_bind : MBind M := λ A B f m,
  match m with
  | (Ok a, l) => let '(r, l') := f a in (r, l ++ l')
  | (Raise e, l) => (Raise e, l)
  end.

Definition lift {A} (r : res A) : M A := (r, []).

Definition emit (e : event) : M unit := (Ok tt, [e]).

(** An external call: logged, then its outcome. *)
Definition call {A} (e : event) (r : res A) : M A := (r, [e]).

(** [try: m  except Exception: h] *)
Definition try_except {A} (m : M A) (h : string → M A) : M A :=
  match m with
  | (Ok a, l) => (Ok a, l)
  | (Raise e, l) => let '(r, l') := h e in (r, l ++ l')
  end.

(** *** The process-wide objects *)

Definition retriever : Type := string → res (list retrieved).

(** The response of the language model: its [text] attribute and [str(resp)]. *)
Record completion : Type := { resp_text : option string; resp_str : string }.

Record env : Type := {
  retrievers : list (string * retriever);
    (* the dict filled by load_retrievers, in insertion order *)
  reranker : option (list retrieved → string → res (list retrieved));
    (* None when the import or the constructor failed; postprocess_nodes
       returns a new list or raises, the list it is given stays as it is *)
  llm_acomplete : string → res completion
    (* Settings.llm.acomplete *)
}.

(** [cat in retrievers] *)
Definition indexed (E : env) (cat : string) : bool :=
  bool_decide (cat ∈ (retrievers E).*1).

(** [cat in retrievers] for a [cat] that may be [None], which is no key. *)
Definition indexed_opt (E : env) (cat : option string) : bool :=
  match cat with Some c => indexed E c | None => false end.

(** [f"{cat}"] *)
Definition format_cat (cat : option string) : string :=
  match cat with Some c => c | None => "None" end.

(** [d[key]] on an insertion-ordered dict; [KeyError] when absent. *)
Fixpoint getitem {V} (d : list (string * V)) (key : string) : res V :=
  match d with
  | [] => Raise ("'" +:+ key +:+ "'")
  | (k, v) :: d' => if bool_decide (k = key) then Ok v else getitem d' key
  end.

(** *** Conversation state *)

(** [context.user_data.get("selected_cat")]: [None] when the key is absent
    and when it holds [None]. *)
Definition selected_cat (user_data : gmap string (option string)) : option string :=
  mjoin (user_data !! "selected_cat").

(** [cat] when it is truthy, as tested by [if cat]. *)
Definition truthy_cat (cat : option string) : option string :=
  if truthy_opt cat then cat else None.

(** *** handle_message *)

Definition loading_text : string := "⏳ Lagi nyari jawabannya...".

Definition not_indexed_text (cat : string) : string :=
  "Kategori '" +:+ cat +:+ "' belum ter-index. Jalankan build_index.py dulu.".

Definition not_found_text : string :=
  "🙇‍♂️ Maaf, belum ketemu di basis data. Coba spesifikkan pertanyaan atau cek index.".

Definition context_separator : string :=
  Py.nl +:+ Py.nl +:+ "---" +:+ Py.nl +:+ Py.nl.

Definition max_context_chunks : nat := 12.

Definition prompt_text (context_text q : string) : string :=
  "Jawablah pertanyaan hanya dengan memanfaatkan KONTEN berikut. " +:+
  "Jika jawaban persis tidak ada, gunakan informasi paling relevan dari KONTEN untuk memberi penjelasan ringkas. " +:+
  "Jika sama sekali tidak relevan, tulis: 'Informasi tidak ditemukan di basis data.'" +:+ Py.nl +:+ Py.nl +:+
  "--- KONTEN ---" +:+ Py.nl +:+ context_text +:+ Py.nl +:+ Py.nl +:+
  "--- PERTANYAAN ---" +:+ Py.nl +:+ q +:+ Py.nl +:+ Py.nl +:+
  "--- PETUNJUK ---" +:+ Py.nl +:+
  "- Utamakan fakta dari KONTEN." +:+ Py.nl +:+
  "- Jika tidak ada fakta langsung, boleh simpulkan singkat dari potongan yang terkait." +:+ Py.nl +:+
  "- Jika benar-benar kosong, tulis: 'Informasi tidak ditemukan di basis data.'" +:+ Py.nl.

Definition keyboard_fb (q_raw : string) : keyboard :=
  [ [ ("1", "fb|1|" +:+ q_raw); ("2", "fb|2|" +:+ q_raw); ("3", "fb|3|" +:+ q_raw);
      ("4", "fb|4|" +:+ q_raw); ("5", "fb|5|" +:+ q_raw) ] ].

Definition keyboard_next : keyboard :=
  [ [ ("Tanya lagi 🔄", "NEXT|again") ]; [ ("Selesai ✅", "NEXT|done") ] ].

(** [n.node.text]; [AttributeError] on an object without [node]. *)
Definition node_text (n : retrieved) : res string :=
  match n with
  | NodeWithScore nd => Ok (text nd)
  | Other cls => Raise ("'" +:+ cls +:+ "' object has no attribute 'node'")
  end.

(** [[n.node.text for n in nodes]] *)
Fixpoint node_texts (nodes : list retrieved) : res (list string) :=
  match nodes with
  | [] => Ok []
  | n :: nodes' =>
      match node_text n with
      | Ok t =>
          match node_texts nodes' with
          | Ok ts => Ok (t :: ts)
          | Raise e => Raise e
          end
      | Raise e => Raise e
      end
  end.

(** [for r in retrievers.values(): retrieved_nodes.extend(r.retrieve(q))],
    [acc] being [retrieved_nodes] so far. *)
Fixpoint retrieve_all (rs : list (string * retriever)) (q : string)
    (acc : list retrieved) : M (list retrieved) :=
  match rs with
  | [] => mret acc
  | (c, r) :: rs' =>
      ns ← call (Retrieve c q) (r q);
      retrieve_all rs' q (acc ++ ns)
  end.

(** Step 3 of the handler: one category, or all of them. *)
Definition retrieve_nodes (E : env) (cat : option string) (q : string)
  : M (list retrieved) :=
  match truthy_cat cat with
  | Some c =>
      r ← lift (getitem (retrievers E) c);
      ns ← call (Retrieve c q) (r q);
      mret ([] ++ ns)
  | None => retrieve_all (retrievers E) q []
  end.

(** Step 4 of the handler: rerank when there is a reranker and something to
    rank; an exception of the reranker is swallowed. *)
Definition rerank_nodes (E : env) (retrieved_nodes : list retrieved) (q : string)
  : M (list retrieved) :=
  match reranker E, retrieved_nodes with
  | Some rr, _ :: _ =>
      try_except (lift (rr retrieved_nodes q)) (λ _, mret retrieved_nodes)
  | _, _ => mret retrieved_nodes
  end.

(** Answer composition: the context, the empty-context reply, the prompt,
    the call of the model and the three messages that follow. *)
Definition compose_answer (E : env) (q_raw : string) (cat : option string)
    (q : string) (retrieved_nodes : list retrieved) : M unit :=
  contexts ← lift (node_texts retrieved_nodes);
  let context_text := Py.join context_separator (take max_context_chunks contexts) in
  if negb (Py.truthy (Py.strip context_text)) then
    emit (EditLoading not_found_text)
  else
    let source_note :=
      "(Sumber: " +:+ collect_sources retrieved_nodes max_files_default +:+ ")" in
    let mode_note :=
      "[Mode: " +:+ (if negb (truthy_opt cat) then "Semua" else format_cat cat) +:+ "]" in
    let prompt := prompt_text context_text q in
    resp ← call (Complete prompt) (llm_acomplete E prompt);
    let answer :=
      Py.strip (if truthy_opt (resp_text resp)
                then Py.or_empty (resp_text resp) else resp_str resp) in
    emit (EditLoading ("🧠 " +:+ answer +:+ Py.nl +:+ Py.nl +:+ source_note +:+
                       Py.nl +:+ mode_note));;
    emit (ReplyText "Nilai jawaban ini (1=buruk, 5=bagus):" (Some (keyboard_fb q_raw)));;
    emit (ReplyText "Apakah masih ingin bertanya?" (Some keyboard_next)).

(** The body of the [try] block of [handle_message]. *)
Definition handle_message_try (E : env) (q_raw : string)
    (user_data : gmap string (option string)) : M unit :=
  '(cat_from_prefix, q) ← lift (detect_category_and_query (Some q_raw));
  let selected := selected_cat user_data in
  let cat := match cat_from_prefix with Some c => Some c | None => selected end in
  if truthy_opt cat && negb (indexed_opt E cat) then
    emit (EditLoading (not_indexed_text (format_cat cat)))
  else
    retrieved_nodes ← retrieve_nodes E cat q;
    retrieved_nodes ← rerank_nodes E retrieved_nodes q;
    compose_answer E q_raw cat q retrieved_nodes.

(** [handle_message] on an update that has a [message], [message_text] being
    [update.message.text]: the placeholder, then the [try] block; whatever it
    raises becomes the text of the placeholder. *)
Definition handle_message (E : env) (message_text : option string)
    (user_data : gmap string (option string)) : M unit :=
  let q_raw := Py.or_empty message_text in
  emit (ReplyText loading_text None);;
  try_except (handle_message_try E q_raw user_data)
    (λ e, emit (EditLoading ("❌ Error saat memproses: " +:+ e))).

(** [handle_message] on any update the message handler passes on, [message]
    being [update.message] given by its [text].  An edited message and a
    channel post are updates with text that have no [message]: on them the
    first line of the handler raises, before the [try] and before anything is
    sent. *)
Definition handle_message_on (E : env) (message : option (option string))
    (user_data : gmap string (option string)) : M unit :=
  match message with
  | Some message_text => handle_message E message_text user_data
  | None => lift (Raise "'NoneType' object has no attribute 'text'")
  end.

(** The messages sent and the external calls made, in order. *)
Definition events {A} (m : M A) : list event := m.2.

(** The prompts given to the language model, in order. *)
Definition completions (l : list event) : list string :=
  omap (λ e, match e with Complete p => Some p | _ => None end) l.

(** The texts put on the placeholder message, in order. *)
Definition loading_edits (l : list event) : list string :=
  omap (λ e, match e with EditLoading t => Some t | _ => None end) l.

(** The retrievals made, in order, as (category, query). *)
Definition retrievals (l : list event) : list (string * string) :=
  omap (λ e, match e with Retrieve c q => Some (c, q) | _ => None end) l.

(** *** Callback handlers *)

Inductive cell : Type := CInt (n : Z) | CStr (s : string).

(** The chat's state: [context.user_data], the records of
    [feedback_log.csv] (an empty list when the file is empty or absent), and
    what has been sent. *)
Record world : Type := {
  user_data : gmap string (option string);
  feedback_log : list (list cell);
  outbox : list event
}.

Definition send (e : event) (w : world) : world :=
  {| user_data := user_data w; feedback_log := feedback_log w;
     outbox := outbox w ++ [e] |}.

Definition with_user_data (f : gmap string (option string) → gmap string (option string))
    (w : world) : world :=
  {| user_data := f (user_data w); feedback_log := feedback_log w;
     outbox := outbox w |}.

(** Writing [rows] at the end of the file opened in mode ["a"]. *)
Definition append_rows (rows : list (list cell)) (w : world) : world :=
  {| user_data := user_data w; feedback_log := feedback_log w ++ rows;
     outbox := outbox w |}.

Record user : Type := { id : Z; username : option string }.

Record callback_query : Type := { data : option string; from_user : user }.

(** [q.data.split(sep, maxsplit)]; [AttributeError] when [q.data] is [None]. *)
Definition split_data (sep : ascii) (maxsplit : nat) (d : option string)
  : res (list string) :=
  match d with
  | Some s => Ok (Py.split sep maxsplit s)
  | None => Raise "'NoneType' object has no attribute 'split'"
  end.

(** [_, b = parts] *)
Definition unpack2 (parts : res (list string)) : res (string * string) :=
  match parts with
  | Ok [a; b] => Ok (a, b)
  | Ok (_ :: _ :: _ :: _) => Raise "too many values to unpack (expected 2)"
  | Ok parts =>
      Raise ("not enough values to unpack (expected 2, got "
             +:+ Py.str_of_N (N.of_nat (length parts)) +:+ ")")
  | Raise e => Raise e
  end.

(** [_, b, c = parts] *)
Definition unpack3 (parts : res (list string)) : res (string * string * string) :=
  match parts with
  | Ok [a; b; c] => Ok (a, b, c)
  | Ok (_ :: _ :: _ :: _ :: _) => Raise "too many values to unpack (expected 3)"
  | Ok parts =>
      Raise ("not enough values to unpack (expected 3, got "
             +:+ Py.str_of_N (N.of_nat (length parts)) +:+ ")")
  | Raise e => Raise e
  end.

Definition category_keyboard : keyboard :=
  [ [ ("Character", "CAT|character"); ("Factions", "CAT|factions") ];
    [ ("Items", "CAT|items"); ("Maps", "CAT|maps") ];
    [ ("NPC", "CAT|npc"); ("Timeline", "CAT|timeline") ];
    [ ("🔎 Semua Kategori", "CAT|all") ] ].

Definition start_cmd (w : world) : world :=
  send (ReplyText "Pilih kategori yang ingin kamu tanyakan:" (Some category_keyboard))
       (with_user_data (delete "selected_cat") w).

Definition reset_cmd (w : world) : world :=
  send (ReplyText "Kategori direset. Ketik /start untuk pilih lagi." None)
       (with_user_data (delete "selected_cat") w).

Definition unknown_choice_text : string := "Pilihan tidak dikenal. /start lagi ya.".

Definition pick_not_indexed_text (cat : string) : string :=
  "Kategori '" +:+ cat +:+
  "' belum ter-index. Jalankan build_index.py untuk folder itu dulu.".

Definition pick_category_callback (E : env) (q : callback_query) (w : world) : world :=
  let w := send AnswerQuery w in
  match unpack2 (split_data bar 1 (data q)) with
  | Raise _ => send (EditQueryMessage unknown_choice_text None) w
  | Ok (_, cat) =>
      if bool_decide (cat = "all") then
        send (EditQueryMessage
                ("Mode: 🔎 semua kategori." +:+ Py.nl +:+ "Tulis pertanyaanmu:") None)
             (with_user_data (insert "selected_cat" None) w)
      else if negb (indexed E cat) then
        send (EditQueryMessage (pick_not_indexed_text cat) None) w
      else
        let pretty := Py.capitalize cat in
        send (EditQueryMessage
                ("Mode: 🗂 " +:+ pretty +:+ Py.nl +:+ "Silakan ketik pertanyaanmu…") None)
             (with_user_data (insert "selected_cat" (Some cat)) w)
  end.

Definition tips_text : string :=
  "Terima kasih sudah menggunakan bot ini 👋" +:+ Py.nl +:+ Py.nl +:+
  "Saran berikutnya:" +:+ Py.nl +:+
  "• Ketik /start untuk ganti kategori dan tanya lagi" +:+ Py.nl +:+
  "• Ketik /reset kalau mau hapus pilihan kategori yang aktif" +:+ Py.nl +:+
  "• Pastikan data kamu up-to-date lalu rebuild index (jalankan build_index.py) kalau ada perubahan".

Definition next_step_callback (q : callback_query) (w : world) : world :=
  let w := send AnswerQuery w in
  match unpack2 (split_data bar 1 (data q)) with
  | Raise _ => send (EditQueryMessage "Pilihan tidak dikenal." None) w
  | Ok (_, action) =>
      if bool_decide (action = "again") then
        send (EditQueryMessage "Pilih kategori baru:" (Some category_keyboard)) w
      else
        send (EditQueryMessage tips_text None) w
  end.

Definition invalid_feedback_text : string := "⚠️ Format feedback tidak valid.".

(** The keys of [row], which are the field names of the writer. *)
Definition fieldnames : list string :=
  ["user_id"; "username"; "score"; "question"; "timestamp"].

(** The values of [row], in the order of its keys. *)
Definition feedback_row (u : user) (score question : string)
    (now : Datetime.datetime) : list cell :=
  [ CInt (id u); CStr (Py.or_empty (username u)); CStr score; CStr question;
    CStr (Datetime.isoformat now) ].

(** [feedback_callback]; [now] is what [datetime.now()] returns.  The
    position [f.tell()] of a file opened for appending is its size, which is
    0 exactly when the file holds no record. *)
Definition feedback_callback (now : Datetime.datetime) (q : callback_query)
    (w : world) : world :=
  let w := send AnswerQuery w in
  match unpack3 (split_data bar 2 (data q)) with
  | Raise _ => send (EditQueryMessage invalid_feedback_text None) w
  | Ok (_, score, question) =>
      let row := feedback_row (from_user q) score question now in
      let header :=
        match feedback_log w with
        | [] => [CStr <$> fieldnames]
        | _ :: _ => []
        end in
      let w := append_rows (header ++ [row]) w in
      send (EditQueryMessage
              ("✅ Terima kasih! Feedback " +:+ score +:+ "/5 terekam.") None) w
  end.

(** *** Filling a dict *)

(** [d[key] = v] on an insertion-ordered dict *)
Fixpoint setitem {V} (d : list (string * V)) (key : string) (v : V)
  : list (string * V) :=
  match d with
  | [] => [(key, v)]
  | (k, v') :: d' =>
      if bool_decide (k = key) then (k, v) :: d' else (k, v') :: setitem d' key v
  end.

End Main.

(** ** build_index.py *)

Module BuildIndex.

Import Disk.

Definition DATA_DIR : string := "data".

(** [CATEGORIES], in the order of the dict literal. *)
Definition CATEGORIES : list (string * string) :=
  [ ("character", path_join DATA_DIR "character");
    ("factions",  path_join DATA_DIR "factions");
    ("items",     path_join DATA_DIR "items");
    ("maps",      path_join DATA_DIR "maps");
    ("npc",       path_join DATA_DIR "npc");
    ("timeline",  path_join DATA_DIR "timeline") ].

(** [sorted(paths)]: insertion into a sorted list, by code units. *)
Fixpoint insert_sorted (p : string) (l : list string) : list string :=
  match l with
  | [] => [p]
  | x :: l' => if String.leb p x then p :: l else x :: insert_sorted p l'
  end.

Definition sorted (l : list string) : list string := foldr insert_sorted [] l.

(** A computation over a state [S] that returns or raises. *)
Definition ST (S A : Type) : Type := S → res A * S.

#[global] Instance ST_ret {S} : MRet (ST S) := λ A a s, (Ok a, s).

#[global] Instance ST_bind {S} : MBind (ST S) := λ A B f m s,
  match m s with
  | (Ok a, s') => f a s'
  | (Raise e, s') => (Raise e, s')
  end.

Section Builder.
Context {Doc Index : Type}.

(** [SimpleDirectoryReader(input_files=..., filename_as_id=True).load_data()] *)
Variable load_data : list string → res (list Doc).

(** [VectorStoreIndex(parser.get_nodes_from_documents(docs))]: chunking
    and embedding. *)
Variable make_index : list Doc → res Index.

(** The disk and what has been printed. *)
Record state : Type := { fs : disk Index; out : list string }.

Definition print (line : string) : ST state unit :=
  λ st, (Ok tt, {| fs := fs st; out := out st ++ [line] |}).

(** [src_dir.glob("*.md")] *)
Definition glob_md (src_dir : string) : ST state (list string) :=
  λ st, (Ok (default [] (md_files (fs st) !! src_dir)), st).

(** [p.exists()] *)
Definition path_exists (p : string) : ST state bool :=
  λ st, (Ok (bool_decide (is_Some (dirs (fs st) !! p))), st).

(** [shutil.rmtree(p)] *)
Definition rmtree (p : string) : ST state unit :=
  λ st, (Ok tt, {| fs := {| md_files := md_files (fs st);
                            dirs := delete p (dirs (fs st)) |};
                   out := out st |}).

(** [index.storage_context.persist(persist_dir=p)]: the directory is made
    and the state of the index written into it. *)
Definition persist (p : string) (idx : Index) : ST state unit :=
  λ st, (Ok tt, {| fs := {| md_files := md_files (fs st);
                            dirs := <[p := Some idx]> (dirs (fs st)) |};
                   out := out st |}).

(** [p.mkdir(parents=True, exist_ok=True)] *)
Definition mkdir (p : string) : ST state unit :=
  λ st, (Ok tt, {| fs := {| md_files := md_files (fs st);
                            dirs := match dirs (fs st) !! p with
                                    | Some _ => dirs (fs st)
                                    | None => <[p := None]> (dirs (fs st))
                                    end |};
                   out := out st |}).

Definition external {A} (r : res A) : ST state A := λ st, (r, st).

Definition skip_text (category src_dir : string) : string :=
  "⚠️  Lewati '" +:+ category +:+ "': gak ketemu file .md di " +:+ src_dir.

Definition build_one (category src_dir persist_root : string) : ST state unit :=
  md ← glob_md src_dir;
  let md := sorted md in
  match md with
  | [] => print (skip_text category src_dir)
  | _ :: _ =>
      let persist_dir := path_join persist_root category in
      there ← path_exists persist_dir;
      (if there : bool then rmtree persist_dir else mret tt);;
      print ("📥 [" +:+ category +:+ "] Baca " +:+
             Py.str_of_N (N.of_nat (length md)) +:+ " file markdown...");;
      docs ← external (load_data md);
      print ("🔨 [" +:+ category +:+ "] Susun nodes & bangun index...");;
      index ← external (make_index docs);
      print ("💾 [" +:+ category +:+ "] Simpan index ke " +:+ persist_dir +:+ " ...");;
      persist persist_dir index
  end.

(** [for cat, path in CATEGORIES.items(): build_one(cat, path, PERSIST_ROOT)] *)
Fixpoint build_each (cats : list (string * string)) : ST state unit :=
  match cats with
  | [] => mret tt
  | (cat, path) :: cats' => build_one cat path PERSIST_ROOT;; build_each cats'
  end.

Definition main : ST state unit :=
  mkdir PERSIST_ROOT;;
  build_each CATEGORIES;;
  print "✅ Beres. Semua index tersimpan di folder 'storage/' per kategori.".

End Builder.

End BuildIndex.

(** ** main.py at start-up: load_retrievers *)

Module Startup.
Import Main Disk.

(** [repr(s)] of a [str] without quote, backslash or control character, as
    the names of the categories are. *)
Definition repr_str (s : string) : string := "'" +:+ s +:+ "'".

(** [str(l)] of a list of such strings. *)
Definition repr_list (l : list string) : string :=
  "[" +:+ Py.join ", " (repr_str <$> l) +:+ "]".

Definition missing_root_text : string :=
  "Folder 'storage/' tidak ada. Jalankan build_index.py dulu.".

Definition missing_index_text (cat : string) : string :=
  "⚠️  Index '" +:+ cat +:+ "' tidak ada, dilewati.".

Section Loader.
Context {Index : Type}.

(** [StorageContext.from_defaults], [load_index_from_storage] and
    [as_retriever(similarity_top_k=8)] on the content of a directory. *)
Variable load_index : option Index → res retriever.

(** The loop over [CATEGORIES]: [acc] is the dict [retrievers] so far, [out]
    the lines printed so far. *)
Fixpoint load_categories (cats : list string) (d : disk Index)
    (acc : list (string * retriever)) (out : list string)
  : res (list (string * retriever)) * list string :=
  match cats with
  | [] => (Ok acc, out)
  | cat :: cats' =>
      let cat_dir := path_join PERSIST_ROOT cat in
      match dirs d !! cat_dir with
      | None => load_categories cats' d acc (out ++ [missing_index_text cat])
      | Some content =>
          match load_index content with
          | Ok r => load_categories cats' d (setitem acc cat r) out
          | Raise e => (Raise e, out)
          end
      end
  end.

(** [load_retrievers()]: the dict [retrievers] it fills, or the exception,
    and the lines it prints. *)
Definition load_retrievers (d : disk Index)
  : res (list (string * retriever)) * list string :=
  match dirs d !! PERSIST_ROOT with
  | None => (Raise missing_root_text, [])
  | Some _ =>
      match load_categories CATEGORIES d [] [] with
      | (Ok rs, out) =>
          (Ok rs,
           out ++ ["✅ Retrievers loaded: " +:+ repr_list (BuildIndex.sorted rs.*1)])
      | (Raise e, out) => (Raise e, out)
      end
  end.

End Loader.

End Startup.

(** ** The application: updates and their handlers *)

Module Chat.
Import Main.

(** An update the application receives.  [EditedText] is an edited message
    or a channel post with text: it passes the filter of the message handler
    and has no [message]. *)
Inductive update : Type :=
| StartCommand
| ResetCommand
| TextMessage (text : option string)
| EditedText
| CallbackQuery (q : callback_query).

(** [re.match(r"^TAG\|", data)] *)
Definition has_tag (tag : string) (q : callback_query) : bool :=
  match data q with
  | Some d => String.prefix (tag +:+ "|") d
  | None => false
  end.

(** [handle_message] in the chat: it reads the session and only sends; an
    exception that escapes it is logged by the application. *)
Definition on_message (E : env) (message : option (option string)) (w : world)
  : world :=
  {| user_data := user_data w; feedback_log := feedback_log w;
     outbox := outbox w ++ events (handle_message_on E message (user_data w)) |}.

(** The handlers registered in [main], tried in the order of registration;
    [now] is the clock at the time of the update. *)
Definition dispatch_update (E : env) (now : Datetime.datetime) (u : update)
    (w : world) : world :=
  match u with
  | StartCommand => start_cmd w
  | ResetCommand => reset_cmd w
  | CallbackQuery q =>
      if has_tag "CAT" q then pick_category_callback E q w
      else if has_tag "NEXT" q then next_step_callback q w
      else if has_tag "fb" q then feedback_callback now q w
      else w
  | TextMessage text => on_message E (Some text) w
  | EditedText => on_message E None w
  end.

(** A run of the chat over the updates [us], each with its time. *)
Fixpoint run (E : env) (us : list (Datetime.datetime * update)) (w : world) : world :=
  match us with
  | [] => w
  | (now, u) :: us' => run E us' (dispatch_update E now u w)
  end.

(** A chat that has not begun. *)
Definition fresh : world :=
  {| user_data := ∅; feedback_log := []; outbox := [] |}.

(** The category selected in the session, if any, is a loaded one. *)
Definition session_ok (E : env) (ud : gmap string (option string)) : Prop :=
  ∀ c, selected_cat ud = Some c → indexed E c = true.
End Chat.

(** ** What the properties are stated with *)

Module Observe.
Import Py Main.

(** [p] is one of the aliases that [ALIASES] lists for the category [cat]. *)
Definition alias_of (cat p : string) : Prop :=
  ∃ keys, (cat, keys) ∈ ALIASES ∧ p ∈ keys.

(** The categories whose retriever is called when all are searched: each in
    turn, up to and including the first one that raises. *)
Fixpoint reached (rs : list (string * retriever)) (q : string) : list string :=
  match rs with
  | [] => []
  | (c, r) :: rs' =>
      c :: match r q with Ok _ => reached rs' q | Raise _ => [] end
  end.

(** Where a question goes: to the one category [cat] when there is one and
    it is indexed, nowhere when it is not indexed, and to every loaded
    category when there is none. *)
Definition dispatch (E : env) (cat : option string) (q : string)
  : list (string * string) :=
  match truthy_cat cat with
  | Some c => if indexed E c then [(c, q)] else []
  | None => (λ c, (c, q)) <$> reached (retrievers E) q
  end.
End Observe.

Module Rerank.
Import Main.

(** The process without its reranker, as when the import of the reranker
    failed at start-up. *)
Definition without_reranker (E : env) : env :=
  {| retrievers := retrievers E; reranker := None;
     llm_acomplete := llm_acomplete E |}.

(** The reranker raises on these nodes and this query, or there is none. *)
Definition rerank_fails (E : env) (nodes : list retrieved) (q : string) : Prop :=
  match reranker E with
  | Some rr => ∃ e, rr nodes q = Raise e
  | None => True
  end.

(** The reranker fails on what the message [text] makes the handler
    retrieve: the nodes of the resolved category for the resolved query. *)
Definition rerank_fails_on (E : env) (text : string)
    (ud : gmap string (option string)) : Prop :=
  ∀ cp q nodes l,
    detect_category_and_query (Some text) = Ok (cp, q) →
    retrieve_nodes E (match cp with Some c => Some c | None => selected_cat ud end) q
      = (Ok nodes, l) →
    rerank_fails E nodes q.
End Rerank.

Module Payload.
Import Main.

(** How often [c] occurs in [s]. *)
Fixpoint count_char (c : ascii) (s : string) : nat :=
  match s with
  | EmptyString => 0
  | String x s' => (if Ascii.eqb x c then 1 else 0) + count_char c s'
  end.

(** A callback payload that does not split into [parts] parts at the bar:
    there is no payload, or it has fewer than [parts - 1] bars. *)
Definition malformed (parts : nat) (d : option string) : Prop :=
  match d with
  | Some s => count_char bar s < parts - 1
  | None => True
  end.
End Payload.

Module Sources.
Import Main.

(** The file name a chunk contributes to the source note: its [fname] when
    that is truthy. *)
Definition shown_name (n : retrieved) : option string := truthy_cat (fname_of n).

(** The names of [l] that are not in [seen], each once, in the order in
    which they first occur. *)
Fixpoint first_seen (seen l : list string) : list string :=
  match l with
  | [] => []
  | x :: l' =>
      if bool_decide (x ∈ seen) then first_seen seen l'
      else x :: first_seen (seen ++ [x]) l'
  end.

(** The distinct source files of the chunks, in first-seen order. *)
Definition distinct_files (nodes : list retrieved) : list string :=
  first_seen [] (omap shown_name nodes).
End Sources.

(** ** Sample processes, chats and disks *)

Module Sample.
Import Main.

(** Characters outside ASCII: the no-break space U+00A0, the ideographic
    space U+3000 and the Kelvin sign U+212A, whose lower case is [k]. *)
Definition nbsp : string := Py.utf8 0xA0.
Definition wide_space : string := Py.utf8 0x3000.
Definition kelvin : string := Py.utf8 0x212A.

Definition chunk (t f : string) : retrieved :=
  NodeWithScore {| text := t; metadata := {[ "file_name" := f ]} |}.

Definition reply (t : string) : res completion :=
  Ok {| resp_text := Some t; resp_str := t |}.

(** Two indexed categories, no reranker. *)
Definition bot : env :=
  {| retrievers :=
       [ ("maps", λ _, Ok [chunk "Kota tua di utara." "kota.md"]);
         ("npc", λ _, Ok [chunk "Penjaga gerbang." "penjaga.md"]) ];
     reranker := None;
     llm_acomplete := λ _, reply " Di utara. " |}.

(** Three categories; the retriever of the second raises. *)
Definition flaky_bot : env :=
  {| retrievers :=
       [ ("maps", λ _, Ok [chunk "Kota tua di utara." "kota.md"]);
         ("npc", λ _, Raise "index npc rusak");
         ("timeline", λ _, Ok [chunk "Tahun pertama." "awal.md"]) ];
     reranker := None;
     llm_acomplete := λ _, reply " Di utara. " |}.

Definition noon : Datetime.datetime :=
  {| Datetime.year := 2025; Datetime.month := 3; Datetime.day := 9;
     Datetime.hour := 12; Datetime.minute := 0; Datetime.second := 7;
     Datetime.microsecond := 1500 |}.

(** The same, with a reranker that raises whenever it is called. *)
Definition broken_reranker_bot : env :=
  {| retrievers := retrievers bot;
     reranker := Some (λ _ _, Raise "CUDA out of memory");
     llm_acomplete := llm_acomplete bot |}.

(** One category, whose retriever returns two chunks of blank text. *)
Definition blank_bot : env :=
  {| retrievers :=
       [ ("maps", λ _, Ok [chunk "" "kota.md"; chunk "  " "desa.md"]) ];
     reranker := None;
     llm_acomplete := llm_acomplete bot |}.
End Sample.

Module SampleDisk.
Import Disk BuildIndex.

(** A framework that reads and indexes without fail: the index of a
    category is the list of the files it was built from. *)
Definition read_all (paths : list string) : res (list string) := Ok paths.
Definition index_all (docs : list string) : res (list string) := Ok docs.

(** Markdown files for the maps only; stale indexes for maps and NPCs. *)
Definition before : @state (list string) :=
  {| fs := {| md_files := {[ "data/maps" := ["data/maps/kota.md"; "data/maps/desa.md"] ]};
              dirs := {[ "storage" := None;
                         "storage/maps" := Some ["data/maps/lama.md"];
                         "storage/npc" := Some ["data/npc/penjaga.md"] ]} |};
     out := [] |}.
End SampleDisk.

Module Outcome.
Import Main.

(** The keyboards sent along with replies, in order. *)
Definition markups (l : list event) : list keyboard :=
  omap (λ e, match e with ReplyText _ (Some k) => Some k | _ => None end) l.

Definition is_retrieve (e : event) : bool :=
  match e with Retrieve _ _ => true | _ => false end.

(** The text put on the placeholder when the [try] block raises [e]. *)
Definition error_text (e : string) : string := "❌ Error saat memproses: " +:+ e.

(** The answer shown for a response of the model. *)
Definition shown_answer (resp : completion) : string :=
  Py.strip (if truthy_opt (resp_text resp)
            then Py.or_empty (resp_text resp) else resp_str resp).

(** The events of one call to each of the retrievers [rs]. *)
Definition retrieve_events (rs : list (string * retriever)) (q : string) : list event :=
  (λ cr, Retrieve cr.1 q) <$> rs.
End Outcome.

Module Log.
Import Py Main Chat Payload.

(** A record of the feedback log that is a row of [feedback_callback]: the
    user id as a number, then four texts. *)
Definition is_row (r : list cell) : bool :=
  match r with
  | [CInt _; CStr _; CStr _; CStr _; CStr _] => true
  | _ => false
  end.

(** A record that is the header line. *)
Definition is_header (r : list cell) : bool :=
  match r with
  | [CStr a; CStr b; CStr c; CStr d; CStr e] =>
      bool_decide ([a; b; c; d; e] = fieldnames)
  | _ => false
  end.

(** A feedback log as [csv.DictReader] expects it: empty, or the header line
    followed by rows only. *)
Definition well_formed (log : list (list cell)) : bool :=
  match log with
  | [] => true
  | h :: rows => is_header h && forallb is_row rows
  end.

(** An update that is a rating: a callback whose payload starts with [fb|]
    and holds a second bar. *)
Definition is_rating (u : update) : bool :=
  match u with
  | CallbackQuery q =>
      has_tag "fb" q &&
      match data q with
      | Some d => bool_decide (2 ≤ count_char bar d)
      | None => false
      end
  | _ => false
  end.

(** How many of the updates are ratings. *)
Definition ratings (us : list (Datetime.datetime * update)) : nat :=
  length (List.filter (λ p, is_rating p.2) us).
End Log.

Module Storage.
Import Main Disk.

Section Loaded.
Context {Index : Type}.
Variable load_index : option Index → res retriever.

(** The directory of the category [c] exists under the persist root. *)
Definition present (d : disk Index) (c : string) : bool :=
  bool_decide (is_Some (dirs d !! path_join PERSIST_ROOT c)).

(** The directory of [c], if there is one, holds an index that loads. *)
Definition loadable (d : disk Index) (c : string) : Prop :=
  ∀ content, dirs d !! path_join PERSIST_ROOT c = Some content →
             ∃ r, load_index content = Ok r.

(** The entry of [c] in the dict of the retrievers: none without a
    directory that loads. *)
Definition retriever_of (d : disk Index) (c : string) : option (string * retriever) :=
  match dirs d !! path_join PERSIST_ROOT c with
  | Some content =>
      match load_index content with
      | Ok r => Some (c, r)
      | Raise _ => None
      end
  | None => None
  end.

(** The lines printed for the categories without a directory. *)
Definition warnings (d : disk Index) (cats : list string) : list string :=
  Startup.missing_index_text <$> List.filter (λ c, negb (present d c)) cats.
End Loaded.
End Storage.

Module SampleStorage.
Import Main.

(** A loader that fails on a directory without index state. *)
Definition load_files (content : option (list string)) : res retriever :=
  match content with
  | Some files => Ok (λ _, Ok ((λ f, Sample.chunk f f) <$> files))
  | None => Raise "No index in storage context"
  end.
End SampleStorage.

Module Report.

(** The line [main] of the builder prints last. *)
Definition done_text : string :=
  "✅ Beres. Semua index tersimpan di folder 'storage/' per kategori.".
End Report.

Module SampleFailure.

(** An embedding step that fails, as without its model. *)
Definition index_none (docs : list string) : res (list string) :=
  Raise "embedding model not found".
End SampleFailure.

Module SampleRerank.
Import Main.

(** A reranker that keeps the last chunk only. *)
Definition keep_last (nodes : list retrieved) (q : string) : res (list retrieved) :=
  Ok (drop (length nodes - 1) nodes).

(** One category that yields two chunks, with this reranker. *)
Definition reranking_bot : env :=
  {| retrievers :=
       [ ("npc", λ _, Ok [ Sample.chunk "Penjaga gerbang." "penjaga.md";
                           Sample.chunk "Raja tua." "raja.md" ]) ];
     reranker := Some keep_last;
     llm_acomplete := λ _, Sample.reply " Raja. " |}.
End SampleRerank.

(** * Properties *)

(** ** Facts about the [str] built-ins *)

Section StrFacts.
Import Py.

Lemma append_cons x (a b : string) : String x a +:+ b = String x (a +:+ b).
Proof. reflexivity. Qed.

Lemma append_nil_l (a : string) : "" +:+ a = a.
Proof. reflexivity. Qed.

Lemma append_nil_r (a : string) : a +:+ "" = a.
Proof. induction a as [|x a IH]; [done|]. by rewrite append_cons, IH. Qed.

Lemma string_app_assoc (a b c : string) : (a +:+ b) +:+ c = a +:+ b +:+ c.
Proof. induction a as [|x a IH]; [done|]. by rewrite !append_cons, IH. Qed.

Lemma string_app_length (a b : string) :
  String.length (a +:+ b) = String.length a + String.length b.
Proof. induction a as [|x a IH]; [done|]. rewrite append_cons. simpl. by rewrite IH. Qed.

(** *** Bytes *)

(** A property of bytes that holds of each of the 256 holds of all. *)
Lemma forall_ascii (P : ascii → bool) :
  forallb P (ascii_of_nat <$> seq 0 256) = true → ∀ c, P c = true.
Proof.
  intros H c. rewrite forallb_forall in H. apply H.
  rewrite <- (ascii_nat_embedding c). apply in_map, in_seq.
  pose proof (nat_ascii_bounded c) as Hb. split; [apply Nat.le_0_l|exact Hb].
Qed.

Lemma byte_eq c n : byte c = n → c = ascii_of_N n.
Proof. intros <-. unfold byte. by rewrite ascii_N_embedding. Qed.

Lemma plain_eqb c x : plain c = true → plain x = false → Ascii.eqb x c = false.
Proof. intros Hc Hx. destruct (Ascii.eqb_spec x c) as [->|]; congruence. Qed.

Lemma isspace_plain c : isspace c = true → plain c = false.
Proof. unfold plain. intros ->. by rewrite andb_false_r. Qed.

Lemma high_plain x : plain (high x) = false.
Proof.
  unfold plain, high, byte.
  assert (x mod 0x80 < 0x80)%N as Hlt by (by apply N.mod_lt).
  generalize dependent (x mod 0x80)%N. intros y Hy.
  rewrite N_ascii_embedding by lia.
  assert ((0x80 + y <? 0x80)%N = false) as -> by (apply N.ltb_ge; lia).
  done.
Qed.

Lemma starts_space_plain c : plain c = true → starts_space c = false.
Proof.
  intros Hc.
  pose proof (forall_ascii (λ c, implb (plain c) (negb (starts_space c)))
                ltac:(by vm_compute) c) as H.
  cbv beta in H. rewrite Hc in H. by apply negb_true_iff in H.
Qed.

(** *** One white-space character *)

Lemma no_start_space c :
  starts_space c = false →
  isspace c = false ∧ (∀ b, space2 c b = false) ∧ (∀ a b, space3 c a b = false).
Proof.
  unfold starts_space. intros [[H1 H2]%orb_false_iff H3]%orb_false_iff.
  split_and!; [done| |].
  - intros b. unfold space2. by rewrite H2.
  - intros a b. unfold space3, between in *.
    destruct (byte c =? 0xE1)%N eqn:E1; [apply N.eqb_eq in E1; by rewrite E1 in H3|].
    destruct (byte c =? 0xE2)%N eqn:E2; [apply N.eqb_eq in E2; by rewrite E2 in H3|].
    destruct (byte c =? 0xE3)%N eqn:E3; [apply N.eqb_eq in E3; by rewrite E3 in H3|].
    done.
Qed.

Lemma skip_space_no_start c x : starts_space c = false → skip_space (String c x) = None.
Proof.
  intros (H1 & H2 & H3)%no_start_space.
  destruct x as [|c2 [|c3 x]]; cbn [skip_space]; by rewrite H1, ?H2, ?H3.
Qed.

Lemma lstrip_no_start c x : starts_space c = false → lstrip (String c x) = String c x.
Proof.
  intros (H1 & H2 & H3)%no_start_space.
  destruct x as [|c2 [|c3 x]]; cbn [lstrip]; by rewrite H1, ?H2, ?H3.
Qed.

Lemma all_space_no_start c x : starts_space c = false → all_space (String c x) = false.
Proof. intros H. unfold all_space. by rewrite lstrip_no_start. Qed.

Lemma chars_one c x :
  lead2 c = false → lead3 c = false → lead4 c = false →
  chars (String c x) = String c "" :: chars x.
Proof.
  intros H2 H3 H4. destruct x as [|c2 [|c3 [|c4 x]]]; cbn [chars];
    unfold two, three, four; by rewrite ?H2, ?H3, ?H4.
Qed.

Lemma chars_two c1 c2 x :
  two c1 c2 = true →
  chars (String c1 (String c2 x)) = String c1 (String c2 "") :: chars x.
Proof. intros H. cbn [chars]. by rewrite H. Qed.

Lemma chars_three c1 c2 c3 x :
  two c1 c2 = false → three c1 c2 c3 = true →
  chars (String c1 (String c2 (String c3 x)))
  = String c1 (String c2 (String c3 "")) :: chars x.
Proof. intros H2 H3. cbn [chars]. by rewrite H2, H3. Qed.

Lemma space_char_1 c : isspace c = true → space_char (String c "").
Proof.
  intros Hc.
  pose proof (forall_ascii
    (λ c, implb (isspace c)
            (negb (lead2 c) && negb (lead3 c) && negb (lead4 c)
             && caseless (String c "")))
    ltac:(by vm_compute) c) as H.
  cbv beta in H. rewrite Hc in H. cbn [implb] in H.
  apply andb_true_iff in H as [[[H2 H3]%andb_true_iff H4]%andb_true_iff Hcase].
  apply negb_true_iff in H2, H3, H4.
  split_and!; [done| | | | |done].
  - intros x. rewrite ?append_cons, append_nil_l. cbn [skip_space]. by rewrite Hc.
  - intros x Hx. rewrite ?append_cons, append_nil_l. cbn [rstrip]. unfold all_space. cbn [lstrip].
    rewrite Hc. fold (all_space x). by rewrite Hx.
  - intros c' Hc'. cbn [contains].
    by rewrite (plain_eqb _ _ Hc' (isspace_plain _ Hc)).
  - intros x. rewrite append_cons, append_nil_l. by apply chars_one.
Qed.

Lemma space_char_2 c1 c2 :
  isspace c1 = false → space2 c1 c2 = true → space_char (String c1 (String c2 "")).
Proof.
  intros H1 H2.
  assert (c1 = ascii_of_N 0xC2) as ->.
  { apply byte_eq, N.eqb_eq. unfold space2 in H2. by apply andb_true_iff in H2 as [? _]. }
  pose proof (forall_ascii
    (λ c2, implb (space2 (ascii_of_N 0xC2) c2)
             (two (ascii_of_N 0xC2) c2 && negb (starts_space c2) && negb (plain c2)
              && caseless (String (ascii_of_N 0xC2) (String c2 ""))))
    ltac:(by vm_compute) c2) as H.
  cbv beta in H. rewrite H2 in H. cbn [implb] in H.
  apply andb_true_iff in H as [[[Htwo Hst]%andb_true_iff Hpl]%andb_true_iff Hcase].
  apply negb_true_iff in Hst, Hpl.
  split_and!; [done| | | | |done].
  - intros x. rewrite ?append_cons, append_nil_l. cbn [skip_space]. by rewrite H1, H2.
  - intros x Hx. rewrite ?append_cons, !append_nil_l. cbn [rstrip].
    assert (all_space (String (ascii_of_N 0xC2) (String c2 x)) = false) as ->.
    { unfold all_space. cbn [lstrip]. rewrite H1, H2. by fold (all_space x). }
    by rewrite (all_space_no_start _ _ Hst).
  - intros c Hc. cbn [contains].
    rewrite (plain_eqb _ (ascii_of_N 0xC2) Hc) by done.
    by rewrite (plain_eqb _ _ Hc Hpl).
  - intros x. rewrite !append_cons, append_nil_l. by apply chars_two.
Qed.

Lemma space3_bytes c1 c2 c3 :
  space3 c1 c2 c3 = true →
  c1 ∈ ascii_of_N <$> [0xE1; 0xE2; 0xE3]%N ∧ c2 ∈ ascii_of_N <$> [0x9A; 0x80; 0x81]%N.
Proof.
  unfold space3. rewrite !orb_true_iff, !andb_true_iff, !N.eqb_eq.
  intros [[[[[H1 H2] _]|[[H1 H2] _]]|[[H1 H2] _]]|[[H1 H2] _]];
    apply byte_eq in H1, H2; subst c1 c2; split; set_solver.
Qed.

Lemma space_char_3 c1 c2 c3 :
  isspace c1 = false → space2 c1 c2 = false → space3 c1 c2 c3 = true →
  space_char (String c1 (String c2 (String c3 ""))).
Proof.
  intros H1 H2 H3.
  assert (two c1 c2 = false ∧ three c1 c2 c3 = true
          ∧ starts_space c2 = false ∧ starts_space c3 = false
          ∧ plain c1 = false ∧ plain c2 = false ∧ plain c3 = false
          ∧ caseless (String c1 (String c2 (String c3 ""))) = true)
    as (Htwo & Hthree & Hst2 & Hst3 & Hp1 & Hp2 & Hp3 & Hcase).
  { destruct (space3_bytes _ _ _ H3) as [Hc1 Hc2].
    cbn [fmap list_fmap] in Hc1, Hc2.
    repeat (apply elem_of_cons in Hc1 as [->|Hc1]);
      [..|by apply elem_of_nil in Hc1];
      (repeat (apply elem_of_cons in Hc2 as [->|Hc2]);
         [..|by apply elem_of_nil in Hc2]);
      match goal with
      | |- context [two ?a ?b] =>
          pose proof (forall_ascii
            (λ c3, implb (space3 a b c3)
                     (negb (two a b) && three a b c3
                      && negb (starts_space b) && negb (starts_space c3)
                      && negb (plain a) && negb (plain b) && negb (plain c3)
                      && caseless (String a (String b (String c3 "")))))
            ltac:(by vm_compute) c3) as H
      end;
      cbv beta in H; rewrite H3 in H; cbn [implb] in H;
      repeat (apply andb_true_iff in H as [H ?]);
      repeat match goal with
             | H : negb _ = true |- _ => apply negb_true_iff in H
             end; by split_and!. }
  split_and!; [done| | | | |done].
  - intros x. rewrite ?append_cons, append_nil_l. cbn [skip_space]. by rewrite H1, H2, H3.
  - intros x Hx. rewrite ?append_cons, !append_nil_l. cbn [rstrip].
    assert (all_space (String c1 (String c2 (String c3 x))) = false) as ->.
    { unfold all_space. cbn [lstrip]. rewrite H1, H2, H3. by fold (all_space x). }
    by rewrite (all_space_no_start _ _ Hst2), (all_space_no_start _ _ Hst3).
  - intros c Hc. cbn [contains].
    by rewrite (plain_eqb _ _ Hc Hp1), (plain_eqb _ _ Hc Hp2), (plain_eqb _ _ Hc Hp3).
  - intros x. rewrite !append_cons, append_nil_l. by apply chars_three.
Qed.

(** A white-space character at the front of [s] is cut off by [skip_space]. *)
Lemma skip_space_char s r :
  skip_space s = Some r → ∃ tok, s = tok +:+ r ∧ space_char tok.
Proof.
  destruct s as [|c1 s1]; [done|]. cbn [skip_space].
  destruct (isspace c1) eqn:H1.
  { intros [= <-]. exists (String c1 ""). split; [done|]. by apply space_char_1. }
  destruct s1 as [|c2 s2]; [done|]. destruct (space2 c1 c2) eqn:H2.
  { intros [= <-]. exists (String c1 (String c2 "")). split; [done|].
    by apply space_char_2. }
  destruct s2 as [|c3 s3]; [done|]. destruct (space3 c1 c2 c3) eqn:H3; [|done].
  intros [= <-]. exists (String c1 (String c2 (String c3 ""))). split; [done|].
  by apply space_char_3.
Qed.

(** *** lstrip *)

Lemma lstrip_skip s :
  lstrip s = match skip_space s with Some r => lstrip r | None => s end.
Proof.
  destruct s as [|c1 [|c2 [|c3 s]]]; cbn [lstrip skip_space]; [done|..].
  - by destruct (isspace c1).
  - destruct (isspace c1); [done|]. by destruct (space2 c1 c2).
  - destruct (isspace c1); [done|]. destruct (space2 c1 c2); [done|].
    by destruct (space3 c1 c2 c3).
Qed.

Lemma lstrip_char tok x : space_char tok → lstrip (tok +:+ x) = lstrip x.
Proof. intros (_ & Hskip & _). by rewrite lstrip_skip, Hskip. Qed.

Lemma space_char_length tok r : space_char tok →
  String.length r < String.length (tok +:+ r).
Proof.
  intros (Hne & _). rewrite string_app_length. destruct tok; [done|]. simpl. lia.
Qed.

(** Induction along the white-space characters at the front. *)
Lemma lstrip_ind (P : string → Prop) :
  (∀ s, skip_space s = None → P s) →
  (∀ tok r, space_char tok → P r → P (tok +:+ r)) →
  ∀ s, P s.
Proof.
  intros Hstop Hstep s.
  remember (String.length s) as n eqn:Hn. revert s Hn.
  induction n as [n IH] using lt_wf_ind. intros s ->.
  destruct (skip_space s) as [r|] eqn:Hs; [|by apply Hstop].
  apply skip_space_char in Hs as (tok & -> & Htok).
  apply Hstep; [done|]. eapply IH; [|done]. by apply space_char_length.
Qed.

Lemma lstrip_stop s : skip_space s = None → lstrip s = s.
Proof. intros H. by rewrite lstrip_skip, H. Qed.

Lemma all_space_char tok x : space_char tok → all_space (tok +:+ x) = all_space x.
Proof. intros H. unfold all_space. by rewrite lstrip_char. Qed.

Lemma all_space_lstrip s : all_space s = true → lstrip s = "".
Proof. unfold all_space. by destruct (lstrip s). Qed.

Lemma lstrip_all_space s : lstrip s = "" → all_space s = true.
Proof. unfold all_space. by intros ->. Qed.

Lemma all_space_stop s : skip_space s = None → all_space s = true → s = "".
Proof. intros Hs Ha. apply all_space_lstrip in Ha. by rewrite lstrip_stop in Ha. Qed.

(** A plain character is in no white-space character, so what stands before
    it is stripped as if it stood alone. *)
Lemma skip_space_plain p c x :
  plain c = true → skip_space p = None → skip_space (p +:+ String c x) = None.
Proof.
  intros Hc Hp. pose proof (starts_space_plain _ Hc) as Hst.
  assert (isspace c = false) as Hsp.
  { unfold plain in Hc. apply andb_true_iff in Hc as [_ ?]. by apply negb_true_iff. }
  assert (∀ a, space2 a c = false) as H2.
  { intros a. unfold space2. unfold plain in Hc. apply andb_true_iff in Hc as [Hlt _].
    apply N.ltb_lt in Hlt.
    assert ((byte c =? 0x85)%N = false) as -> by (apply N.eqb_neq; lia).
    assert ((byte c =? 0xA0)%N = false) as -> by (apply N.eqb_neq; lia).
    by rewrite andb_false_r. }
  assert (∀ a b, space3 a b c = false ∧ space3 a c b = false) as H3.
  { intros a b. unfold space3, between. unfold plain in Hc.
    apply andb_true_iff in Hc as [Hlt _]. apply N.ltb_lt in Hlt.
    assert ((byte c =? 0x80)%N = false) as -> by (apply N.eqb_neq; lia).
    assert ((byte c =? 0x81)%N = false) as -> by (apply N.eqb_neq; lia).
    assert ((byte c =? 0x9A)%N = false) as -> by (apply N.eqb_neq; lia).
    assert ((byte c =? 0x9F)%N = false) as -> by (apply N.eqb_neq; lia).
    assert ((byte c =? 0xA8)%N = false) as -> by (apply N.eqb_neq; lia).
    assert ((byte c =? 0xA9)%N = false) as -> by (apply N.eqb_neq; lia).
    assert ((byte c =? 0xAF)%N = false) as -> by (apply N.eqb_neq; lia).
    assert ((0x80 <=? byte c)%N = false) as -> by (apply N.leb_gt; lia).
    by rewrite !andb_false_r. }
  destruct p as [|c1 [|c2 [|c3 p]]]; rewrite ?append_cons, ?append_nil_l.
  - by apply skip_space_no_start.
  - cbn [skip_space] in Hp |- *. destruct (isspace c1); [done|].
    rewrite H2. destruct x as [|c3 x]; [done|]. by rewrite (proj2 (H3 c1 c3)).
  - cbn [skip_space] in Hp |- *. destruct (isspace c1); [done|].
    destruct (space2 c1 c2); [done|]. by rewrite (proj1 (H3 c1 c2)).
  - cbn [skip_space] in Hp |- *. destruct (isspace c1); [done|].
    destruct (space2 c1 c2); [done|]. by destruct (space3 c1 c2 c3).
Qed.

(** Stripping on the left stops at a plain character. *)
Lemma lstrip_app_stop p c r :
  plain c = true → lstrip (p +:+ String c r) = lstrip p +:+ String c r.
Proof.
  intros Hc. induction p as [p Hp|tok p Htok IH] using lstrip_ind.
  - by rewrite (lstrip_stop p Hp), (lstrip_stop _ (skip_space_plain _ _ _ Hc Hp)).
  - rewrite string_app_assoc, !(lstrip_char tok _ Htok). apply IH.
Qed.

Lemma lstrip_idem s : lstrip (lstrip s) = lstrip s.
Proof.
  induction s as [s Hs|tok r Htok IH] using lstrip_ind.
  - by rewrite !(lstrip_stop s Hs).
  - by rewrite !(lstrip_char tok _ Htok).
Qed.

Lemma lstrip_length s : String.length (lstrip s) ≤ String.length s.
Proof.
  induction s as [s Hs|tok r Htok IH] using lstrip_ind.
  - by rewrite lstrip_stop.
  - rewrite lstrip_char by done. pose proof (space_char_length tok r Htok). lia.
Qed.

(** Text that is white space and text that is white space make white space. *)
Lemma all_space_app_intro a b :
  all_space a = true → all_space b = true → all_space (a +:+ b) = true.
Proof.
  intros Ha Hb. induction a as [a Hs|tok r Htok IH] using lstrip_ind.
  - by rewrite (all_space_stop a Hs Ha).
  - rewrite string_app_assoc, all_space_char by done. apply IH.
    by rewrite all_space_char in Ha.
Qed.

Lemma all_space_app_plain a c b : plain c = true → all_space (a +:+ String c b) = false.
Proof.
  intros Hc. unfold all_space. rewrite lstrip_app_stop by done.
  by destruct (lstrip a).
Qed.

(** *** rstrip *)

Lemma rstrip_empty_iff s : rstrip s = "" ↔ all_space s = true.
Proof.
  destruct s as [|c s]; [done|]. cbn [rstrip].
  by destruct (all_space (String c s)).
Qed.

Lemma rstrip_app_stop p c r :
  plain c = true → rstrip (p +:+ String c r) = p +:+ String c (rstrip r).
Proof.
  intros Hc. induction p as [|x p IH].
  - rewrite !append_nil_l. cbn [rstrip].
    pose proof (all_space_app_plain "" c r Hc) as H. rewrite append_nil_l in H.
    by rewrite H.
  - rewrite !append_cons. cbn [rstrip].
    rewrite <- append_cons, (all_space_app_plain _ c r Hc).
    by rewrite IH.
Qed.

(** What [rstrip] cuts off is white space. *)
Lemma rstrip_split s : ∃ w, s = rstrip s +:+ w ∧ all_space w = true.
Proof.
  induction s as [|c s (w & Hw & Hsp)]; [by exists ""|]. cbn [rstrip].
  destruct (all_space (String c s)) eqn:Hc.
  - by exists (String c s).
  - exists w. by rewrite append_cons, <- Hw.
Qed.

Lemma all_space_rstrip s : all_space (rstrip s) = all_space s.
Proof.
  destruct (rstrip_split s) as (w & Hw & Hsp).
  destruct (all_space s) eqn:Hs.
  - apply rstrip_empty_iff in Hs. by rewrite Hs.
  - destruct (all_space (rstrip s)) eqn:Hr; [|done].
    by rewrite Hw, (all_space_app_intro _ _ Hr Hsp) in Hs.
Qed.

Lemma rstrip_idem s : rstrip (rstrip s) = rstrip s.
Proof.
  induction s as [|c s IH]; [done|]. cbn [rstrip].
  destruct (all_space (String c s)) eqn:Hc; [done|]. cbn [rstrip].
  assert (all_space (String c (rstrip s)) = false) as ->; [|by rewrite IH].
  destruct (all_space (String c (rstrip s))) eqn:Hr; [|done].
  destruct (rstrip_split s) as (w & Hw & Hsp).
  rewrite Hw, <- append_cons in Hc.
  by rewrite (all_space_app_intro _ _ Hr Hsp) in Hc.
Qed.

(** What [skip_space] rejects, it rejects in every text that starts alike. *)
Lemma skip_space_prefix p t : skip_space (p +:+ t) = None → p = "" ∨ skip_space p = None.
Proof.
  destruct p as [|c1 [|c2 [|c3 p]]]; [by left|right..];
    rewrite ?append_cons, ?append_nil_l in H; cbn [skip_space] in *.
  - by destruct (isspace c1).
  - destruct (isspace c1); [done|]. by destruct (space2 c1 c2).
  - destruct (isspace c1); [done|]. destruct (space2 c1 c2); [done|].
    by destruct (space3 c1 c2 c3).
Qed.

Lemma lstrip_rstrip s : lstrip (rstrip s) = rstrip (lstrip s).
Proof.
  induction s as [s Hs|tok r Htok IH] using lstrip_ind.
  - rewrite (lstrip_stop s Hs). destruct (rstrip_split s) as (w & Hw & _).
    rewrite Hw in Hs. destruct (skip_space_prefix _ _ Hs) as [->|Hr]; [done|].
    by apply lstrip_stop.
  - rewrite lstrip_char by done. destruct (all_space r) eqn:Hr.
    + assert (all_space (tok +:+ r) = true) as Ha by by rewrite all_space_char.
      apply rstrip_empty_iff in Ha. rewrite Ha.
      rewrite (all_space_lstrip r Hr). done.
    + destruct Htok as (Hne & Hskip & Hrs & Hrest). rewrite (Hrs r Hr).
      by rewrite lstrip_skip, Hskip.
Qed.

Lemma strip_lstrip s : strip (lstrip s) = strip s.
Proof. unfold strip. by rewrite lstrip_idem. Qed.

Lemma strip_rstrip s : strip (rstrip s) = strip s.
Proof. unfold strip. by rewrite lstrip_rstrip, rstrip_idem. Qed.

Lemma strip_empty_iff s : strip s = "" ↔ all_space s = true.
Proof.
  unfold strip. rewrite rstrip_empty_iff. split.
  - intros H. apply all_space_lstrip in H. rewrite lstrip_idem in H.
    by apply lstrip_all_space.
  - intros H. by rewrite (all_space_lstrip s H).
Qed.

(** *** Searching in stripped text *)

Lemma contains_app sep a b : contains sep (a +:+ b) = contains sep a || contains sep b.
Proof.
  induction a as [|c a IH]; [done|]. rewrite append_cons. simpl.
  by rewrite IH, orb_assoc.
Qed.

Lemma contains_middle sep a b : contains sep (a +:+ String sep b) = true.
Proof.
  rewrite contains_app. simpl. by rewrite Ascii.eqb_refl, orb_true_r.
Qed.

Lemma contains_lstrip sep s : contains sep s = false → contains sep (lstrip s) = false.
Proof.
  induction s as [s Hs|tok r Htok IH] using lstrip_ind.
  - by rewrite lstrip_stop.
  - rewrite contains_app, lstrip_char by done. by intros [_ ?]%orb_false_iff; apply IH.
Qed.

Lemma split_first_app sep p r :
  contains sep p = false → split_first sep (p +:+ String sep r) = Some (p, r).
Proof.
  induction p as [|c p IH]; simpl.
  - by rewrite Ascii.eqb_refl.
  - intros [Hc Hp]%orb_false_iff. by rewrite Hc, IH.
Qed.

Lemma split_first_none sep s : contains sep s = false → split_first sep s = None.
Proof.
  induction s as [|c s IH]; simpl; [done|].
  intros [Hc Hs]%orb_false_iff. by rewrite Hc, IH.
Qed.

(** A plain character survives stripping. *)
Lemma contains_lstrip_eq sep s :
  plain sep = true → contains sep (lstrip s) = contains sep s.
Proof.
  intros Hsep. induction s as [s Hs|tok r Htok IH] using lstrip_ind.
  - by rewrite lstrip_stop.
  - rewrite lstrip_char, contains_app, IH by done.
    destruct Htok as (_ & _ & _ & Hpl & _). by rewrite (Hpl sep Hsep).
Qed.

Lemma contains_all_space sep s :
  plain sep = true → all_space s = true → contains sep s = false.
Proof.
  intros Hsep Hs. rewrite <- (contains_lstrip_eq sep s Hsep).
  by rewrite (all_space_lstrip s Hs).
Qed.

Lemma contains_rstrip_eq sep s :
  plain sep = true → contains sep (rstrip s) = contains sep s.
Proof.
  intros Hsep. destruct (rstrip_split s) as (w & Hw & Hsp).
  rewrite Hw at 2. rewrite contains_app, (contains_all_space sep w Hsep Hsp).
  by rewrite orb_false_r.
Qed.

Lemma contains_strip sep s :
  plain sep = true → contains sep (strip s) = contains sep s.
Proof.
  intros Hsep. unfold strip.
  by rewrite contains_rstrip_eq, contains_lstrip_eq.
Qed.

(** The strip of [p:r] is the left strip of [p], the colon, and the right
    strip of [r]. *)
Lemma strip_around p c r :
  plain c = true → strip (p +:+ String c r) = lstrip p +:+ String c (rstrip r).
Proof.
  intros Hc. unfold strip. by rewrite lstrip_app_stop, rstrip_app_stop.
Qed.

(** *** Characters *)

Lemma wide_eqb x c :
  (0x80 <=? byte x)%N = true → (byte c <? 0x80)%N = true → Ascii.eqb x c = false.
Proof.
  intros Hx%N.leb_le Hc%N.ltb_lt. destruct (Ascii.eqb_spec x c) as [->|]; [|done].
  exfalso. revert Hx Hc. generalize (byte c). intros n Hx Hc. lia.
Qed.

Lemma cont_wide c : cont c = true → (0x80 <=? byte c)%N = true.
Proof. unfold cont, between. by intros [? _]%andb_true_iff. Qed.

Lemma lead_wide c :
  lead2 c || lead3 c || lead4 c = true → (0x80 <=? byte c)%N = true.
Proof.
  unfold lead2, lead3, lead4, between.
  rewrite !orb_true_iff, !andb_true_iff, !N.leb_le. generalize (byte c).
  intros n [[[H _]|[H _]]|[H _]]; lia.
Qed.

(** Induction along the characters of a text. *)
Lemma chars_ind (P : string → Prop) :
  P "" →
  (∀ tok r, chars (tok +:+ r) = tok :: chars r → one_char tok → P r → P (tok +:+ r)) →
  ∀ s, P s.
Proof.
  intros Hnil Hstep s.
  remember (String.length s) as n eqn:Hn. revert s Hn.
  induction n as [n IH] using lt_wf_ind. intros s ->.
  assert (∀ tok r, s = tok +:+ r → tok ≠ "" → chars s = tok :: chars r →
                   one_char tok → P s) as Hgo.
  { intros tok r -> Hne Hch Hone. apply Hstep; [done..|].
    eapply IH; [|done]. rewrite string_app_length. destruct tok; [done|]. simpl. lia. }
  destruct s as [|c1 s1]; [done|].
  assert (chars (String c1 s1) = String c1 "" :: chars s1 → P (String c1 s1)) as H1.
  { intros Hch. apply (Hgo (String c1 "") s1); [done..|]. left. by eexists. }
  destruct s1 as [|c2 s2]; [by apply H1|].
  destruct (two c1 c2) eqn:H2.
  { apply (Hgo (String c1 (String c2 "")) s2); [done..|by apply chars_two|].
    right. intros c Hc. unfold two in H2. apply andb_true_iff in H2 as [Hl Hk].
    cbn [contains]. rewrite (wide_eqb c1 c), (wide_eqb c2 c); [done|..|done];
      [by apply cont_wide|done|]. apply lead_wide. by rewrite Hl. }
  destruct s2 as [|c3 s3]; [apply H1; cbn [chars]; by rewrite H2|].
  destruct (three c1 c2 c3) eqn:H3.
  { apply (Hgo (String c1 (String c2 (String c3 ""))) s3); [done..|by apply chars_three|].
    right. intros c Hc. unfold three in H3.
    apply andb_true_iff in H3 as [[[Hl Hk2]%andb_true_iff Hk3]%andb_true_iff _].
    cbn [contains].
    rewrite (wide_eqb c1 c), (wide_eqb c2 c), (wide_eqb c3 c); [done|..|done];
      [by apply cont_wide|done|by apply cont_wide|done|].
    apply lead_wide. by rewrite Hl, orb_true_r. }
  destruct s3 as [|c4 s4]; [apply H1; cbn [chars]; by rewrite H2, H3|].
  destruct (four c1 c2 c3 c4) eqn:H4.
  { apply (Hgo (String c1 (String c2 (String c3 (String c4 "")))) s4); [done..| |].
    - cbn [chars]. by rewrite H2, H3, H4.
    - right. intros c Hc. unfold four in H4.
      apply andb_true_iff in H4
        as [[[[Hl Hk2]%andb_true_iff Hk3]%andb_true_iff Hk4]%andb_true_iff _].
      cbn [contains].
      rewrite (wide_eqb c1 c), (wide_eqb c2 c), (wide_eqb c3 c), (wide_eqb c4 c);
        [done|..|done];
        [by apply cont_wide|done|by apply cont_wide|done|by apply cont_wide|done|].
      apply lead_wide. by rewrite Hl, orb_true_r. }
  apply H1. cbn [chars]. by rewrite H2, H3, H4.
Qed.

(** *** lower *)

(** Lower case leaves the white space at the front as it is. *)
Lemma lower_space_char tok x : space_char tok → lower (tok +:+ x) = tok +:+ lower x.
Proof.
  intros (_ & _ & _ & _ & Hch & Hcase). unfold lower. rewrite Hch.
  cbn [lower_chars]. unfold caseless in Hcase.
  apply andb_true_iff in Hcase
    as [[[Hcode%negb_true_iff Hlow]%andb_true_iff Hcased%negb_true_iff]%andb_true_iff
          Hign%negb_true_iff].
  apply String.eqb_eq in Hlow. by rewrite Hcode, Hlow, Hign, Hcased.
Qed.

Lemma lstrip_lower s : lstrip (lower (lstrip s)) = lstrip (lower s).
Proof.
  induction s as [s Hs|tok r Htok IH] using lstrip_ind.
  - by rewrite (lstrip_stop s Hs).
  - by rewrite (lstrip_char tok r Htok), (lower_space_char tok r Htok),
       (lstrip_char tok _ Htok).
Qed.

(** The white space in front of a text does not show once the text is
    lowered and stripped. *)
Lemma strip_lower_lstrip s : strip (lower (lstrip s)) = strip (lower s).
Proof. unfold strip. by rewrite lstrip_lower. Qed.

Lemma utf8_no_colon n : n ≠ 58%N → contains ":" (utf8 n) = false.
Proof.
  intros Hn. assert (plain ":"%char = true) as Hc by done. unfold utf8.
  destruct (n <? 0x80)%N eqn:H1.
  - apply N.ltb_lt in H1. cbn [contains].
    destruct (Ascii.eqb_spec (ascii_of_N n) ":"%char) as [Heq|]; [|done].
    apply (f_equal N_of_ascii) in Heq. rewrite N_ascii_embedding in Heq by lia.
    by destruct Hn.
  - destruct (n <? 0x800)%N; [|destruct (n <? 0x10000)%N]; cbn [contains];
      by rewrite !(plain_eqb _ _ Hc (high_plain _)).
Qed.

Lemma utf8s_no_colon l : Forall (λ n, n ≠ 58%N) l → contains ":" (utf8s l) = false.
Proof.
  induction 1 as [|n l Hn _ IH]; [done|]. cbn [utf8s].
  by rewrite contains_app, utf8_no_colon, IH.
Qed.

Lemma mapped_never n special rules m l :
  never_mapped_to n special rules = true →
  mapped special rules m = Some l → Forall (λ x, x ≠ n) l.
Proof.
  unfold never_mapped_to, mapped. intros [Hs Hr]%andb_true_iff.
  rewrite forallb_forall in Hs. rewrite forallb_forall in Hr.
  destruct (List.find _ special) as [[k l']|] eqn:Hf.
  - intros [= ->]. apply find_some in Hf as [Hin _]. specialize (Hs _ Hin).
    cbn [snd] in Hs. rewrite forallb_forall in Hs. apply Forall_forall.
    intros x Hx%list_elem_of_In. specialize (Hs x Hx).
    apply negb_true_iff, N.eqb_neq in Hs. done.
  - destruct (List.find _ rules) as [[[[lo hi] step] to]|] eqn:Hg; [|done].
    intros [= <-]. apply find_some in Hg as [Hin Happ]. specialize (Hr _ Hin).
    cbn beta iota in Hr. unfold rule_applies, between in Happ.
    apply andb_true_iff in Happ as [[Hlo%N.leb_le Hhi%N.leb_le]%andb_true_iff _].
    apply Forall_singleton.
    apply orb_true_iff in Hr as [Hr%N.ltb_lt|Hr%N.ltb_lt]; lia.
Qed.

Lemma lower_char_colon tok :
  one_char tok → contains ":" (lower_char tok) = contains ":" tok.
Proof.
  intros [[c ->]|Hwide].
  - pose proof (forall_ascii
      (λ c, Bool.eqb (contains ":" (lower_char (String c ""))) (contains ":" (String c "")))
      ltac:(by vm_compute) c) as H.
    by apply Bool.eqb_prop in H.
  - rewrite (Hwide ":"%char) by done. unfold lower_char.
    destruct (mapped _ _ _) as [l|] eqn:Hm; [|by apply Hwide].
    apply utf8s_no_colon. eapply mapped_never; [|done]. by vm_compute.
Qed.

Lemma lower_chars_colon s : ∀ st,
  contains ":" (lower_chars st (chars s)) = contains ":" s.
Proof.
  induction s as [|tok r Hch Hone IH] using chars_ind; intros st; [done|].
  rewrite Hch. cbn [lower_chars]. rewrite !contains_app, IH. f_equal.
  destruct (code tok =? 0x3A3)%N eqn:Hsig; [|by apply lower_char_colon].
  assert (contains ":" tok = false) as ->.
  { destruct Hone as [[c ->]|Hwide]; [|by apply Hwide].
    pose proof (forall_ascii
      (λ c, implb (code (String c "") =? 0x3A3)%N false) ltac:(by vm_compute) c) as H.
    cbv beta in H. by rewrite Hsig in H. }
  unfold lower_sigma. by destruct (st && _).
Qed.

(** Lower case neither makes nor removes a colon. *)
Lemma contains_colon_lower s : contains ":" (lower s) = contains ":" s.
Proof. apply lower_chars_colon. Qed.
End StrFacts.

(** ** detect_category_and_query *)

Section DetectFacts.
Import Py Main Observe.

Lemma plain_colon : plain colon = true.
Proof. reflexivity. Qed.

Lemma or_empty_Some s : or_empty (Some s) = s.
Proof. reflexivity. Qed.

Lemma contains_split_first sep s :
  contains sep s = true →
  ∃ a b, split_first sep s = Some (a, b) ∧ s = a +:+ String sep b ∧
         contains sep a = false.
Proof.
  induction s as [|c s IH]; simpl; [done|].
  destruct (Ascii.eqb_spec c sep) as [->|Hne]; simpl.
  - intros _. by exists "", s.
  - intros (a & b & -> & -> & Ha)%IH. exists (String c a), b.
    split_and!; [done..|]. simpl. rewrite Ha, orb_false_r.
    by apply Ascii.eqb_neq.
Qed.

Lemma alias_category_in table prefix cat :
  alias_category table prefix = Some cat → cat ∈ table.*1.
Proof.
  induction table as [|[c keys] table IH]; simpl; [done|].
  case_bool_decide; [intros [= ->]; left | intros ?; right; auto].
Qed.

Lemma alias_keys_are_categories : ALIASES.*1 = CATEGORIES.
Proof. reflexivity. Qed.

Lemma alias_category_Some_1 table prefix cat :
  alias_category table prefix = Some cat →
  ∃ keys, (cat, keys) ∈ table ∧ prefix ∈ keys.
Proof.
  induction table as [|[c keys] table IH]; simpl; [done|].
  case_bool_decide as Hin.
  - intros [= ->]. exists keys. split; [left|done].
  - intros (keys' & Hk & Hp)%IH. exists keys'. split; [by right|done].
Qed.

Lemma alias_category_None_2 table prefix :
  (∀ cat keys, (cat, keys) ∈ table → prefix ∉ keys) →
  alias_category table prefix = None.
Proof.
  induction table as [|[c keys] table IH]; intros Hno; simpl; [done|].
  rewrite bool_decide_eq_false_2 by (apply (Hno c); left).
  apply IH. intros cat keys' Hin. apply (Hno cat). by right.
Qed.

(** No alias is listed for two categories, so the loop over the table finds
    the category of an alias whichever it is. *)
Lemma alias_category_Some cat p :
  alias_category ALIASES p = Some cat ↔ alias_of cat p.
Proof.
  split; [apply alias_category_Some_1|].
  intros (keys & Hin & Hp). unfold ALIASES in Hin.
  repeat (apply elem_of_cons in Hin as [Hin|Hin];
          [ injection Hin as -> ->;
            repeat (apply elem_of_cons in Hp as [->|Hp]; [reflexivity|]);
            by apply elem_of_nil in Hp | ]).
  by apply elem_of_nil in Hin.
Qed.

Lemma alias_category_None p :
  alias_category ALIASES p = None ↔ ∀ cat, ¬ alias_of cat p.
Proof.
  split.
  - intros Hnone cat Ha%alias_category_Some. congruence.
  - intros Hno. apply alias_category_None_2. intros cat keys Hin Hp.
    apply (Hno cat). by exists keys.
Qed.

(** No alias holds a colon, so neither does a text that is an alias once
    lowered and stripped. *)
Lemma alias_no_colon cat s : alias_of cat (strip (lower s)) → contains colon s = false.
Proof.
  rewrite <- (contains_colon_lower s : contains colon (lower s) = contains colon s),
    <- (contains_strip colon _ plain_colon).
  intros (keys & Hin & Hp). unfold ALIASES in Hin.
  repeat (apply elem_of_cons in Hin as [Hin|Hin];
          [ injection Hin as -> ->;
            repeat (apply elem_of_cons in Hp as [->|Hp]; [reflexivity|]);
            by apply elem_of_nil in Hp | ]).
  by apply elem_of_nil in Hin.
Qed.

(** An alias prefix resolves to its category; the query is the stripped
    remainder. *)
Lemma detect_alias alias question cat :
  contains colon alias = false →
  alias_category ALIASES (strip (lower alias)) = Some cat →
  detect_category_and_query (Some (alias +:+ ":" +:+ question))
  = Ok (Some cat, strip question).
Proof.
  intros Ha Hcat. unfold detect_category_and_query. rewrite or_empty_Some.
  change (alias +:+ ":" +:+ question) with (alias +:+ String colon question).
  rewrite (strip_around _ _ _ plain_colon).
  rewrite contains_middle.
  unfold split. rewrite split_first_app by by apply contains_lstrip.
  rewrite strip_lower_lstrip, strip_rstrip. by rewrite Hcat.
Qed.

(** A prefix that is no alias leaves the whole stripped input as the query. *)
Lemma detect_unknown_prefix prefix rest :
  contains colon prefix = false →
  alias_category ALIASES (strip (lower prefix)) = None →
  detect_category_and_query (Some (prefix +:+ ":" +:+ rest))
  = Ok (None, strip (prefix +:+ ":" +:+ rest)).
Proof.
  intros Ha Hcat. unfold detect_category_and_query. rewrite or_empty_Some.
  change (prefix +:+ ":" +:+ rest) with (prefix +:+ String colon rest).
  rewrite (strip_around _ _ _ plain_colon).
  rewrite contains_middle.
  unfold split. rewrite split_first_app by by apply contains_lstrip.
  rewrite strip_lower_lstrip. by rewrite Hcat.
Qed.

Lemma detect_no_colon text :
  contains colon text = false →
  detect_category_and_query (Some text) = Ok (None, strip text).
Proof.
  intros Ht. unfold detect_category_and_query. rewrite or_empty_Some.
  by rewrite (contains_strip _ _ plain_colon), Ht.
Qed.

(** The unpacking in [detect_category_and_query] cannot fail. *)
Lemma detect_returns text : ∃ cat q, detect_category_and_query text = Ok (cat, q).
Proof.
  unfold detect_category_and_query.
  destruct (contains colon (strip (or_empty text))) eqn:Hc; [|by eauto].
  apply contains_split_first in Hc as (a & b & Hab & _ & _).
  unfold split. rewrite Hab.
  destruct (alias_category ALIASES (strip (lower a))); eauto.
Qed.

Lemma detect_category_known text cat q :
  detect_category_and_query text = Ok (Some cat, q) → cat ∈ CATEGORIES.
Proof.
  unfold detect_category_and_query.
  destruct (contains colon (strip (or_empty text))); [|done].
  destruct (split colon 1 (strip (or_empty text))) as [|a [|b [|]]]; try done.
  destruct (alias_category ALIASES (strip (lower a))) eqn:Hc; [|done].
  intros [= -> _]. rewrite <- alias_keys_are_categories.
  by eapply alias_category_in.
Qed.

Lemma category_truthy cat : cat ∈ CATEGORIES → truthy cat = true ∧ cat ≠ "all".
Proof.
  unfold CATEGORIES. rewrite !elem_of_cons, elem_of_nil.
  intros [-> | [-> | [-> | [-> | [-> | [-> | []]]]]]]; by split.
Qed.

End DetectFacts.

(** ** What handle_message sends and calls *)

Section HandlerFacts.
Import Py Main Observe.

Lemma retrievals_app l1 l2 : retrievals (l1 ++ l2) = retrievals l1 ++ retrievals l2.
Proof. apply omap_app. Qed.

Lemma events_bind {A B} (m : M A) (f : A → M B) :
  events (m ≫= f)
  = events m ++ match m.1 with Ok a => events (f a) | Raise _ => [] end.
Proof.
  destruct m as [[a|e] l]; unfold events, mbind, M_bind; simpl.
  - by destruct (f a).
  - by rewrite app_nil_r.
Qed.

Lemma rerank_no_retrieval E nodes q : retrievals (events (rerank_nodes E nodes q)) = [].
Proof.
  unfold rerank_nodes. destruct (reranker E) as [rr|]; [|done].
  destruct nodes as [|n nodes]; [done|].
  unfold try_except, lift. by destruct (rr _ q).
Qed.

Lemma compose_no_retrieval E q_raw cat q nodes :
  retrievals (events (compose_answer E q_raw cat q nodes)) = [].
Proof.
  unfold compose_answer. rewrite events_bind.
  destruct (node_texts nodes) as [ts|e]; [|done]. simpl.
  case_match; [done|]. by destruct (llm_acomplete E _).
Qed.

Lemma retrieve_all_retrievals rs q acc :
  retrievals (events (retrieve_all rs q acc)) = (λ c, (c, q)) <$> reached rs q.
Proof.
  revert acc. induction rs as [|[c r] rs IH]; intros acc; [done|].
  cbn [retrieve_all]. rewrite events_bind, retrievals_app. simpl.
  destruct (r q) as [ns|e]; simpl; [|done]. by rewrite IH.
Qed.

Lemma getitem_indexed {V} (d : list (string * V)) c :
  c ∈ d.*1 → ∃ v, getitem d c = Ok v.
Proof.
  induction d as [|[k v] d IH]; simpl.
  - by intros ?%elem_of_nil.
  - case_bool_decide; [by eauto|].
    intros [?|?]%elem_of_cons; [done|auto].
Qed.

Lemma retrieve_nodes_retrievals E cat q :
  negb (truthy_opt cat && negb (indexed_opt E cat)) = true →
  retrievals (events (retrieve_nodes E cat q)) = dispatch E cat q.
Proof.
  unfold retrieve_nodes, dispatch, truthy_cat.
  destruct (truthy_opt cat) eqn:Ht; simpl.
  - destruct cat as [c|]; [|done]. simpl. intros Hi%negb_true_iff%negb_false_iff.
    rewrite Hi. unfold indexed in Hi. apply bool_decide_eq_true in Hi.
    destruct (getitem_indexed _ _ Hi) as [r Hr].
    rewrite Hr. by destruct (r q).
  - intros _. apply retrieve_all_retrievals.
Qed.

Lemma events_try {A} (m : M A) (h : string → M A) :
  events (try_except m h)
  = events m ++ match m.1 with Ok _ => [] | Raise e => events (h e) end.
Proof.
  destruct m as [[a|e] l]; unfold events, try_except; simpl.
  - by rewrite app_nil_r.
  - by destruct (h e).
Qed.

(** What [handle_message] sends: the placeholder, what the [try] block
    sends, and the error text when the block raises. *)
Lemma handle_message_events E text ud :
  events (handle_message E text ud)
  = ReplyText loading_text None ::
    events (handle_message_try E (or_empty text) ud) ++
    match (handle_message_try E (or_empty text) ud).1 with
    | Ok _ => []
    | Raise e => [EditLoading ("❌ Error saat memproses: " +:+ e)]
    end.
Proof.
  unfold handle_message. rewrite events_bind. simpl. by rewrite events_try.
Qed.

Lemma dispatch_not_indexed E cat q :
  truthy_opt cat && negb (indexed_opt E cat) = true → dispatch E cat q = [].
Proof.
  intros [Ht Hi%negb_true_iff]%andb_true_iff. unfold dispatch, truthy_cat.
  rewrite Ht. destruct cat as [c|]; [|done]. simpl in Hi. by rewrite Hi.
Qed.

(** The dispatch on the category of the session, read off the session. *)
Lemma dispatch_selected E ud q :
  dispatch E (selected_cat ud) q
  = match ud !! "selected_cat" with
    | Some (Some c) =>
        if truthy c then (if indexed E c then [(c, q)] else [])
        else (λ c, (c, q)) <$> reached (retrievers E) q
    | Some None | None => (λ c, (c, q)) <$> reached (retrievers E) q
    end.
Proof.
  unfold dispatch, truthy_cat, selected_cat.
  destruct (ud !! "selected_cat") as [[c|]|]; cbn; [|done..].
  by destruct (truthy c).
Qed.

Lemma handle_message_try_retrievals E text ud cp q :
  detect_category_and_query (Some text) = Ok (cp, q) →
  retrievals (events (handle_message_try E text ud))
  = dispatch E (match cp with Some c => Some c | None => selected_cat ud end) q.
Proof.
  intros Hd. unfold handle_message_try. rewrite events_bind.
  unfold lift. cbn [fst events snd]. rewrite Hd. cbn [app].
  set (cat := match cp with Some c => Some c | None => selected_cat ud end).
  destruct (truthy_opt cat && negb (indexed_opt E cat)) eqn:Hrej.
  - by rewrite dispatch_not_indexed.
  - rewrite events_bind, retrievals_app, retrieve_nodes_retrievals
      by by rewrite Hrej.
    destruct (retrieve_nodes E cat q).1 as [nodes|e]; [|by rewrite app_nil_r].
    rewrite events_bind, retrievals_app, rerank_no_retrieval.
    destruct (rerank_nodes E nodes q).1 as [nodes'|e]; [|by rewrite app_nil_r].
    by rewrite compose_no_retrieval, app_nil_r.
Qed.

(** The retrievals of [handle_message] are those of the dispatch on the
    category of the prefix, or else of the session. *)
Lemma handle_message_retrievals E text ud cp q :
  detect_category_and_query (Some text) = Ok (cp, q) →
  retrievals (events (handle_message E (Some text) ud))
  = dispatch E (match cp with Some c => Some c | None => selected_cat ud end) q.
Proof.
  intros Hd. rewrite handle_message_events, or_empty_Some.
  change (retrievals (?x :: ?l)) with (retrievals l) at 1.
  rewrite retrievals_app.
  rewrite (handle_message_try_retrievals _ _ _ _ _ Hd).
  destruct (handle_message_try E text ud).1; apply app_nil_r.
Qed.
End HandlerFacts.

(** ** Category resolution and dispatch *)

Section Dispatch.
Import Py Main Observe Chat.

(** C2. An input [alias: question] whose alias, lowered and stripped, is in
    the alias table resolves to the category of the alias with the stripped
    remainder as the query, whatever the letter case of the prefix, and the
    retrieval goes to that category.  An input without a colon resolves to
    no category, and the retrieval goes to the category that the session
    holds under [selected_cat], or to every loaded category when the session
    holds none there. *)
Theorem alias_resolution (E : env) (ud : gmap string (option string))
    (alias question text cat : string) :
  alias_of cat (strip (lower alias)) →
  contains colon text = false →
  detect_category_and_query (Some (alias +:+ ":" +:+ question))
    = Ok (Some cat, strip question)
  ∧ retrievals (events (handle_message E (Some (alias +:+ ":" +:+ question)) ud))
    = (if indexed E cat then [(cat, strip question)] else [])
  ∧ detect_category_and_query (Some text) = Ok (None, strip text)
  ∧ retrievals (events (handle_message E (Some text) ud))
    = match ud !! "selected_cat" with
      | Some (Some c) =>
          if truthy c then (if indexed E c then [(c, strip text)] else [])
          else (λ c, (c, strip text)) <$> reached (retrievers E) (strip text)
      | Some None | None =>
          (λ c, (c, strip text)) <$> reached (retrievers E) (strip text)
      end.
Proof.
  intros Halias Ht.
  pose proof (alias_no_colon _ _ Halias) as Ha.
  apply alias_category_Some in Halias as Hcat.
  pose proof (detect_alias _ question _ Ha Hcat) as Hd1.
  pose proof (detect_no_colon _ Ht) as Hd2.
  split_and!; [done| |done|].
  - rewrite (handle_message_retrievals _ _ _ _ _ Hd1).
    apply detect_category_known, category_truthy in Hd1 as [Hc _].
    unfold dispatch, truthy_cat. simpl. by rewrite Hc.
  - rewrite (handle_message_retrievals _ _ _ _ _ Hd2). apply dispatch_selected.
Qed.

Lemma alias_resolution_witness :
  detect_category_and_query
    (Some ((Sample.nbsp +:+ "LO" +:+ Sample.kelvin +:+ "ASI ") +:+ ":" +:+
           (" where is X" +:+ Sample.wide_space)))
    = Ok (Some "maps", "where is X")
  ∧ retrievals
      (events (handle_message Sample.bot
                 (Some ((Sample.nbsp +:+ "LO" +:+ Sample.kelvin +:+ "ASI ") +:+ ":" +:+
                        (" where is X" +:+ Sample.wide_space)))
                 {[ "selected_cat" := Some "npc" ]}))
    = [("maps", "where is X")]
  ∧ detect_category_and_query (Some (Sample.wide_space +:+ "where is X "))
    = Ok (None, "where is X")
  ∧ retrievals
      (events (handle_message Sample.bot (Some (Sample.wide_space +:+ "where is X "))
                 {[ "selected_cat" := Some "npc" ]}))
    = [("npc", "where is X")].
Proof.
  refine (alias_resolution Sample.bot {[ "selected_cat" := Some "npc" ]}
            (Sample.nbsp +:+ "LO" +:+ Sample.kelvin +:+ "ASI ")
            (" where is X" +:+ Sample.wide_space)
            (Sample.wide_space +:+ "where is X ") "maps" _ eq_refl).
  apply alias_category_Some. reflexivity.
Defined.

(** C9. An input with a colon whose prefix is no alias resolves to no
    category and keeps the whole stripped input, prefix and colon included,
    as the query.  In a session whose category is a loaded one or none, the
    retrieval goes to the category that the session holds under
    [selected_cat], or to every loaded category when it holds none there, and
    the handler retrieves, reranks and composes the answer for that query:
    the message is not turned down. *)
Theorem unknown_prefix_kept (E : env) (ud : gmap string (option string))
    (prefix rest : string) :
  contains colon prefix = false →
  (∀ cat, ¬ alias_of cat (strip (lower prefix))) →
  session_ok E ud →
  detect_category_and_query (Some (prefix +:+ ":" +:+ rest))
    = Ok (None, strip (prefix +:+ ":" +:+ rest))
  ∧ strip (prefix +:+ ":" +:+ rest) = lstrip prefix +:+ ":" +:+ rstrip rest
  ∧ retrievals (events (handle_message E (Some (prefix +:+ ":" +:+ rest)) ud))
    = match ud !! "selected_cat" with
      | Some (Some c) =>
          if truthy c then [(c, strip (prefix +:+ ":" +:+ rest))]
          else (λ c, (c, strip (prefix +:+ ":" +:+ rest)))
                 <$> reached (retrievers E) (strip (prefix +:+ ":" +:+ rest))
      | Some None | None =>
          (λ c, (c, strip (prefix +:+ ":" +:+ rest)))
            <$> reached (retrievers E) (strip (prefix +:+ ":" +:+ rest))
      end
  ∧ handle_message_try E (prefix +:+ ":" +:+ rest) ud
    = (nodes ← retrieve_nodes E (selected_cat ud) (strip (prefix +:+ ":" +:+ rest));
       nodes ← rerank_nodes E nodes (strip (prefix +:+ ":" +:+ rest));
       compose_answer E (prefix +:+ ":" +:+ rest) (selected_cat ud)
         (strip (prefix +:+ ":" +:+ rest)) nodes).
Proof.
  intros Hp Hcat%alias_category_None Hok.
  pose proof (detect_unknown_prefix _ rest Hp Hcat) as Hd.
  split_and!; [done| | |].
  - apply (strip_around prefix colon rest plain_colon).
  - rewrite (handle_message_retrievals _ _ _ _ _ Hd), dispatch_selected.
    destruct (ud !! "selected_cat") as [[c|]|] eqn:Hsel; [|done..].
    rewrite (Hok c); [done|]. unfold selected_cat. by rewrite Hsel.
  - unfold handle_message_try. rewrite Hd. unfold lift. cbn [mbind M_bind app].
    assert (truthy_opt (selected_cat ud) && negb (indexed_opt E (selected_cat ud))
            = false) as ->; [|by destruct (_ ≫= _)].
    destruct (selected_cat ud) as [c|] eqn:Hsel; [|done].
    cbn [indexed_opt]. by rewrite (Hok c Hsel), andb_false_r.
Qed.

Lemma unknown_prefix_kept_witness :
  detect_category_and_query
    (Some ((Sample.nbsp +:+ "Catatan") +:+ ":" +:+ (" siapa raja?" +:+ Sample.wide_space)))
    = Ok (None, "Catatan: siapa raja?")
  ∧ strip ((Sample.nbsp +:+ "Catatan") +:+ ":" +:+ (" siapa raja?" +:+ Sample.wide_space))
    = "Catatan: siapa raja?"
  ∧ retrievals
      (events (handle_message Sample.bot
                 (Some ((Sample.nbsp +:+ "Catatan") +:+ ":" +:+
                        (" siapa raja?" +:+ Sample.wide_space)))
                 {[ "selected_cat" := Some "npc" ]}))
    = [("npc", "Catatan: siapa raja?")]
  ∧ handle_message_try Sample.bot
      ((Sample.nbsp +:+ "Catatan") +:+ ":" +:+ (" siapa raja?" +:+ Sample.wide_space))
      {[ "selected_cat" := Some "npc" ]}
    = (nodes ← retrieve_nodes Sample.bot (Some "npc") "Catatan: siapa raja?";
       nodes ← rerank_nodes Sample.bot nodes "Catatan: siapa raja?";
       compose_answer Sample.bot
         ((Sample.nbsp +:+ "Catatan") +:+ ":" +:+ (" siapa raja?" +:+ Sample.wide_space))
         (Some "npc") "Catatan: siapa raja?" nodes).
Proof.
  refine (unknown_prefix_kept Sample.bot {[ "selected_cat" := Some "npc" ]}
            (Sample.nbsp +:+ "Catatan") (" siapa raja?" +:+ Sample.wide_space)
            eq_refl _ _).
  - apply alias_category_None. reflexivity.
  - intros c [= <-]. reflexivity.
Defined.
End Dispatch.

(** ** The not-indexed guard and the reranker *)

Section Guards.
Import Py Main Observe Rerank.

Lemma split_tagged tag rest :
  contains bar tag = false → split bar 1 (tag +:+ "|" +:+ rest) = [tag; rest].
Proof.
  intros Htag. unfold split.
  change (tag +:+ "|" +:+ rest) with (tag +:+ String bar rest).
  by rewrite split_first_app.
Qed.

(** C3. For a category that is not among the loaded retrievers, picking it
    on the category keyboard answers with the not-indexed text that names
    it and leaves the session and the feedback log as they were, and a
    question sent with one of its aliases as prefix answers with the
    not-indexed text that names it; no retriever and no model is called, so
    nothing is searched. *)
Theorem category_not_indexed (E : env) (w : world) (q : callback_query)
    (ud : gmap string (option string)) (cat alias question : string) :
  alias_of cat (strip (lower alias)) →
  indexed E cat = false →
  data q = Some ("CAT|" +:+ cat) →
  pick_category_callback E q w
    = {| user_data := user_data w; feedback_log := feedback_log w;
         outbox := outbox w ++ [AnswerQuery] ++
                   [EditQueryMessage
                      ("Kategori '" +:+ cat +:+
                       "' belum ter-index. Jalankan build_index.py untuk folder itu dulu.")
                      None] |}
  ∧ events (handle_message E (Some (alias +:+ ":" +:+ question)) ud)
    = [ ReplyText loading_text None;
        EditLoading ("Kategori '" +:+ cat +:+
                     "' belum ter-index. Jalankan build_index.py dulu.") ].
Proof.
  intros Ha Hidx Hdata.
  pose proof (alias_no_colon _ _ Ha) as Halias.
  apply alias_category_Some in Ha as Hcat.
  assert (cat ∈ CATEGORIES) as [Htruthy Hall]%category_truthy.
  { rewrite <- alias_keys_are_categories. by eapply alias_category_in. }
  split.
  - unfold pick_category_callback. rewrite Hdata.
    change (split_data bar 1 (Some ("CAT|" +:+ cat))) with (Ok ["CAT"; cat]).
    cbn [unpack2]. rewrite bool_decide_eq_false_2 by done. rewrite Hidx.
    unfold send. cbn [negb user_data feedback_log outbox].
    by rewrite <- (assoc_L (++) (outbox w)).
  - rewrite handle_message_events, or_empty_Some.
    unfold handle_message_try.
    rewrite (detect_alias _ question _ Halias Hcat).
    unfold lift, mbind, M_bind. cbn [truthy_opt indexed_opt].
    by rewrite Htruthy, Hidx.
Qed.

Lemma category_not_indexed_witness :
  pick_category_callback Sample.bot
    {| data := Some "CAT|items"; from_user := {| id := 7; username := None |} |}
    {| user_data := {[ "selected_cat" := Some "npc" ]}; feedback_log := [];
       outbox := [] |}
  = {| user_data := {[ "selected_cat" := Some "npc" ]}; feedback_log := [];
       outbox :=
         [ AnswerQuery;
           EditQueryMessage
             "Kategori 'items' belum ter-index. Jalankan build_index.py untuk folder itu dulu."
             None ] |}
  ∧ events (handle_message Sample.bot (Some "Artefak: pedang apa itu?") ∅)
    = [ ReplyText loading_text None;
        EditLoading "Kategori 'items' belum ter-index. Jalankan build_index.py dulu." ].
Proof.
  refine (category_not_indexed Sample.bot
            {| user_data := {[ "selected_cat" := Some "npc" ]}; feedback_log := [];
               outbox := [] |}
            {| data := Some "CAT|items"; from_user := {| id := 7; username := None |} |}
            ∅ "items" "Artefak" " pedang apa itu?"
            _ eq_refl eq_refl).
  apply alias_category_Some. reflexivity.
Defined.

Lemma rerank_nodes_fallback E nodes q :
  rerank_fails E nodes q → rerank_nodes E nodes q = (Ok nodes, []).
Proof.
  unfold rerank_fails, rerank_nodes.
  destruct (reranker E) as [rr|]; [|done].
  destruct nodes as [|n nodes]; [done|]. by intros [e ->].
Qed.

Lemma handle_message_try_without_reranker E q_raw ud :
  rerank_fails_on E q_raw ud →
  handle_message_try E q_raw ud = handle_message_try (without_reranker E) q_raw ud.
Proof.
  intros Hfail. unfold handle_message_try.
  destruct (detect_category_and_query (Some q_raw)) as [[cp q]|e] eqn:Hd; [|done].
  unfold lift, mbind, M_bind.
  specialize (Hfail cp q). revert Hfail.
  set (cat := match cp with Some c => Some c | None => selected_cat ud end).
  intros Hfail.
  change (indexed_opt (without_reranker E) cat) with (indexed_opt E cat).
  destruct (truthy_opt cat && negb (indexed_opt E cat)); [done|].
  change (retrieve_nodes (without_reranker E) cat q) with (retrieve_nodes E cat q).
  destruct (retrieve_nodes E cat q) as [[nodes|e] l]; [|done].
  by rewrite (rerank_nodes_fallback E nodes q (Hfail nodes l Hd eq_refl)).
Qed.

(** C4. When there is no reranker, or the reranker raises on the nodes it is
    given, the rerank step hands on the retrieved chunks as they came, in
    their order, and sends nothing.  When that is so for the nodes a message
    makes the handler retrieve, the handler sends and calls exactly what it
    does without a reranker: the failure is not shown and fails nothing. *)
Theorem reranker_failure_is_silent (E : env) (text : string)
    (ud : gmap string (option string)) (nodes : list retrieved) (q : string) :
  rerank_fails E nodes q →
  rerank_fails_on E text ud →
  rerank_nodes E nodes q = (Ok nodes, [])
  ∧ handle_message E (Some text) ud
    = handle_message (without_reranker E) (Some text) ud.
Proof.
  intros Hnodes Hfail. split.
  - by apply rerank_nodes_fallback.
  - unfold handle_message. rewrite or_empty_Some.
    by rewrite (handle_message_try_without_reranker E _ ud Hfail).
Qed.

Lemma reranker_failure_is_silent_witness :
  rerank_nodes Sample.broken_reranker_bot
    [Sample.chunk "Penjaga gerbang." "penjaga.md"; Sample.chunk "Raja tua." "raja.md"]
    "siapa penjaga?"
  = (Ok [Sample.chunk "Penjaga gerbang." "penjaga.md"; Sample.chunk "Raja tua." "raja.md"],
     [])
  ∧ handle_message Sample.broken_reranker_bot (Some "npc: siapa penjaga?") ∅
    = handle_message (without_reranker Sample.broken_reranker_bot)
        (Some "npc: siapa penjaga?") ∅.
Proof.
  apply (reranker_failure_is_silent Sample.broken_reranker_bot
           "npc: siapa penjaga?" ∅).
  - simpl. by exists "CUDA out of memory".
  - intros cp q nodes l _ _. simpl. by exists "CUDA out of memory".
Defined.

End Guards.

(** ** The empty-context guard *)

Section EmptyContext.
Import Py Main Observe.

Lemma truthy_strip s : truthy (strip s) = negb (all_space s).
Proof.
  destruct (all_space s) eqn:Hs.
  - apply strip_empty_iff in Hs. by rewrite Hs.
  - destruct (strip s) eqn:Hst; [|done].
    apply strip_empty_iff in Hst. congruence.
Qed.

Lemma all_space_separator : all_space context_separator = false.
Proof. reflexivity. Qed.

(** The joined context is blank exactly when there is no text, or one text
    and it is blank: between two texts stands the separator. *)
Lemma all_space_join ts :
  all_space (join context_separator ts)
  = match ts with
    | [] => true
    | [t] => all_space t
    | _ :: _ :: _ => false
    end.
Proof.
  destruct ts as [|t [|t' ts]]; [done..|].
  change (join context_separator (t :: t' :: ts))
    with (t +:+ context_separator +:+ join context_separator (t' :: ts)).
  generalize (join context_separator (t' :: ts)). intros rest.
  assert (t +:+ context_separator +:+ rest
          = (t +:+ nl +:+ nl) +:+ String "-" ("--" +:+ nl +:+ nl +:+ rest)) as ->
    by (by rewrite !string_app_assoc).
  by apply all_space_app_plain.
Qed.

(** No chunk: the not-found sentence, and no call of the model. *)
Lemma compose_answer_no_chunk E q_raw cat q :
  compose_answer E q_raw cat q [] = (Ok (), [EditLoading not_found_text]).
Proof. reflexivity. Qed.

(** One chunk of blank text: the not-found sentence, and no call of the
    model. *)
Lemma compose_answer_one_blank E q_raw cat q nd :
  all_space (text nd) = true →
  compose_answer E q_raw cat q [NodeWithScore nd]
  = (Ok (), [EditLoading not_found_text]).
Proof.
  intros Hb. unfold compose_answer. cbn [node_texts node_text lift mbind M_bind].
  cbn [take max_context_chunks]. rewrite truthy_strip, all_space_join.
  by rewrite Hb.
Qed.

(** Two chunks or more: the model is called, whatever the texts are. *)
Lemma compose_answer_two_chunks E q_raw cat q n1 n2 nodes ts :
  node_texts (n1 :: n2 :: nodes) = Ok ts →
  completions (events (compose_answer E q_raw cat q (n1 :: n2 :: nodes)))
  = [prompt_text (join context_separator (take max_context_chunks ts)) q].
Proof.
  intros Hts. unfold compose_answer. rewrite Hts.
  cbn [lift mbind M_bind]. rewrite truthy_strip, all_space_join.
  assert (∃ t1 t2 ts', ts = t1 :: t2 :: ts') as (t1 & t2 & ts' & ->).
  { cbn [node_texts] in Hts.
    destruct (node_text n1); [|done]. destruct (node_text n2); [|done].
    destruct (node_texts nodes); [|done]. injection Hts as <-. eauto. }
  cbn [take max_context_chunks negb].
  by destruct (llm_acomplete E _).
Qed.

(** When the retrieval of a message yields no chunk, the handler puts the
    not-found sentence on the placeholder and does nothing more. *)
Lemma handle_message_no_chunk E text ud cp q l :
  detect_category_and_query (Some text) = Ok (cp, q) →
  truthy_opt (match cp with Some c => Some c | None => selected_cat ud end)
    && negb (indexed_opt E (match cp with Some c => Some c | None => selected_cat ud end))
    = false →
  retrieve_nodes E (match cp with Some c => Some c | None => selected_cat ud end) q
    = (Ok [], l) →
  events (handle_message E (Some text) ud)
    = ReplyText loading_text None :: l ++ [EditLoading not_found_text].
Proof.
  intros Hd Hguard Hret. unfold handle_message, handle_message_try.
  rewrite or_empty_Some, Hd. unfold lift. cbn [mbind M_bind app].
  rewrite Hguard, Hret. unfold events, emit, try_except, rerank_nodes.
  by destruct (reranker E).
Qed.

(** C1, at the input on which the code departs from it: two retrieved chunks
    whose texts are blank.  The joined context holds the separator, which is
    not blank, so the language model is called once and the reply is its
    answer, not the not-found sentence. *)
Theorem blank_chunks_reach_the_model :
  completions (events (handle_message Sample.blank_bot (Some "siapa raja?") ∅))
    = [ prompt_text
          ("" +:+ context_separator +:+ "  ") "siapa raja?" ]
  ∧ loading_edits (events (handle_message Sample.blank_bot (Some "siapa raja?") ∅))
    = [ "🧠 Di utara." +:+ nl +:+ nl +:+ "(Sumber: kota.md, desa.md)" +:+ nl +:+
        "[Mode: Semua]" ]
  ∧ loading_edits (events (handle_message Sample.blank_bot (Some "siapa raja?") ∅))
    ≠ [not_found_text].
Proof. split_and!; [reflexivity..|]. by vm_compute. Qed.
End EmptyContext.

(** ** Decimal digits and isoformat *)

Section DatetimeFacts.
Import Py Datetime.

Lemma isdigit_digit_char m : (m < 10)%N → isdigit (digit_char m) = true.
Proof.
  intros Hm.
  assert (m = 0 ∨ m = 1 ∨ m = 2 ∨ m = 3 ∨ m = 4 ∨ m = 5 ∨ m = 6 ∨ m = 7
          ∨ m = 8 ∨ m = 9)%N as Hcases by lia.
  repeat (destruct Hcases as [-> | Hcases]; [reflexivity|]). by subst.
Qed.

Lemma all_digits_app a b : all_digits (a +:+ b) = all_digits a && all_digits b.
Proof. induction a as [|x a IH]; simpl; [done|]. by rewrite IH, andb_assoc. Qed.

(** The digits of a number below [10^k] are at least one and at most [k]. *)
Lemma digits_shape fuel : ∀ (n : N) (acc : string) (k : nat),
  1 ≤ fuel → 1 ≤ k → (n < 10 ^ N.of_nat fuel)%N → (n < 10 ^ N.of_nat k)%N →
  ∃ ds, digits fuel n acc = ds +:+ acc ∧
        1 ≤ String.length ds ≤ k ∧ all_digits ds = true.
Proof.
  induction fuel as [|fuel IH]; intros n acc k Hpos Hk1 Hfuel Hk; [lia|].
  - assert (isdigit (digit_char (n mod 10)) = true) as Hd.
    { apply isdigit_digit_char. by apply N.mod_lt. }
    cbn [digits]. destruct (N.eqb_spec (n / 10) 0) as [Hz|Hnz].
    + exists (String (digit_char (n mod 10)) ""). simpl. rewrite Hd.
      split_and!; [done|lia|lia|done].
    + destruct k as [|k]; [lia|].
      rewrite Nat2N.inj_succ, N.pow_succ_r' in Hfuel, Hk.
      assert (n / 10 < 10 ^ N.of_nat fuel)%N as Hf'
        by (apply N.Div0.div_lt_upper_bound; lia).
      assert (n / 10 < 10 ^ N.of_nat k)%N as Hk'
        by (apply N.Div0.div_lt_upper_bound; lia).
      assert (1 ≤ fuel) as Hpos'.
      { destruct fuel; [|lia]. change (10 ^ N.of_nat 0)%N with 1%N in Hf'.
        clear -Hnz Hf'. destruct (n / 10)%N; [done|lia]. }
      assert (1 ≤ k) as Hk1'.
      { destruct k; [|lia]. change (10 ^ N.of_nat 0)%N with 1%N in Hk'.
        clear -Hnz Hk'. destruct (n / 10)%N; [done|lia]. }
      destruct (IH (n / 10)%N (String (digit_char (n mod 10)) acc) k Hpos' Hk1' Hf' Hk')
        as (ds & -> & Hlen & Hds).
      exists (ds +:+ String (digit_char (n mod 10)) "").
      rewrite string_app_assoc, string_app_length, all_digits_app. simpl.
      rewrite Hds, Hd. split_and!; [done|lia|lia|done].
Qed.

Lemma str_of_N_shape (n : N) (k : nat) :
  1 ≤ k → (n < 10 ^ N.of_nat k)%N →
  1 ≤ String.length (str_of_N n) ≤ k ∧ all_digits (str_of_N n) = true.
Proof.
  intros Hk1 Hk. unfold str_of_N.
  assert (n < 10 ^ N.of_nat (S (N.to_nat (N.log2 n))))%N as Hfuel.
  { rewrite Nat2N.inj_succ, N2Nat.id.
    destruct (N.eq_dec n 0%N) as [->|Hn]; [done|].
    assert (0 < n)%N as Hpos by lia.
    pose proof (N.log2_spec n Hpos) as [_ Hlt].
    eapply N.lt_le_trans; [exact Hlt|].
    apply N.pow_le_mono_l. lia. }
  assert (1 ≤ S (N.to_nat (N.log2 n))) as Hpos by lia.
  destruct (digits_shape _ n "" k Hpos Hk1 Hfuel Hk) as (ds & -> & Hlen & Hds).
  by rewrite append_nil_r.
Qed.

Lemma zeros_shape k : String.length (zeros k) = k ∧ all_digits (zeros k) = true.
Proof. induction k as [|k [IH1 IH2]]; simpl; [done|]. by rewrite IH1, IH2. Qed.

(** A number below [10^width] fills exactly [width] digits. *)
Lemma zfill_shape (width : nat) (n : N) :
  1 ≤ width → (n < 10 ^ N.of_nat width)%N →
  String.length (zfill width n) = width ∧ all_digits (zfill width n) = true.
Proof.
  intros Hw [Hlen Hds]%str_of_N_shape; [|done]. unfold zfill.
  destruct (zeros_shape (width - String.length (str_of_N n))) as [Hz1 Hz2].
  rewrite string_app_length, all_digits_app, Hz1, Hz2, Hds. split; [lia|done].
Qed.

Lemma eat_digits_app ds rest :
  all_digits ds = true → eat_digits (String.length ds) (ds +:+ rest) = Some rest.
Proof.
  induction ds as [|c ds IH]; simpl; [done|].
  intros [-> Hds]%andb_true_iff. by apply IH.
Qed.

Lemma eat_zfill width n rest :
  1 ≤ width → (n < 10 ^ N.of_nat width)%N →
  eat_digits width (zfill width n +:+ rest) = Some rest.
Proof.
  intros Hw [Hlen Hds]%zfill_shape; [|done]. rewrite <- Hlen at 1. by apply eat_digits_app.
Qed.

(** The text [isoformat] gives for a datetime within its ranges has the
    ISO-8601 shape. *)
Lemma isoformat_is_iso8601 d : valid d → is_iso8601 (isoformat d) = true.
Proof.
  intros (Hy & Hmo & Hd & Hh & Hmi & Hs & Hus).
  unfold isoformat, is_iso8601.
  assert (∀ c r, eat_char c (String c "" +:+ r) = Some r) as Hchar.
  { intros c r. rewrite append_cons. simpl. by rewrite Ascii.eqb_refl. }
  assert (∀ {A} (x : string) (f : string → option A), Some x ≫= f = f x)
    as Hbind by done.
  do 5 (rewrite eat_zfill by (simpl; lia); rewrite Hbind, Hchar, Hbind).
  rewrite eat_zfill by (simpl; lia).
  destruct (N.eqb_spec (microsecond d) 0) as [_|_]; [done|].
  rewrite <- (append_nil_r (zfill 6 (microsecond d))).
  change ("." +:+ ?z) with (String "." z). cbv iota.
  change (String "." ?z) with (String "." "" +:+ z).
  rewrite Hchar, Hbind.
  by rewrite eat_zfill by (simpl; lia).
Qed.
End DatetimeFacts.

(** ** Callback payloads and the feedback log *)

Section Callbacks.
Import Py Main Payload.

Lemma split_first_count sep s a b :
  split_first sep s = Some (a, b) → count_char sep s = S (count_char sep b).
Proof.
  revert a. induction s as [|c s IH]; intros a; simpl; [done|].
  destruct (Ascii.eqb c sep); [by intros [= _ ->]|].
  destruct (split_first sep s) as [[a' b']|] eqn:Hs; [|done].
  intros [= _ <-]. by apply (IH a').
Qed.

Lemma split_first_none_count sep s :
  split_first sep s = None → count_char sep s = 0.
Proof.
  induction s as [|c s IH]; simpl; [done|].
  destruct (Ascii.eqb c sep); [done|].
  destruct (split_first sep s) as [[a' b']|]; [done|]. auto.
Qed.

(** [split] yields one part more than it finds separators, [maxsplit] at
    most. *)
Lemma split_length sep maxsplit s :
  length (split sep maxsplit s) = S (maxsplit `min` count_char sep s).
Proof.
  revert s. induction maxsplit as [|n IH]; intros s; [done|].
  cbn [split]. destruct (split_first sep s) as [[a b]|] eqn:Hs.
  - rewrite (split_first_count _ _ _ _ Hs). cbn [length]. rewrite IH. lia.
  - rewrite (split_first_none_count _ _ Hs). simpl. lia.
Qed.

Lemma unpack2_malformed d :
  malformed 2 d → ∃ e, unpack2 (split_data bar 1 d) = Raise e.
Proof.
  destruct d as [s|]; [|by eexists]. unfold malformed, split_data. intros Hc.
  pose proof (split_length bar 1 s) as Hlen.
  destruct (split bar 1 s) as [|a [|b l]]; cbn [unpack2 length] in *;
    [by eexists..|lia].
Qed.

Lemma unpack3_malformed d :
  malformed 3 d → ∃ e, unpack3 (split_data bar 2 d) = Raise e.
Proof.
  destruct d as [s|]; [|by eexists]. unfold malformed, split_data. intros Hc.
  pose proof (split_length bar 2 s) as Hlen.
  destruct (split bar 2 s) as [|a [|b [|c l]]]; cbn [unpack3 length] in *;
    [by eexists..|lia].
Qed.

(** C8. On a callback whose payload does not split into the expected parts,
    each of the three callback handlers acknowledges the callback, puts its
    validation text on the message and returns: the session data and the
    feedback log are as they were. *)
Theorem malformed_payload_rejected (E : env) (now : Datetime.datetime)
    (w : world) (q qf : callback_query) :
  malformed 2 (data q) →
  malformed 3 (data qf) →
  pick_category_callback E q w
    = {| user_data := user_data w; feedback_log := feedback_log w;
         outbox := outbox w ++ [AnswerQuery] ++
                   [EditQueryMessage "Pilihan tidak dikenal. /start lagi ya." None] |}
  ∧ next_step_callback q w
    = {| user_data := user_data w; feedback_log := feedback_log w;
         outbox := outbox w ++ [AnswerQuery] ++
                   [EditQueryMessage "Pilihan tidak dikenal." None] |}
  ∧ feedback_callback now qf w
    = {| user_data := user_data w; feedback_log := feedback_log w;
         outbox := outbox w ++ [AnswerQuery] ++
                   [EditQueryMessage "⚠️ Format feedback tidak valid." None] |}.
Proof.
  intros [e2 H2]%unpack2_malformed [e3 H3]%unpack3_malformed.
  unfold pick_category_callback, next_step_callback, feedback_callback.
  rewrite H2, H3. unfold send. cbn [user_data feedback_log outbox].
  by rewrite <- !(assoc_L (++)).
Qed.

Lemma malformed_payload_rejected_witness :
  let w := {| user_data := {[ "selected_cat" := Some "npc" ]};
              feedback_log := [[CStr "user_id"]]; outbox := [] |} in
  let q := {| data := Some "CAT"; from_user := {| id := 7; username := None |} |} in
  let qf := {| data := Some "fb|4"; from_user := {| id := 7; username := None |} |} in
  pick_category_callback Sample.bot q w
    = {| user_data := user_data w; feedback_log := feedback_log w;
         outbox := [AnswerQuery;
                    EditQueryMessage "Pilihan tidak dikenal. /start lagi ya." None] |}
  ∧ next_step_callback q w
    = {| user_data := user_data w; feedback_log := feedback_log w;
         outbox := [AnswerQuery; EditQueryMessage "Pilihan tidak dikenal." None] |}
  ∧ feedback_callback Sample.noon qf w
    = {| user_data := user_data w; feedback_log := feedback_log w;
         outbox := [AnswerQuery;
                    EditQueryMessage "⚠️ Format feedback tidak valid." None] |}.
Proof.
  intros w q qf.
  apply (malformed_payload_rejected Sample.bot Sample.noon w q qf); simpl; lia.
Defined.

(** A payload [tag|score|question] splits into its three parts, whatever
    bars the question holds. *)
Lemma split_feedback_payload tag score question :
  contains bar tag = false → contains bar score = false →
  split bar 2 (tag +:+ "|" +:+ score +:+ "|" +:+ question) = [tag; score; question].
Proof.
  intros Htag Hscore. cbn [split].
  change (tag +:+ "|" +:+ score +:+ "|" +:+ question)
    with (tag +:+ String bar (score +:+ String bar question)).
  by rewrite !split_first_app.
Qed.

(** The five rating buttons that [handle_message] offers carry payloads
    that [feedback_callback] unpacks to the score on the button and the
    question as it was typed. *)
Lemma keyboard_fb_payloads q_raw label payload :
  (label, payload) ∈ concat (keyboard_fb q_raw) →
  unpack3 (split_data bar 2 (Some payload)) = Ok ("fb", label, q_raw).
Proof.
  unfold keyboard_fb. cbn [concat app]. rewrite !elem_of_cons, elem_of_nil.
  intros [H|[H|[H|[H|[H|[]]]]]]; injection H as -> ->; reflexivity.
Qed.

(** C7. On a payload [fb|score|question], [feedback_callback] appends to
    the feedback log one row made of the user id, the user name (empty when
    there is none), the score, the question and the ISO-8601 text of the
    current time; the header row goes before it only when the log is empty;
    the rows already in the log stay in front, unchanged, and the session
    data is untouched. *)
Theorem feedback_appends_one_row (now : Datetime.datetime) (q : callback_query)
    (w : world) (score question : string) :
  contains bar score = false →
  data q = Some ("fb|" +:+ score +:+ "|" +:+ question) →
  Datetime.valid now →
  feedback_callback now q w
    = {| user_data := user_data w;
         feedback_log :=
           feedback_log w ++
           match feedback_log w with
           | [] => [[CStr "user_id"; CStr "username"; CStr "score";
                     CStr "question"; CStr "timestamp"]]
           | _ :: _ => []
           end ++
           [[CInt (id (from_user q)); CStr (or_empty (username (from_user q)));
             CStr score; CStr question; CStr (Datetime.isoformat now)]];
         outbox := outbox w ++ [AnswerQuery] ++
                   [EditQueryMessage
                      ("✅ Terima kasih! Feedback " +:+ score +:+ "/5 terekam.") None] |}
  ∧ Datetime.is_iso8601 (Datetime.isoformat now) = true.
Proof.
  intros Hscore Hdata Hnow. split; [|by apply isoformat_is_iso8601].
  unfold feedback_callback. rewrite Hdata. unfold split_data.
  change ("fb|" +:+ score +:+ "|" +:+ question)
    with ("fb" +:+ "|" +:+ score +:+ "|" +:+ question).
  rewrite (split_feedback_payload "fb" score question eq_refl Hscore).
  cbn [unpack3]. unfold send, append_rows, feedback_row.
  cbn [user_data feedback_log outbox].
  by rewrite <- (assoc_L (++) (outbox w)).
Qed.

Lemma feedback_appends_one_row_witness :
  let q := {| data := Some "fb|4|who is the king";
              from_user := {| id := 7; username := Some "ratu" |} |} in
  let w := {| user_data := {[ "selected_cat" := Some "npc" ]};
              feedback_log := []; outbox := [] |} in
  feedback_callback Sample.noon q w
    = {| user_data := {[ "selected_cat" := Some "npc" ]};
         feedback_log :=
           [ [CStr "user_id"; CStr "username"; CStr "score"; CStr "question";
              CStr "timestamp"];
             [CInt 7; CStr "ratu"; CStr "4"; CStr "who is the king";
              CStr "2025-03-09T12:00:07.001500"] ];
         outbox := [AnswerQuery;
                    EditQueryMessage "✅ Terima kasih! Feedback 4/5 terekam." None] |}
  ∧ Datetime.is_iso8601 "2025-03-09T12:00:07.001500" = true.
Proof.
  intros q w.
  refine (feedback_appends_one_row Sample.noon q w "4" "who is the king"
            eq_refl eq_refl _).
  unfold Datetime.valid. simpl. lia.
Defined.
End Callbacks.

(** ** The source note *)

Section SourceNote.
Import Py Main Sources.

Lemma first_seen_NoDup l : ∀ seen, NoDup seen → NoDup (seen ++ first_seen seen l).
Proof.
  induction l as [|x l IH]; intros seen Hseen; simpl.
  - by rewrite app_nil_r.
  - case_bool_decide as Hx; [by apply IH|].
    rewrite cons_middle, (assoc_L (++)). apply IH.
    apply NoDup_app. split_and!; [done| |apply NoDup_singleton].
    intros y Hy ->%list_elem_of_singleton. done.
Qed.

Lemma first_seen_elem l : ∀ seen x, x ∈ first_seen seen l → x ∈ l.
Proof.
  induction l as [|y l IH]; intros seen x; simpl; [done|].
  case_bool_decide.
  - intros ?%IH. by right.
  - intros [->|?%IH]%elem_of_cons; [left|by right].
Qed.

Lemma first_seen_length l : ∀ seen, length (first_seen seen l) ≤ length l.
Proof.
  induction l as [|y l IH]; intros seen; simpl; [done|].
  case_bool_decide; simpl; [specialize (IH seen)|specialize (IH (seen ++ [y]))]; lia.
Qed.

Lemma omap_length_le {A B} (f : A → option B) (l : list A) :
  length (omap f l) ≤ length l.
Proof.
  induction l as [|x l IH]; [done|]. cbn. destruct (f x); simpl; lia.
Qed.

Lemma omap_cons_eq n nodes :
  omap shown_name (n :: nodes)
  = match shown_name n with
    | Some f => f :: omap shown_name nodes
    | None => omap shown_name nodes
    end.
Proof. reflexivity. Qed.

(** The loop of [collect_sources] keeps what it has and adds the unseen
    names in first-seen order, until it has [max_files] of them. *)
Lemma collect_files_spec nodes : ∀ max_files files,
  length files < max_files →
  collect_files nodes max_files files
  = take max_files (files ++ first_seen files (omap shown_name nodes)).
Proof.
  induction nodes as [|n nodes IH]; intros k files Hlen.
  - simpl. rewrite app_nil_r, take_ge; [done|lia].
  - cbn [collect_files]. rewrite (omap_cons_eq n nodes).
    unfold shown_name at 1, truthy_cat.
    destruct (fname_of n) as [f|] eqn:Hf.
    + destruct (truthy_opt (Some f)) eqn:Ht; cbn [andb first_seen].
      * case_bool_decide as Hin; cbn [negb].
        -- destruct (Nat.leb_spec k (length files)); [lia|]. by apply IH.
        -- rewrite length_app. cbn [length].
           change (files ++ f :: first_seen ?s ?r)
             with (files ++ [f] ++ first_seen s r).
           rewrite (assoc_L (++) files [f]).
           destruct (Nat.leb_spec k (length files + 1)).
           ++ assert (k = length (files ++ [f])) as ->
                by (rewrite length_app; simpl; lia).
              by rewrite take_app_length.
           ++ apply IH. rewrite length_app. simpl. lia.
      * destruct (Nat.leb_spec k (length files)); [lia|]. by apply IH.
    + cbn [truthy_opt]. destruct (Nat.leb_spec k (length files)); [lia|]. by apply IH.
Qed.

Lemma shown_name_Some n f :
  shown_name n = Some f → fname_of n = Some f ∧ truthy f = true.
Proof.
  unfold shown_name, truthy_cat.
  destruct (truthy_opt (fname_of n)) eqn:Ht; [|done].
  intros Hf. rewrite Hf in Ht. done.
Qed.

(** C6. The source note is made of the distinct file names of the chunks,
    in first-seen order, cut after the fifth: joined by a comma and a space,
    or the word [dataset] when there is none.  So it lists no name twice,
    five names at most, each the file name of a retrieved chunk, and as many
    as there are distinct files when these are five or fewer; the distinct
    files are no more than the chunks. *)
Theorem source_note_lists_distinct_files (nodes : list retrieved) :
  let files := take 5 (distinct_files nodes) in
  collect_sources nodes max_files_default
    = match files with [] => "dataset" | _ :: _ => join ", " files end
  ∧ NoDup files
  ∧ length files = 5 `min` length (distinct_files nodes)
  ∧ length (distinct_files nodes) ≤ length nodes
  ∧ ∀ f, f ∈ files → ∃ n, n ∈ nodes ∧ fname_of n = Some f.
Proof.
  intros files. split_and!.
  - unfold collect_sources, max_files_default.
    rewrite collect_files_spec by (simpl; lia).
    change (take 5 ([] ++ first_seen [] (omap shown_name nodes))) with files.
    by destruct files.
  - eapply sublist_NoDup; [|apply sublist_take].
    apply (first_seen_NoDup _ []), NoDup_nil_2.
  - apply length_take.
  - unfold distinct_files. etrans; [apply first_seen_length|].
    apply omap_length_le.
  - intros f (i & Hf%list_elem_of_lookup_2 & _)%elem_of_take.
    unfold distinct_files in Hf.
    apply first_seen_elem, list_elem_of_omap in Hf as (n & Hn & Hs).
    exists n. split; [done|]. by apply shown_name_Some.
Qed.

Example source_note_of_seven_chunks :
  collect_sources
    [ Sample.chunk "a" "raja.md"; Sample.chunk "b" "ratu.md";
      Sample.chunk "c" "raja.md"; Sample.chunk "d" "kota.md";
      Other "str"; Sample.chunk "e" "desa.md"; Sample.chunk "f" "peta.md";
      Sample.chunk "g" "pedang.md" ] max_files_default
  = "raja.md, ratu.md, kota.md, desa.md, peta.md".
Proof. reflexivity. Qed.

(** Without a name to show, the loop adds nothing. *)
Lemma collect_files_no_name nodes max_files files :
  (∀ n, n ∈ nodes → shown_name n = None) →
  collect_files nodes max_files files = files.
Proof.
  induction nodes as [|n nodes IH]; intros Hnone; [done|].
  assert (shown_name n = None) as Hn by (apply Hnone; left).
  assert (collect_files nodes max_files files = files) as Hrest
    by (apply IH; intros n' Hn'; apply Hnone; by right).
  cbn [collect_files]. unfold shown_name, truthy_cat in Hn.
  destruct (fname_of n) as [f|].
  - destruct (truthy_opt (Some f)); [done|]. cbn [andb].
    by destruct (max_files <=? length files)%nat.
  - by destruct (max_files <=? length files)%nat.
Qed.

(** Every name the loop collects is a non-empty string. *)
Lemma collect_files_truthy nodes : ∀ max_files files,
  Forall (λ f, truthy f = true) files →
  Forall (λ f, truthy f = true) (collect_files nodes max_files files).
Proof.
  induction nodes as [|n nodes IH]; intros k files Hfiles; [done|].
  cbn [collect_files].
  destruct (fname_of n) as [f|]; [|case_match; auto].
  destruct (truthy_opt (Some f)) eqn:Ht; cbn [andb]; [|case_match; auto].
  case_bool_decide; cbn [negb]; [case_match; auto|].
  assert (Forall (λ f, truthy f = true) (files ++ [f])) as Hf.
  { apply Forall_app. split; [done|]. by apply Forall_singleton. }
  case_match; auto.
Qed.

Lemma join_truthy sep f fs : truthy f = true → truthy (join sep (f :: fs)) = true.
Proof.
  destruct f as [|c f]; [done|]. intros _. by destruct fs.
Qed.

Lemma fname_of_no_entry n :
  meta_of n !! "file_name" = None → meta_of n !! "filename" = None →
  meta_of n !! "id" = None → shown_name n = None.
Proof.
  unfold shown_name, fname_of. by intros -> -> ->.
Qed.

(** C10. [collect_sources] never returns the empty string; on chunks none of
    which has a [file_name], [filename] or [id] entry in its metadata, the
    empty list among them, it returns the word [dataset]; and the text of
    an answer holds the source note between its brackets. *)
Theorem source_note_never_empty (nodes unnamed : list retrieved) (max_files : nat)
    (E : env) (q_raw q : string) (cat : option string) :
  (∀ n, n ∈ unnamed →
     meta_of n !! "file_name" = None ∧ meta_of n !! "filename" = None
     ∧ meta_of n !! "id" = None) →
  collect_sources unnamed max_files = "dataset"
  ∧ collect_sources [] max_files = "dataset"
  ∧ collect_sources nodes max_files ≠ ""
  ∧ ∀ t, t ∈ loading_edits (events (compose_answer E q_raw cat q nodes)) →
      t = not_found_text
      ∨ ∃ answer mode,
          t = "🧠 " +:+ answer +:+ nl +:+ nl +:+
              ("(Sumber: " +:+ collect_sources nodes max_files_default +:+ ")") +:+
              nl +:+ "[Mode: " +:+ mode +:+ "]".
Proof.
  intros Hnone. split_and!.
  - unfold collect_sources. rewrite collect_files_no_name; [done|].
    intros n (? & ? & ?)%Hnone. by apply fname_of_no_entry.
  - done.
  - unfold collect_sources.
    pose proof (collect_files_truthy nodes max_files [] (Forall_nil_2 _)) as Hall.
    destruct (collect_files nodes max_files []) as [|f fs]; [done|].
    apply Forall_cons in Hall as [Hf _].
    pose proof (join_truthy ", " f fs Hf) as Hj.
    intros Heq. by rewrite Heq in Hj.
  - intros t. unfold compose_answer.
    destruct (node_texts nodes) as [ts|e]; [|by intros ?%elem_of_nil].
    cbn [lift mbind M_bind].
    destruct (negb (truthy (strip _))); simpl.
    + intros ->%list_elem_of_singleton. by left.
    + destruct (llm_acomplete E _) as [resp|e]; simpl; [|by intros ?%elem_of_nil].
      intros ->%list_elem_of_singleton. right. by eexists _, _.
Qed.

Lemma source_note_never_empty_witness :
  collect_sources [Other "str"; NodeWithScore {| text := "x"; metadata := ∅ |}] 5
    = "dataset"
  ∧ collect_sources [] 5 = "dataset"
  ∧ collect_sources [Sample.chunk "a" "raja.md"] 5 ≠ ""
  ∧ ∀ t, t ∈ loading_edits
               (events (compose_answer Sample.bot "siapa raja?" None "siapa raja?"
                          [Sample.chunk "a" "raja.md"])) →
      t = not_found_text
      ∨ ∃ answer mode,
          t = "🧠 " +:+ answer +:+ nl +:+ nl +:+
              ("(Sumber: " +:+
               collect_sources [Sample.chunk "a" "raja.md"] max_files_default +:+
               ")") +:+ nl +:+ "[Mode: " +:+ mode +:+ "]".
Proof.
  apply (source_note_never_empty [Sample.chunk "a" "raja.md"]
           [Other "str"; NodeWithScore {| text := "x"; metadata := ∅ |}] 5
           Sample.bot "siapa raja?" "siapa raja?" None).
  intros n Hn. repeat (apply elem_of_cons in Hn as [-> | Hn]; [done|]).
  by apply elem_of_nil in Hn.
Defined.
End SourceNote.

(** ** The index builder *)

Section BuilderFacts.
Import Py Disk BuildIndex.
Context {Doc Index : Type}.
Variable load_data : list string → res (list Doc).
Variable make_index : list Doc → res Index.

Local Abbreviation build_one := (build_one load_data make_index).
Local Abbreviation build_each := (build_each load_data make_index).
Local Abbreviation main := (main load_data make_index).
Local Abbreviation state := (@state Index).

Lemma insert_sorted_not_nil p l : insert_sorted p l ≠ [].
Proof. destruct l as [|x l]; simpl; [done|]. by destruct (String.leb p x). Qed.

Lemma sorted_nil l : sorted l = [] ↔ l = [].
Proof.
  split; [|by intros ->]. destruct l as [|x l]; [done|]. simpl.
  intros H. by apply insert_sorted_not_nil in H.
Qed.

(** A category without markdown files: the warning, and nothing else. *)
Lemma build_one_skip category src_dir persist_root (st : state) :
  default [] (md_files (fs st) !! src_dir) = [] →
  build_one category src_dir persist_root st
  = (Ok (), {| fs := fs st; out := out st ++ [skip_text category src_dir] |}).
Proof.
  intros Hmd. unfold BuildIndex.build_one, mbind, ST_bind, glob_md.
  by rewrite Hmd.
Qed.

(** [build_one] reads the sources without changing them, and writes no
    directory but the one of its category. *)
Lemma build_one_frame category src_dir persist_root (st : state) :
  md_files (fs (build_one category src_dir persist_root st).2) = md_files (fs st)
  ∧ ∀ p, p ≠ path_join persist_root category →
      dirs (fs (build_one category src_dir persist_root st).2) !! p
      = dirs (fs st) !! p.
Proof.
  unfold BuildIndex.build_one, mbind, ST_bind, glob_md.
  destruct (sorted (default [] (md_files (fs st) !! src_dir))) as [|f md];
    [done|].
  unfold path_exists, print, external, rmtree, persist, mret, ST_ret.
  set (persist_dir := path_join persist_root category).
  destruct (bool_decide (is_Some (dirs (fs st) !! persist_dir)));
    cbn [fs out md_files dirs];
    destruct (load_data (f :: md)) as [docs|e]; cbn [fs out md_files dirs snd];
    try destruct (make_index docs) as [idx|e]; cbn [fs out md_files dirs snd];
    (split; [done|]); intros p Hp;
    by rewrite ?lookup_insert_ne, ?lookup_delete_ne.
Qed.

(** With at least one markdown file and a framework that returns, the
    directory of the category holds the new index and nothing of the old. *)
Lemma build_one_rebuilds category src_dir persist_root (st : state) docs idx :
  sorted (default [] (md_files (fs st) !! src_dir)) ≠ [] →
  load_data (sorted (default [] (md_files (fs st) !! src_dir))) = Ok docs →
  make_index docs = Ok idx →
  (build_one category src_dir persist_root st).1 = Ok ()
  ∧ dirs (fs (build_one category src_dir persist_root st).2)
    = <[path_join persist_root category := Some idx]> (dirs (fs st)).
Proof.
  intros Hmd Hdocs Hidx.
  unfold BuildIndex.build_one, mbind, ST_bind, glob_md.
  destruct (sorted (default [] (md_files (fs st) !! src_dir))) as [|f md];
    [done|].
  unfold path_exists, print, external, rmtree, persist, mret, ST_ret.
  destruct (bool_decide (is_Some (dirs (fs st) !! _)));
    cbn [fs out md_files dirs]; rewrite Hdocs, Hidx; cbn [fs dirs fst snd];
    by rewrite ?insert_delete_eq.
Qed.

Lemma build_each_frame cats : ∀ (st : state),
  md_files (fs (build_each cats st).2) = md_files (fs st)
  ∧ ∀ p,
      (∀ c src, (c, src) ∈ cats → p = path_join PERSIST_ROOT c →
                default [] (md_files (fs st) !! src) = []) →
      dirs (fs (build_each cats st).2) !! p = dirs (fs st) !! p.
Proof.
  induction cats as [|[c src] cats IH]; intros st; [done|].
  cbn [BuildIndex.build_each]. unfold mbind, ST_bind.
  destruct (build_one_frame c src PERSIST_ROOT st) as [Hmd Hdirs].
  destruct (build_one c src PERSIST_ROOT st) as [[[]|e] st1] eqn:Hone;
    cbn [snd] in Hmd, Hdirs |- *.
  - destruct (IH st1) as [Hmd1 Hdirs1]. split; [congruence|].
    intros p Hp. rewrite Hdirs1.
    + destruct (decide (p = path_join PERSIST_ROOT c)) as [->|Hne];
        [|by apply Hdirs].
      rewrite build_one_skip in Hone by (eapply Hp; [left|done]).
      by injection Hone as <-.
    + intros c' src' Hin Heq. rewrite Hmd. eapply Hp; [by right|done].
  - split; [done|]. intros p Hp.
    destruct (decide (p = path_join PERSIST_ROOT c)) as [->|Hne];
      [|by apply Hdirs].
    rewrite build_one_skip in Hone by (eapply Hp; [left|done]). done.
Qed.

Lemma path_join_inj a b c : path_join a b = path_join a c → b = c.
Proof. unfold path_join. by intros ?%(inj _)%(inj _). Qed.

Lemma categories_functional c src src' :
  (c, src) ∈ CATEGORIES → (c, src') ∈ CATEGORIES → src = src'.
Proof.
  unfold CATEGORIES. rewrite !elem_of_cons, !elem_of_nil.
  intros [H|[H|[H|[H|[H|[H|[]]]]]]] [H'|[H'|[H'|[H'|[H'|[H'|[]]]]]]];
    by simplify_eq.
Qed.

Lemma root_is_no_category_dir c : PERSIST_ROOT ≠ path_join PERSIST_ROOT c.
Proof. unfold PERSIST_ROOT, path_join. intros H. by simplify_eq. Qed.

(** C5. [build_one] on a category whose source directory holds no markdown
    file prints its warning and returns without an error, the disk as it
    was.  After a whole run of the builder, finished or stopped by an
    exception, the persisted directory of a configured category differs
    from what it was only if the category has a markdown file. *)
Theorem empty_category_is_skipped (st : state)
    (category src_dir persist_root : string) :
  default [] (md_files (fs st) !! src_dir) = [] →
  build_one category src_dir persist_root st
    = (Ok (), {| fs := fs st;
                 out := out st ++
                        ["⚠️  Lewati '" +:+ category +:+
                         "': gak ketemu file .md di " +:+ src_dir] |})
  ∧ ∀ cat src, (cat, src) ∈ CATEGORIES →
      dirs (fs (main st).2) !! path_join PERSIST_ROOT cat
        ≠ dirs (fs st) !! path_join PERSIST_ROOT cat →
      default [] (md_files (fs st) !! src) ≠ [].
Proof.
  intros Hmd. split; [by apply build_one_skip|].
  intros cat src Hcat Hchanged Hempty. apply Hchanged. clear Hchanged.
  unfold BuildIndex.main, mbind, ST_bind, mkdir. cbn [fst].
  set (st0 := {| fs := _; out := out st |}).
  assert (md_files (fs st0) = md_files (fs st)) as Hmd0 by done.
  assert (dirs (fs st0) !! path_join PERSIST_ROOT cat
          = dirs (fs st) !! path_join PERSIST_ROOT cat) as Hd0.
  { unfold st0. cbn [fs dirs]. destruct (dirs (fs st) !! PERSIST_ROOT); [done|].
    apply lookup_insert_ne, root_is_no_category_dir. }
  destruct (build_each_frame CATEGORIES st0) as [_ Hframe].
  rewrite <- Hd0, <- (Hframe (path_join PERSIST_ROOT cat)).
  - by destruct (build_each CATEGORIES st0) as [[[]|e] st1].
  - intros c src' Hin ->%path_join_inj. rewrite Hmd0.
    by rewrite (categories_functional _ _ _ Hin Hcat).
Qed.
End BuilderFacts.

Lemma empty_category_is_skipped_witness :
  BuildIndex.build_one SampleDisk.read_all SampleDisk.index_all
    "npc" "data/npc" "storage" SampleDisk.before
    = (Ok (), {| BuildIndex.fs := BuildIndex.fs SampleDisk.before;
                 BuildIndex.out :=
                   ["⚠️  Lewati 'npc': gak ketemu file .md di data/npc"] |})
  ∧ ∀ cat src, (cat, src) ∈ BuildIndex.CATEGORIES →
      Disk.dirs (BuildIndex.fs
                   (BuildIndex.main SampleDisk.read_all SampleDisk.index_all
                      SampleDisk.before).2)
        !! Disk.path_join Disk.PERSIST_ROOT cat
        ≠ Disk.dirs (BuildIndex.fs SampleDisk.before)
            !! Disk.path_join Disk.PERSIST_ROOT cat →
      default [] (Disk.md_files (BuildIndex.fs SampleDisk.before) !! src) ≠ [].
Proof.
  exact (empty_category_is_skipped SampleDisk.read_all SampleDisk.index_all
           SampleDisk.before "npc" "data/npc" "storage" eq_refl).
Defined.

Example rebuild_sample_disk :
  Disk.dirs (BuildIndex.fs
               (BuildIndex.main SampleDisk.read_all SampleDisk.index_all
                  SampleDisk.before).2)
  = {[ "storage" := None;
       "storage/maps" := Some ["data/maps/desa.md"; "data/maps/kota.md"];
       "storage/npc" := Some ["data/npc/penjaga.md"] ]}.
Proof. vm_compute. reflexivity. Qed.

(** ** Invariants of the chat *)

Section SessionFacts.
Import Py Main Chat.

Lemma selected_cat_delete ud : selected_cat (delete "selected_cat" ud) = None.
Proof. unfold selected_cat. by rewrite lookup_delete_eq. Qed.

Lemma selected_cat_insert ud v : selected_cat (<["selected_cat" := v]> ud) = v.
Proof. unfold selected_cat. by rewrite lookup_insert_eq. Qed.

Lemma pick_category_session_ok E q w :
  session_ok E (user_data w) → session_ok E (user_data (pick_category_callback E q w)).
Proof.
  intros Hok. unfold pick_category_callback.
  destruct (unpack2 _) as [[tag cat]|e]; [|done].
  case_bool_decide; cbn [send with_user_data user_data].
  - intros c. by rewrite selected_cat_insert.
  - destruct (indexed E cat) eqn:Hidx; cbn [negb send with_user_data user_data];
      [|done].
    intros c. rewrite selected_cat_insert. by intros [= <-].
Qed.

Lemma next_step_user_data q w : user_data (next_step_callback q w) = user_data w.
Proof.
  unfold next_step_callback. destruct (unpack2 _) as [[tag action]|e]; [|done].
  by case_bool_decide.
Qed.

Lemma feedback_user_data now q w : user_data (feedback_callback now q w) = user_data w.
Proof.
  unfold feedback_callback. by destruct (unpack3 _) as [[[tag score] question]|e].
Qed.

(** Every update keeps the session on a loaded category or on none. *)
Lemma dispatch_session_ok E now u w :
  session_ok E (user_data w) → session_ok E (user_data (dispatch_update E now u w)).
Proof.
  intros Hok. destruct u as [| |text| |q]; cbn [dispatch_update].
  - intros c. unfold start_cmd. cbn [send with_user_data user_data].
    by rewrite selected_cat_delete.
  - intros c. unfold reset_cmd. cbn [send with_user_data user_data].
    by rewrite selected_cat_delete.
  - done.
  - done.
  - destruct (has_tag "CAT" q); [by apply pick_category_session_ok|].
    destruct (has_tag "NEXT" q); [by rewrite next_step_user_data|].
    destruct (has_tag "fb" q); [by rewrite feedback_user_data|done].
Qed.

(** From its beginning on, whatever the updates, the chat has a loaded
    category selected or none. *)
Lemma run_session_ok E us : session_ok E (user_data (run E us fresh)).
Proof.
  assert (∀ w, session_ok E (user_data w) → session_ok E (user_data (run E us w)))
    as Hrun.
  { induction us as [|[now u] us IH]; intros w Hok; [done|].
    cbn [run]. by apply IH, dispatch_session_ok. }
  apply Hrun. intros c. unfold fresh, selected_cat. cbn [user_data].
  by rewrite lookup_empty.
Qed.

Lemma pick_category_feedback_log E q w :
  feedback_log (pick_category_callback E q w) = feedback_log w.
Proof.
  unfold pick_category_callback. destruct (unpack2 _) as [[tag cat]|e]; [|done].
  case_bool_decide; [done|]. by destruct (indexed E cat).
Qed.

Lemma next_step_feedback_log q w :
  feedback_log (next_step_callback q w) = feedback_log w.
Proof.
  unfold next_step_callback. destruct (unpack2 _) as [[tag action]|e]; [|done].
  by case_bool_decide.
Qed.

(** The feedback log only grows at its end: what an update finds in it is
    still there, in front, after the update. *)
Lemma dispatch_feedback_log_prefix E now u w :
  feedback_log w `prefix_of` feedback_log (dispatch_update E now u w).
Proof.
  destruct u as [| |text| |q]; cbn [dispatch_update]; [done..|].
  destruct (has_tag "CAT" q); [by rewrite pick_category_feedback_log|].
  destruct (has_tag "NEXT" q); [by rewrite next_step_feedback_log|].
  destruct (has_tag "fb" q); [|done].
  unfold feedback_callback. destruct (unpack3 _) as [[[tag score] question]|e];
    [|done].
  cbn [send append_rows feedback_log]. by apply prefix_app_r.
Qed.

Lemma run_feedback_log_prefix E us : ∀ w,
  feedback_log w `prefix_of` feedback_log (run E us w).
Proof.
  induction us as [|[now u] us IH]; intros w; [done|].
  cbn [run]. etrans; [apply dispatch_feedback_log_prefix|apply IH].
Qed.
End SessionFacts.

(** ** How handle_message ends *)

Section OutcomeFacts.
Import Py Main Observe Outcome.

Lemma bind_pair {A B} (r : res A) (l : list event) (f : A → M B) :
  (r, l) ≫= f
  = match r with
    | Ok a => ((f a).1, l ++ (f a).2)
    | Raise e => (Raise e, l)
    end.
Proof. destruct r as [a|e]; [|done]. unfold mbind, M_bind. by destruct (f a). Qed.

Lemma only_retrieve_observed l :
  forallb is_retrieve l = true →
  completions l = [] ∧ loading_edits l = [] ∧ markups l = [].
Proof.
  induction l as [|e l IH]; [done|]. simpl.
  intros [He Hl]%andb_true_iff. destruct e; try done. by apply IH.
Qed.

Lemma retrieve_all_only_retrieve rs q : ∀ acc,
  forallb is_retrieve (events (retrieve_all rs q acc)) = true.
Proof.
  induction rs as [|[c r] rs IH]; intros acc; [done|].
  cbn [retrieve_all]. rewrite events_bind. unfold call. cbn [events fst snd app].
  destruct (r q) as [ns|e]; [|done]. cbn [forallb is_retrieve andb]. apply IH.
Qed.

Lemma retrieve_nodes_only_retrieve E cat q :
  forallb is_retrieve (events (retrieve_nodes E cat q)) = true.
Proof.
  unfold retrieve_nodes. destruct (truthy_cat cat) as [c|];
    [|apply retrieve_all_only_retrieve].
  destruct (getitem (retrievers E) c) as [r|e]; [|done].
  unfold lift, call. cbn [mbind M_bind app]. by destruct (r q).
Qed.

(** The rerank step returns and sends nothing, whatever the reranker does. *)
Lemma rerank_nodes_returns E nodes q : ∃ nodes', rerank_nodes E nodes q = (Ok nodes', []).
Proof.
  unfold rerank_nodes. destruct (reranker E) as [rr|]; [|by eexists].
  destruct nodes as [|n nodes]; [by eexists|].
  unfold try_except, lift. destruct (rr _ q); by eexists.
Qed.

(** The four ways in which the composition of an answer ends. *)
Lemma compose_answer_cases E q_raw cat q nodes :
  (∃ e, compose_answer E q_raw cat q nodes = (Raise e, []))
  ∨ compose_answer E q_raw cat q nodes = (Ok (), [EditLoading not_found_text])
  ∨ (∃ p e, llm_acomplete E p = Raise e
            ∧ compose_answer E q_raw cat q nodes = (Raise e, [Complete p]))
  ∨ (∃ p resp rest, llm_acomplete E p = Ok resp
       ∧ compose_answer E q_raw cat q nodes
         = (Ok (), [ Complete p;
                     EditLoading ("🧠 " +:+ shown_answer resp +:+ rest);
                     ReplyText "Nilai jawaban ini (1=buruk, 5=bagus):"
                       (Some (keyboard_fb q_raw));
                     ReplyText "Apakah masih ingin bertanya?" (Some keyboard_next) ])).
Proof.
  unfold compose_answer.
  destruct (node_texts nodes) as [ts|e]; [|left; by eexists].
  cbn [lift mbind M_bind app].
  destruct (negb (truthy (strip _))); [by right; left|].
  right. right.
  destruct (llm_acomplete E _) as [resp|e] eqn:Hllm.
  - right. eexists _, resp, _. split; [exact Hllm|]. unfold call, emit.
    cbn [mbind M_bind app]. reflexivity.
  - left. eexists _, e. split; [exact Hllm|]. reflexivity.
Qed.

(** The five ways in which the [try] block of [handle_message] ends: [lr]
    are the calls of the retrievers made before. *)
Lemma handle_message_try_cases E q_raw ud :
  ∃ lr, forallb is_retrieve lr = true ∧
    ((∃ c, handle_message_try E q_raw ud = (Ok (), [EditLoading (not_indexed_text c)]))
     ∨ (∃ e, handle_message_try E q_raw ud = (Raise e, lr))
     ∨ handle_message_try E q_raw ud = (Ok (), lr ++ [EditLoading not_found_text])
     ∨ (∃ p e, llm_acomplete E p = Raise e
               ∧ handle_message_try E q_raw ud = (Raise e, lr ++ [Complete p]))
     ∨ (∃ p resp rest, llm_acomplete E p = Ok resp
          ∧ handle_message_try E q_raw ud
            = (Ok (), lr ++
                      [ Complete p;
                        EditLoading ("🧠 " +:+ shown_answer resp +:+ rest);
                        ReplyText "Nilai jawaban ini (1=buruk, 5=bagus):"
                          (Some (keyboard_fb q_raw));
                        ReplyText "Apakah masih ingin bertanya?"
                          (Some keyboard_next) ]))).
Proof.
  unfold handle_message_try.
  destruct (detect_returns (Some q_raw)) as (cp & q & ->).
  unfold lift. rewrite bind_pair. cbn beta iota.
  set (cat := match cp with Some c => Some c | None => selected_cat ud end).
  destruct (truthy_opt cat && negb (indexed_opt E cat)).
  { exists []. split; [done|]. left. by eexists. }
  pose proof (retrieve_nodes_only_retrieve E cat q) as Hlr.
  destruct (retrieve_nodes E cat q) as [[nodes|e] lr]; cbn [events snd] in Hlr;
    rewrite bind_pair; cbn [app].
  2:{ exists lr. split; [done|]. right. left. by eexists. }
  exists lr. split; [done|].
  destruct (rerank_nodes_returns E nodes q) as [nodes' ->].
  rewrite bind_pair. cbn [app].
  destruct (compose_answer_cases E q_raw cat q nodes')
    as [[e ->]|[->|[(p & e & Hllm & ->)|(p & resp & rest & Hllm & ->)]]];
    cbn [fst snd].
  - right. left. exists e. by rewrite app_nil_r.
  - right. right. by left.
  - right. right. right. left. by eexists _, _.
  - right. right. right. right. by eexists _, _, _.
Qed.

Lemma handle_message_unfold E text ud :
  handle_message E text ud
  = match handle_message_try E (or_empty text) ud with
    | (Ok a, l) => (Ok a, ReplyText loading_text None :: l)
    | (Raise e, l) =>
        (Ok (), ReplyText loading_text None :: l ++ [EditLoading (error_text e)])
    end.
Proof.
  unfold handle_message. by destruct (handle_message_try _ _ _) as [[[]|e] l].
Qed.

(** X1. On an update that has a message, whatever the message, the session,
    the retrievers, the reranker and the model do, [handle_message] does not
    raise, the calls that send to the chat taken to return; it first sends
    the placeholder, and it replaces the text of the placeholder exactly
    once.  On an update without a message, which an edited message and a
    channel post are, it raises before it has sent anything. *)
Theorem placeholder_replaced_once (E : env) (message : option (option string))
    (ud : gmap string (option string)) :
  match message with
  | Some text =>
      (handle_message_on E message ud).1 = Ok ()
      ∧ (∃ rest, events (handle_message_on E message ud)
                 = ReplyText loading_text None :: rest)
      ∧ length (loading_edits (events (handle_message_on E message ud))) = 1
  | None => ∃ e, handle_message_on E message ud = (Raise e, [])
  end.
Proof.
  destruct message as [text|]; [|by eexists]. cbn [handle_message_on].
  rewrite handle_message_unfold.
  destruct (handle_message_try_cases E (or_empty text) ud)
    as (lr & [_ [Hlr _]]%only_retrieve_observed
        & [[c ->]|[[e ->]|[->|[(p & e & _ & ->)|(p & resp & rest & _ & ->)]]]]);
    (split_and!; [done|by eexists|]); unfold events; cbn [snd];
    change (loading_edits (?x :: ?l)) with (loading_edits l);
    unfold loading_edits in *; rewrite ?omap_app, ?Hlr; done.
Qed.

(** X2. A message leads to at most one call of the model, never to a second
    try (the calls that send to the chat taken to return).  Either the model
    is not called and no keyboard is offered; or its call raises, the text of the placeholder is the error text with the
    detail of the exception, and no keyboard is offered; or its call returns,
    the text of the placeholder starts with the stripped answer, and the
    rating keyboard for the message as it was typed and the continue
    keyboard are offered, in this order. *)
Theorem one_model_call_per_message (E : env) (text : option string)
    (ud : gmap string (option string)) :
  (completions (events (handle_message E text ud)) = []
   ∧ markups (events (handle_message E text ud)) = [])
  ∨ (∃ p e, llm_acomplete E p = Raise e
       ∧ completions (events (handle_message E text ud)) = [p]
       ∧ loading_edits (events (handle_message E text ud)) = [error_text e]
       ∧ markups (events (handle_message E text ud)) = [])
  ∨ (∃ p resp rest, llm_acomplete E p = Ok resp
       ∧ completions (events (handle_message E text ud)) = [p]
       ∧ loading_edits (events (handle_message E text ud))
         = ["🧠 " +:+ shown_answer resp +:+ rest]
       ∧ markups (events (handle_message E text ud))
         = [keyboard_fb (or_empty text); keyboard_next]).
Proof.
  rewrite handle_message_unfold.
  destruct (handle_message_try_cases E (or_empty text) ud)
    as (lr & (Hc & Hl & Hm)%only_retrieve_observed
        & [[c ->]|[[e ->]|[->|[(p & e & Hllm & ->)|(p & resp & rest & Hllm & ->)]]]]);
    unfold events; cbn [snd];
    change (completions (?x :: ?l)) with (completions l);
    change (loading_edits (?x :: ?l)) with (loading_edits l);
    change (markups (?x :: ?l)) with (markups l);
    unfold completions, loading_edits, markups in *;
    rewrite ?omap_app, ?Hc, ?Hl, ?Hm.
  - by left.
  - by left.
  - by left.
  - right. left. by eexists p, e.
  - right. right. by eexists p, resp, rest.
Qed.
End OutcomeFacts.

(** ** Searching every category *)

Section SearchAll.
Import Py Main Observe Outcome.

Lemma retrieve_all_returns rs q : ∀ acc nss,
  Forall2 (λ cr ns, cr.2 q = Ok ns) rs nss →
  retrieve_all rs q acc = (Ok (acc ++ concat nss), retrieve_events rs q).
Proof.
  induction rs as [|[c r] rs IH]; intros acc nss Hall.
  - apply Forall2_nil_inv_l in Hall as ->. simpl. by rewrite app_nil_r.
  - apply Forall2_cons_inv_l in Hall as (ns & nss' & Hr & Hall & ->).
    cbn [retrieve_all]. cbn [snd] in Hr. rewrite Hr. unfold call.
    rewrite bind_pair, (IH _ _ Hall). cbn [fst snd concat].
    by rewrite (assoc_L (++)).
Qed.

Lemma retrieve_all_raises rs1 c r rs2 q e : ∀ acc nss,
  Forall2 (λ cr ns, cr.2 q = Ok ns) rs1 nss →
  r q = Raise e →
  retrieve_all (rs1 ++ (c, r) :: rs2) q acc
  = (Raise e, retrieve_events (rs1 ++ [(c, r)]) q).
Proof.
  induction rs1 as [|[c1 r1] rs1 IH]; intros acc nss Hall Hr.
  - cbn [app retrieve_all]. by rewrite Hr.
  - apply Forall2_cons_inv_l in Hall as (ns & nss' & Hr1 & Hall & ->).
    cbn [app retrieve_all]. cbn [snd] in Hr1. rewrite Hr1. unfold call.
    by rewrite bind_pair, (IH _ _ Hall Hr).
Qed.

(** X3. When no category is resolved and every loaded retriever returns, the
    retrieved chunks are those of the retrievers one after the other, in the
    order in which the retrievers were loaded, none dropped, merged or
    reordered; each retriever was called once with the query. *)
Theorem search_all_concatenates (E : env) (cat : option string) (q : string)
    (nss : list (list retrieved)) :
  truthy_cat cat = None →
  Forall2 (λ cr ns, cr.2 q = Ok ns) (retrievers E) nss →
  retrieve_nodes E cat q = (Ok (concat nss), retrieve_events (retrievers E) q).
Proof.
  intros Hcat Hall. unfold retrieve_nodes. rewrite Hcat.
  by rewrite (retrieve_all_returns _ _ [] nss Hall).
Qed.

Lemma search_all_concatenates_witness :
  retrieve_nodes Sample.bot None "siapa raja?"
  = (Ok [ Sample.chunk "Kota tua di utara." "kota.md";
          Sample.chunk "Penjaga gerbang." "penjaga.md" ],
     [Retrieve "maps" "siapa raja?"; Retrieve "npc" "siapa raja?"]).
Proof.
  apply (search_all_concatenates Sample.bot None "siapa raja?"
           [ [Sample.chunk "Kota tua di utara." "kota.md"];
             [Sample.chunk "Penjaga gerbang." "penjaga.md"] ]); [reflexivity|].
  repeat constructor.
Defined.

(** X4. When no category is resolved and a retriever raises, the retrievers
    loaded after it are not called, the model is not called, the chunks that
    the retrievers before it returned are not used, and the text of the
    placeholder is the error text with the detail of the exception. *)
Theorem retriever_failure_stops_search (E : env) (text : string)
    (ud : gmap string (option string)) (rs1 rs2 : list (string * retriever))
    (c : string) (r : retriever) (nss : list (list retrieved)) (e : string) :
  contains colon text = false →
  truthy_cat (selected_cat ud) = None →
  retrievers E = rs1 ++ (c, r) :: rs2 →
  Forall2 (λ cr ns, cr.2 (strip text) = Ok ns) rs1 nss →
  r (strip text) = Raise e →
  events (handle_message E (Some text) ud)
  = ReplyText loading_text None ::
    retrieve_events (rs1 ++ [(c, r)]) (strip text) ++ [EditLoading (error_text e)].
Proof.
  intros Hcolon Hsel Hrs Hall Hr.
  rewrite handle_message_unfold, or_empty_Some. unfold handle_message_try.
  rewrite (detect_no_colon _ Hcolon). unfold lift. rewrite bind_pair. cbn beta iota.
  assert (truthy_opt (selected_cat ud) = false) as Hfalsy.
  { unfold truthy_cat in Hsel. destruct (selected_cat ud) as [s|]; [|done].
    by destruct (truthy_opt (Some s)). }
  rewrite Hfalsy. cbn [andb app].
  unfold retrieve_nodes. rewrite Hsel, Hrs.
  rewrite (retrieve_all_raises _ _ _ _ _ _ [] nss Hall Hr).
  by rewrite bind_pair.
Qed.

Lemma retriever_failure_stops_search_witness :
  events (handle_message Sample.flaky_bot (Some "siapa raja?") ∅)
  = [ ReplyText loading_text None;
      Retrieve "maps" "siapa raja?"; Retrieve "npc" "siapa raja?";
      EditLoading "❌ Error saat memproses: index npc rusak" ].
Proof.
  refine (retriever_failure_stops_search Sample.flaky_bot "siapa raja?" ∅
            [("maps", λ _, Ok [Sample.chunk "Kota tua di utara." "kota.md"])]
            [("timeline", λ _, Ok [Sample.chunk "Tahun pertama." "awal.md"])]
            "npc" (λ _, Raise "index npc rusak")
            [[Sample.chunk "Kota tua di utara." "kota.md"]] "index npc rusak"
            eq_refl eq_refl eq_refl _ eq_refl).
  repeat constructor.
Defined.
End SearchAll.

(** ** What reaches the prompt and the source note *)

Section ContextWindow.
Import Py Main Observe Outcome Sources.

Lemma node_texts_app a b :
  node_texts (a ++ b)
  = match node_texts a with
    | Ok ta => match node_texts b with
               | Ok tb => Ok (ta ++ tb)
               | Raise e => Raise e
               end
    | Raise e => Raise e
    end.
Proof.
  induction a as [|n a IH]; cbn [app node_texts].
  - by destruct (node_texts b).
  - destruct (node_text n); [|done]. rewrite IH.
    destruct (node_texts a); [|done]. by destruct (node_texts b).
Qed.

Lemma node_texts_length nodes ts : node_texts nodes = Ok ts → length ts = length nodes.
Proof.
  revert ts. induction nodes as [|n nodes IH]; intros ts; cbn [node_texts].
  - by intros [= <-].
  - destruct (node_text n); [|done]. destruct (node_texts nodes); [|done].
    intros [= <-]. cbn [length]. by rewrite (IH _ eq_refl).
Qed.

(** X5. The model is given the texts of the first twelve chunks only: when
    twelve chunks or more come first, the chunks after them, provided each
    has a [node], change neither whether the model is called nor the prompt
    it is called with. *)
Theorem context_is_first_twelve_chunks (E : env) (q_raw q : string)
    (cat : option string) (first rest : list retrieved) (ts : list string) :
  max_context_chunks ≤ length first →
  node_texts rest = Ok ts →
  completions (events (compose_answer E q_raw cat q (first ++ rest)))
  = completions (events (compose_answer E q_raw cat q first)).
Proof.
  intros Hlen Hrest. unfold compose_answer. rewrite node_texts_app, Hrest.
  destruct (node_texts first) as [tf|e] eqn:Hfirst; [|done].
  apply node_texts_length in Hfirst.
  cbn [lift mbind M_bind]. rewrite take_app_le by lia.
  destruct (negb (truthy (strip _))); [done|].
  by destruct (llm_acomplete E _).
Qed.

Lemma context_is_first_twelve_chunks_witness :
  completions (events (compose_answer Sample.bot "siapa raja?" None "siapa raja?"
                         (replicate 12 (Sample.chunk "Raja tua." "raja.md")
                          ++ [Sample.chunk "Ratu muda." "ratu.md"])))
  = completions (events (compose_answer Sample.bot "siapa raja?" None "siapa raja?"
                           (replicate 12 (Sample.chunk "Raja tua." "raja.md")))).
Proof.
  apply (context_is_first_twelve_chunks Sample.bot "siapa raja?" "siapa raja?" None
           (replicate 12 (Sample.chunk "Raja tua." "raja.md"))
           [Sample.chunk "Ratu muda." "ratu.md"] ["Ratu muda."]).
  - simpl. unfold max_context_chunks. lia.
  - reflexivity.
Defined.

Lemma first_seen_app a : ∀ seen b,
  first_seen seen (a ++ b)
  = first_seen seen a ++ first_seen (seen ++ first_seen seen a) b.
Proof.
  induction a as [|x a IH]; intros seen b; cbn [app first_seen].
  - by rewrite app_nil_r.
  - case_bool_decide; [apply IH|].
    rewrite IH. cbn [app]. by rewrite <- (assoc_L (++)).
Qed.

(** X6. Once the chunks read so far have given [max_files] distinct file
    names ([max_files] at least 1), the loop of [collect_sources] stops: the
    chunks that follow, whatever they are, do not change the source note. *)
Theorem source_note_stops_at_limit (nodes more : list retrieved) (max_files : nat) :
  1 ≤ max_files →
  max_files ≤ length (distinct_files nodes) →
  collect_sources (nodes ++ more) max_files = collect_sources nodes max_files.
Proof.
  intros Hpos Hfull. unfold collect_sources.
  rewrite !collect_files_spec by (simpl; lia). cbn [app].
  rewrite omap_app, first_seen_app. fold (distinct_files nodes).
  by rewrite take_app_le.
Qed.

Lemma source_note_stops_at_limit_witness :
  collect_sources
    ([Sample.chunk "a" "raja.md"; Sample.chunk "b" "ratu.md"]
     ++ [Sample.chunk "c" "kota.md"; Other "str"]) 2
  = collect_sources [Sample.chunk "a" "raja.md"; Sample.chunk "b" "ratu.md"] 2.
Proof.
  apply (source_note_stops_at_limit
           [Sample.chunk "a" "raja.md"; Sample.chunk "b" "ratu.md"]
           [Sample.chunk "c" "kota.md"; Other "str"] 2).
  - lia.
  - vm_compute. lia.
Defined.
End ContextWindow.

(** ** The result of detect_category_and_query *)

Section DetectShape.
Import Py Main Observe.

Lemma strip_idem s : strip (strip s) = strip s.
Proof. unfold strip at 2. by rewrite strip_rstrip, strip_lstrip. Qed.

Lemma detect_of_stripped text :
  detect_category_and_query (Some (strip (or_empty text)))
  = detect_category_and_query text.
Proof.
  unfold detect_category_and_query. by rewrite or_empty_Some, strip_idem.
Qed.

(** X7. [detect_category_and_query] returns on every text, also on none: its
    unpacking cannot fail.  The category it gives is none or one of the six
    of [CATEGORIES]; the query has no white space at either end; and when
    it gives no category the query is the whole stripped text, on which it
    gives the same result again. *)
Theorem detect_result_shape (text : option string) :
  ∃ cat q,
    detect_category_and_query text = Ok (cat, q)
    ∧ strip q = q
    ∧ (∀ c, cat = Some c → c ∈ CATEGORIES)
    ∧ (cat = None →
       q = strip (or_empty text) ∧ detect_category_and_query (Some q) = Ok (None, q)).
Proof.
  destruct (detect_returns text) as (cat & q & Hd). exists cat, q.
  split; [done|]. split_and!.
  - revert Hd. unfold detect_category_and_query.
    destruct (contains colon (strip (or_empty text)));
      [|intros [= _ <-]; apply strip_idem].
    destruct (split colon 1 (strip (or_empty text))) as [|a [|b [|]]]; try done.
    destruct (alias_category ALIASES (strip (lower a)));
      intros [= _ <-]; apply strip_idem.
  - intros c ->. by eapply detect_category_known.
  - intros ->.
    assert (q = strip (or_empty text)) as Hq.
    { revert Hd. unfold detect_category_and_query.
      destruct (contains colon (strip (or_empty text))); [|by intros [= <-]].
      destruct (split colon 1 (strip (or_empty text))) as [|a [|b [|]]]; try done.
      destruct (alias_category ALIASES (strip (lower a))); [done|by intros [= <-]]. }
    split; [done|]. by rewrite Hq, detect_of_stripped, Hd, Hq.
Qed.
End DetectShape.

(** ** Keyboards, their callbacks and the session *)

Section KeyboardFacts.
Import Py Main Observe Chat.

(** X8. Every button of the category keyboard carries a payload that the
    application routes to [pick_category_callback] and that unpacks to the
    word [all] or to one of the six categories, so that the unknown-choice
    text is never the answer to a button; and every category has its
    button. *)
Theorem category_keyboard_is_handled (label payload : string) (u : user)
    (E : env) (now : Datetime.datetime) (w : world) :
  (label, payload) ∈ concat category_keyboard →
  (∃ cat, payload = "CAT|" +:+ cat
          ∧ (cat = "all" ∨ cat ∈ CATEGORIES)
          ∧ unpack2 (split_data bar 1 (Some payload)) = Ok ("CAT", cat))
  ∧ dispatch_update E now (CallbackQuery {| data := Some payload; from_user := u |}) w
    = pick_category_callback E {| data := Some payload; from_user := u |} w
  ∧ (∀ c, c ∈ CATEGORIES → ∃ l, (l, "CAT|" +:+ c) ∈ concat category_keyboard).
Proof.
  intros Hin. split_and!.
  - unfold category_keyboard in Hin. cbn [concat app] in Hin.
    repeat (apply elem_of_cons in Hin as [Hin|Hin];
            [ injection Hin as -> ->; eexists; split; [reflexivity|];
              split; [|reflexivity];
              first [ by left | right; unfold CATEGORIES; set_solver ] | ]).
    by apply elem_of_nil in Hin.
  - unfold category_keyboard in Hin. cbn [concat app] in Hin.
    repeat (apply elem_of_cons in Hin as [Hin|Hin];
            [ injection Hin as -> ->; reflexivity | ]).
    by apply elem_of_nil in Hin.
  - intros c Hc. unfold CATEGORIES in Hc. unfold category_keyboard.
    cbn [concat app].
    repeat (apply elem_of_cons in Hc as [->|Hc];
            [eexists; repeat first [left | right]|]).
    by apply elem_of_nil in Hc.
Qed.

Lemma category_keyboard_is_handled_witness :
  (∃ cat, "CAT|maps" = "CAT|" +:+ cat
          ∧ (cat = "all" ∨ cat ∈ CATEGORIES)
          ∧ unpack2 (split_data bar 1 (Some "CAT|maps")) = Ok ("CAT", cat))
  ∧ dispatch_update Sample.bot Sample.noon
      (CallbackQuery {| data := Some "CAT|maps";
                        from_user := {| id := 7; username := None |} |}) fresh
    = pick_category_callback Sample.bot
        {| data := Some "CAT|maps"; from_user := {| id := 7; username := None |} |}
        fresh
  ∧ (∀ c, c ∈ CATEGORIES → ∃ l, (l, "CAT|" +:+ c) ∈ concat category_keyboard).
Proof.
  apply (category_keyboard_is_handled "Maps" "CAT|maps"
           {| id := 7; username := None |} Sample.bot Sample.noon fresh).
  unfold category_keyboard. cbn [concat app]. do 3 right. left.
Defined.

(** A payload that starts with a tag and the bar has that tag. *)
Lemma has_tag_cat (c : string) (u : user) :
  has_tag "CAT" {| data := Some ("CAT|" +:+ c); from_user := u |} = true.
Proof. unfold has_tag. cbn [data]. by destruct c. Qed.

(** X9. After a pick of a loaded category on the keyboard, that category is
    the one selected in the session, the feedback log is as it was, and a
    message without a colon is searched in that category only, with the
    stripped text as the query. *)
Theorem picked_category_is_searched (E : env) (now : Datetime.datetime)
    (w : world) (u : user) (c text : string) :
  indexed E c = true →
  c ≠ "" →
  c ≠ "all" →
  contains colon text = false →
  selected_cat
    (user_data (dispatch_update E now
                  (CallbackQuery {| data := Some ("CAT|" +:+ c); from_user := u |}) w))
    = Some c
  ∧ feedback_log (dispatch_update E now
                    (CallbackQuery {| data := Some ("CAT|" +:+ c); from_user := u |}) w)
    = feedback_log w
  ∧ retrievals
      (events (handle_message E (Some text)
                 (user_data (dispatch_update E now
                    (CallbackQuery {| data := Some ("CAT|" +:+ c); from_user := u |})
                    w))))
    = [(c, strip text)].
Proof.
  intros Hidx Hne Hall Hcolon.
  assert (dispatch_update E now
            (CallbackQuery {| data := Some ("CAT|" +:+ c); from_user := u |}) w
          = send (EditQueryMessage
                    ("Mode: 🗂 " +:+ capitalize c +:+ nl +:+ "Silakan ketik pertanyaanmu…")
                    None)
                 (with_user_data (insert "selected_cat" (Some c)) (send AnswerQuery w)))
    as ->.
  { cbn [dispatch_update]. rewrite has_tag_cat.
    unfold pick_category_callback. cbn [data].
    change (split_data bar 1 (Some ("CAT|" +:+ c))) with (Ok ["CAT"; c]).
    cbn [unpack2]. rewrite bool_decide_eq_false_2 by done. by rewrite Hidx. }
  cbn [send with_user_data user_data feedback_log].
  rewrite selected_cat_insert. split_and!; [done..|].
  rewrite (handle_message_retrievals _ _ _ _ _ (detect_no_colon _ Hcolon)).
  rewrite selected_cat_insert. unfold dispatch, truthy_cat. cbn [truthy_opt].
  destruct c; [done|]. cbn [truthy]. by rewrite Hidx.
Qed.

Lemma picked_category_is_searched_witness :
  selected_cat
    (user_data (dispatch_update Sample.bot Sample.noon
                  (CallbackQuery {| data := Some "CAT|npc";
                                    from_user := {| id := 7; username := None |} |})
                  fresh))
    = Some "npc"
  ∧ feedback_log (dispatch_update Sample.bot Sample.noon
                    (CallbackQuery {| data := Some "CAT|npc";
                                      from_user := {| id := 7; username := None |} |})
                    fresh)
    = []
  ∧ retrievals
      (events (handle_message Sample.bot (Some " siapa penjaga? ")
                 (user_data (dispatch_update Sample.bot Sample.noon
                    (CallbackQuery {| data := Some "CAT|npc";
                                      from_user := {| id := 7; username := None |} |})
                    fresh))))
    = [("npc", "siapa penjaga?")].
Proof.
  exact (picked_category_is_searched Sample.bot Sample.noon fresh
           {| id := 7; username := None |} "npc" " siapa penjaga? "
           eq_refl ltac:(discriminate) ltac:(discriminate) eq_refl).
Defined.

(** X10. After [/start], after [/reset] and after a pick of the button for
    all categories, no category is selected, whatever was selected before,
    and a message without a colon is searched in every loaded category. *)
Theorem cleared_selection_searches_all (E : env) (now : Datetime.datetime)
    (w : world) (u : user) (upd : update) (text : string) :
  upd = StartCommand ∨ upd = ResetCommand
    ∨ upd = CallbackQuery {| data := Some "CAT|all"; from_user := u |} →
  contains colon text = false →
  selected_cat (user_data (dispatch_update E now upd w)) = None
  ∧ retrievals (events (handle_message E (Some text)
                          (user_data (dispatch_update E now upd w))))
    = (λ c, (c, strip text)) <$> reached (retrievers E) (strip text).
Proof.
  intros Hupd Hcolon.
  assert (selected_cat (user_data (dispatch_update E now upd w)) = None) as Hsel.
  { destruct Hupd as [-> | [-> | ->] ]; cbn [dispatch_update].
    - unfold start_cmd. cbn [send with_user_data user_data].
      apply selected_cat_delete.
    - unfold reset_cmd. cbn [send with_user_data user_data].
      apply selected_cat_delete.
    - change (has_tag "CAT" {| data := Some "CAT|all"; from_user := u |}) with true.
      cbv iota. unfold pick_category_callback. cbn [data].
      change (split_data bar 1 (Some "CAT|all")) with (Ok ["CAT"; "all"]).
      cbn [unpack2]. rewrite bool_decide_eq_true_2 by done.
      cbn [send with_user_data user_data]. apply selected_cat_insert. }
  split; [done|].
  rewrite (handle_message_retrievals _ _ _ _ _ (detect_no_colon _ Hcolon)).
  by rewrite Hsel.
Qed.

Lemma cleared_selection_searches_all_witness :
  selected_cat
    (user_data (dispatch_update Sample.bot Sample.noon ResetCommand
                  {| user_data := {[ "selected_cat" := Some "npc" ]};
                     feedback_log := []; outbox := [] |}))
    = None
  ∧ retrievals
      (events (handle_message Sample.bot (Some "siapa raja?")
                 (user_data (dispatch_update Sample.bot Sample.noon ResetCommand
                    {| user_data := {[ "selected_cat" := Some "npc" ]};
                       feedback_log := []; outbox := [] |}))))
    = [("maps", "siapa raja?"); ("npc", "siapa raja?")].
Proof.
  exact (cleared_selection_searches_all Sample.bot Sample.noon
           {| user_data := {[ "selected_cat" := Some "npc" ]};
              feedback_log := []; outbox := [] |}
           {| id := 7; username := None |} ResetCommand "siapa raja?"
           (or_intror (or_introl eq_refl)) eq_refl).
Defined.

(** X11. Only [/start], [/reset] and a callback of the category keyboard
    change the session: a text message and a callback with any other payload,
    the button to ask again among them, leave the selected category as it
    is. *)
Theorem other_updates_keep_selection (E : env) (now : Datetime.datetime)
    (w : world) (upd : update) :
  (∀ q, upd = CallbackQuery q → has_tag "CAT" q = false) →
  upd ≠ StartCommand →
  upd ≠ ResetCommand →
  user_data (dispatch_update E now upd w) = user_data w.
Proof.
  intros Hq Hstart Hreset. destruct upd as [| |text| |q]; [done..| |].
  - reflexivity.
  - cbn [dispatch_update]. rewrite (Hq q eq_refl).
    destruct (has_tag "NEXT" q); [apply next_step_user_data|].
    destruct (has_tag "fb" q); [apply feedback_user_data|done].
Qed.

Lemma other_updates_keep_selection_witness :
  let w := {| user_data := {[ "selected_cat" := Some "npc" ]};
              feedback_log := []; outbox := [] |} in
  user_data (dispatch_update Sample.bot Sample.noon
               (CallbackQuery {| data := Some "NEXT|again";
                                 from_user := {| id := 7; username := None |} |}) w)
  = user_data w.
Proof.
  intros w.
  apply (other_updates_keep_selection Sample.bot Sample.noon w
           (CallbackQuery {| data := Some "NEXT|again";
                             from_user := {| id := 7; username := None |} |})).
  - intros q Hq. injection Hq as <-. reflexivity.
  - discriminate.
  - discriminate.
Defined.

(** X12. Each of the five rating buttons that follow an answer to the
    message [q_raw] is routed to [feedback_callback], which appends one row
    whose score is the label of the button, one of 1 to 5, and whose question
    is [q_raw] as it was typed, alias prefix and bars included. *)
Theorem rating_button_records_question (E : env) (now : Datetime.datetime)
    (w : world) (u : user) (q_raw label payload : string) :
  (label, payload) ∈ concat (keyboard_fb q_raw) →
  label ∈ ["1"; "2"; "3"; "4"; "5"]
  ∧ feedback_log
      (dispatch_update E now
         (CallbackQuery {| data := Some payload; from_user := u |}) w)
    = feedback_log w ++
      match feedback_log w with
      | [] => [CStr <$> fieldnames]
      | _ :: _ => []
      end ++
      [[CInt (id u); CStr (or_empty (username u)); CStr label; CStr q_raw;
        CStr (Datetime.isoformat now)]].
Proof.
  unfold keyboard_fb. cbn [concat app]. rewrite !elem_of_cons, elem_of_nil.
  intros [H|[H|[H|[H|[H|[]]]]]]; injection H as -> ->;
    (split; [set_solver|]); reflexivity.
Qed.

Lemma rating_button_records_question_witness :
  "4" ∈ ["1"; "2"; "3"; "4"; "5"]
  ∧ feedback_log
      (dispatch_update Sample.bot Sample.noon
         (CallbackQuery {| data := Some "fb|4|maps: a|b";
                           from_user := {| id := 7; username := None |} |}) fresh)
    = [ CStr <$> fieldnames;
        [CInt 7; CStr ""; CStr "4"; CStr "maps: a|b";
         CStr "2025-03-09T12:00:07.001500"] ].
Proof.
  apply (rating_button_records_question Sample.bot Sample.noon fresh
           {| id := 7; username := None |} "maps: a|b" "4" "fb|4|maps: a|b").
  unfold keyboard_fb. cbn [concat app]. do 3 right. left.
Defined.
End KeyboardFacts.

(** ** The feedback log over a chat *)

Section LogFacts.
Import Py Main Chat Payload Log.

Lemma fb_tag_excludes (q : callback_query) :
  has_tag "fb" q = true → has_tag "CAT" q = false ∧ has_tag "NEXT" q = false.
Proof.
  unfold has_tag. destruct (data q) as [[|a d]|]; [done| |done].
  change ("fb" +:+ "|") with "fb|". change ("CAT" +:+ "|") with "CAT|".
  change ("NEXT" +:+ "|") with "NEXT|". cbn [String.prefix].
  destruct (ascii_dec "f" a) as [<-|]; [|done]. intros _. by split.
Qed.

Lemma unpack3_two_bars (d : string) :
  2 ≤ count_char bar d →
  ∃ tag score question, unpack3 (split_data bar 2 (Some d)) = Ok (tag, score, question).
Proof.
  intros Hc. unfold split_data. pose proof (split_length bar 2 d) as Hlen.
  destruct (split bar 2 d) as [|a [|b [|c [|x l]]]]; cbn [length] in Hlen;
    [lia..| |lia].
  by exists a, b, c.
Qed.

(** What an update does to the feedback log: a rating appends its row, after
    the header when the log is empty; any other update leaves the log as it
    is. *)
Lemma dispatch_feedback_log E now u w :
  feedback_log (dispatch_update E now u w)
  = if is_rating u then
      match u with
      | CallbackQuery q =>
          match unpack3 (split_data bar 2 (data q)) with
          | Ok (_, score, question) =>
              feedback_log w ++
              match feedback_log w with
              | [] => [CStr <$> fieldnames]
              | _ :: _ => []
              end ++ [feedback_row (from_user q) score question now]
          | Raise _ => feedback_log w
          end
      | _ => feedback_log w
      end
    else feedback_log w.
Proof.
  destruct u as [| |text| |q]; cbn [dispatch_update is_rating]; [done..|].
  destruct (has_tag "fb" q) eqn:Hfb; cbn [andb].
  - destruct (fb_tag_excludes q Hfb) as [-> ->].
    unfold feedback_callback.
    destruct (data q) as [d|] eqn:Hd; [|done].
    case_bool_decide as Hc.
    + destruct (unpack3_two_bars d Hc) as (tag & score & question & ->). done.
    + destruct (unpack3_malformed (Some d)) as [e ->]; [|done].
      unfold malformed. lia.
  - destruct (has_tag "CAT" q); [apply pick_category_feedback_log|].
    destruct (has_tag "NEXT" q); [apply next_step_feedback_log|done].
Qed.

Lemma dispatch_well_formed E now u w :
  well_formed (feedback_log w) = true →
  well_formed (feedback_log (dispatch_update E now u w)) = true.
Proof.
  intros Hw. rewrite dispatch_feedback_log.
  destruct (is_rating u); [|done]. destruct u as [| |text| |q]; [done..|].
  destruct (unpack3 _) as [[[tag score] question]|e]; [|done].
  destruct (feedback_log w) as [|h rows]; [done|].
  cbn [app well_formed] in *. apply andb_true_iff in Hw as [-> Hrows].
  cbn [andb]. by rewrite forallb_app, Hrows.
Qed.

Lemma dispatch_log_length E now u w :
  length (feedback_log (dispatch_update E now u w))
  = length (feedback_log w)
    + (if is_rating u then
         match feedback_log w with [] => 2 | _ :: _ => 1 end
       else 0).
Proof.
  rewrite dispatch_feedback_log. destruct (is_rating u) eqn:Hr; [|lia].
  destruct u as [| |text| |q]; [done..|]. cbn [is_rating] in Hr.
  apply andb_true_iff in Hr as [Hfb Hc].
  destruct (data q) as [d|] eqn:Hd; [|done]. apply bool_decide_eq_true in Hc.
  destruct (unpack3_two_bars d Hc) as (tag & score & question & ->).
  destruct (feedback_log w); rewrite !length_app; cbn [length]; lia.
Qed.

(** X13. A well-formed feedback log stays well formed over a chat, whatever
    the updates: it is empty, or it is the header line followed by rows of a
    user id and four texts; the header is never written a second time. *)
Theorem feedback_log_stays_well_formed (E : env)
    (us : list (Datetime.datetime * update)) (w : world) :
  well_formed (feedback_log w) = true →
  well_formed (feedback_log (run E us w)) = true.
Proof.
  revert w. induction us as [|[now u] us IH]; intros w Hw; [done|].
  cbn [run]. by apply IH, dispatch_well_formed.
Qed.

Lemma feedback_log_stays_well_formed_witness :
  well_formed
    (feedback_log
       (run Sample.bot
          [ (Sample.noon, StartCommand);
            (Sample.noon, CallbackQuery {| data := Some "fb|4|a";
                                           from_user := {| id := 7; username := None |} |});
            (Sample.noon, CallbackQuery {| data := Some "fb|1|b|c";
                                           from_user := {| id := 8; username := Some "x" |} |}) ]
          fresh)) = true.
Proof.
  exact (feedback_log_stays_well_formed Sample.bot _ fresh eq_refl).
Defined.

(** X14. The feedback log holds one row for each rating of the chat and
    nothing else: after a chat that began with an empty log, it is empty
    when there was no rating and has the header and one row a rating
    otherwise; commands, messages, the other callbacks and the callbacks
    with a payload of fewer than two bars write nothing. *)
Theorem one_row_per_rating (E : env) (us : list (Datetime.datetime * update)) :
  length (feedback_log (run E us fresh))
  = match ratings us with 0 => 0 | S n => S (S n) end.
Proof.
  assert (∀ w, length (feedback_log (run E us w))
               = length (feedback_log w) + ratings us
                 + match feedback_log w, ratings us with
                   | [], S _ => 1
                   | _, _ => 0
                   end) as Hrun.
  { induction us as [|[now u] us IH]; intros w.
    - cbn [run ratings List.filter length]. destruct (feedback_log w); lia.
    - cbn [run]. rewrite IH, dispatch_log_length. unfold ratings.
      cbn [List.filter snd]. rewrite dispatch_feedback_log.
      destruct (is_rating u) eqn:Hr; cbn [length].
      + destruct u as [| |text| |q]; [done..|]. cbn [is_rating] in Hr.
        apply andb_true_iff in Hr as [Hfb Hc].
        destruct (data q) as [d|] eqn:Hd; [|done].
        apply bool_decide_eq_true in Hc.
        destruct (unpack3_two_bars d Hc) as (tag & score & question & ->).
        destruct (feedback_log w); cbn [app];
          destruct (length (List.filter _ us)); lia.
      + destruct (feedback_log w); destruct (length (List.filter _ us)); lia. }
  rewrite Hrun. cbn [fresh feedback_log length]. destruct (ratings us); lia.
Qed.
End LogFacts.

(** ** The second keyboard, and the session over a chat *)

Section ChatFacts.
Import Py Main Observe Chat.

(** X15. Both buttons under an answer are routed to [next_step_callback]:
    the one to ask again puts the category keyboard on the message, the one
    to finish puts the tips there; neither changes the session or the
    feedback log, so that the category in use stays selected until a button
    of the new keyboard is picked. *)
Theorem next_keyboard_is_handled (label payload : string) (u : user)
    (E : env) (now : Datetime.datetime) (w : world) :
  (label, payload) ∈ concat keyboard_next →
  dispatch_update E now (CallbackQuery {| data := Some payload; from_user := u |}) w
  = {| user_data := user_data w; feedback_log := feedback_log w;
       outbox := outbox w ++
                 [ AnswerQuery;
                   if bool_decide (payload = "NEXT|again")
                   then EditQueryMessage "Pilih kategori baru:" (Some category_keyboard)
                   else EditQueryMessage tips_text None ] |}.
Proof.
  unfold keyboard_next. cbn [concat app]. rewrite !elem_of_cons, elem_of_nil.
  intros [H|[H|[]]]; injection H as -> ->;
    cbn [dispatch_update];
    change (has_tag "CAT" _) with false; change (has_tag "NEXT" _) with true;
    cbv iota; unfold next_step_callback, send; cbn [data outbox user_data feedback_log].
  - change (split_data bar 1 (Some "NEXT|again")) with (Ok ["NEXT"; "again"]).
    cbn [unpack2]. rewrite !bool_decide_eq_true_2 by done.
    by rewrite <- (assoc_L (++) (outbox w)).
  - change (split_data bar 1 (Some "NEXT|done")) with (Ok ["NEXT"; "done"]).
    cbn [unpack2]. rewrite !bool_decide_eq_false_2 by done.
    by rewrite <- (assoc_L (++) (outbox w)).
Qed.

Lemma next_keyboard_is_handled_witness :
  dispatch_update Sample.bot Sample.noon
    (CallbackQuery {| data := Some "NEXT|done";
                      from_user := {| id := 7; username := None |} |}) fresh
  = {| user_data := user_data fresh; feedback_log := feedback_log fresh;
       outbox := outbox fresh ++
                 [ AnswerQuery;
                   if bool_decide ("NEXT|done" = "NEXT|again")
                   then EditQueryMessage "Pilih kategori baru:" (Some category_keyboard)
                   else EditQueryMessage tips_text None ] |}.
Proof.
  apply (next_keyboard_is_handled "Selesai ✅" "NEXT|done"
           {| id := 7; username := None |} Sample.bot Sample.noon fresh).
  unfold keyboard_next. cbn [concat app]. right. left.
Defined.

(** X16. In a chat that starts with an empty session, whatever the updates
    were, a message without a colon is searched: in the selected category
    when there is one, in every loaded category otherwise.  The category of
    the session is always a loaded one, so the search is never refused for
    a session category that is not indexed. *)
Theorem session_category_is_searched (E : env)
    (us : list (Datetime.datetime * update)) (text : string) :
  contains colon text = false →
  retrievals (events (handle_message E (Some text) (user_data (run E us fresh))))
  = match truthy_cat (selected_cat (user_data (run E us fresh))) with
    | Some c => [(c, strip text)]
    | None => (λ c, (c, strip text)) <$> reached (retrievers E) (strip text)
    end.
Proof.
  intros Hcolon.
  rewrite (handle_message_retrievals _ _ _ _ _ (detect_no_colon _ Hcolon)).
  unfold dispatch.
  assert (session_ok E (user_data (run E us fresh))) as Hok.
  { assert (∀ w, session_ok E (user_data w) → session_ok E (user_data (run E us w)))
      as Hrun.
    { induction us as [|[now u] us IH]; intros w Hw; [done|].
      cbn [run]. by apply IH, dispatch_session_ok. }
    apply Hrun. intros c. unfold fresh, selected_cat. cbn [user_data].
    by rewrite lookup_empty. }
  destruct (selected_cat (user_data (run E us fresh))) as [c|] eqn:Hsel; [|done].
  unfold truthy_cat. destruct (truthy_opt (Some c)); [|done].
  by rewrite (Hok c Hsel).
Qed.

Lemma session_category_is_searched_witness :
  retrievals
    (events (handle_message Sample.bot (Some "siapa penjaga?")
               (user_data
                  (run Sample.bot
                     [ (Sample.noon, StartCommand);
                       (Sample.noon,
                        CallbackQuery {| data := Some "CAT|items";
                                         from_user := {| id := 7; username := None |} |});
                       (Sample.noon,
                        CallbackQuery {| data := Some "CAT|npc";
                                         from_user := {| id := 7; username := None |} |}) ]
                     fresh))))
  = [("npc", "siapa penjaga?")].
Proof.
  exact (session_category_is_searched Sample.bot
           [ (Sample.noon, StartCommand);
             (Sample.noon,
              CallbackQuery {| data := Some "CAT|items";
                               from_user := {| id := 7; username := None |} |});
             (Sample.noon,
              CallbackQuery {| data := Some "CAT|npc";
                               from_user := {| id := 7; username := None |} |}) ]
           "siapa penjaga?" eq_refl).
Defined.
End ChatFacts.

(** ** Start-up: the retrievers loaded from the disk *)

Section StartupFacts.
Import Py Main Disk Startup Storage.
Context {Index : Type}.
Variable load_index : option Index → res retriever.

Local Abbreviation load_categories := (load_categories load_index).
Local Abbreviation load_retrievers := (load_retrievers load_index).
Local Abbreviation loadable := (loadable load_index).
Local Abbreviation retriever_of := (retriever_of load_index).

Lemma setitem_fresh {V} (d : list (string * V)) key v :
  key ∉ d.*1 → setitem d key v = d ++ [(key, v)].
Proof.
  induction d as [|[k v'] d IH]; [done|]. rewrite fmap_cons, not_elem_of_cons.
  intros [Hne Hd]. cbn [setitem fst app].
  rewrite bool_decide_eq_false_2 by done. by rewrite IH.
Qed.

Lemma categories_NoDup : NoDup CATEGORIES.
Proof. apply (bool_decide_unpack _). by vm_compute. Qed.

(** The names of the six categories are in the order of [sorted], and so is
    any selection of them. *)
Lemma sorted_filter_categories (f : string → bool) :
  BuildIndex.sorted (List.filter f CATEGORIES) = List.filter f CATEGORIES.
Proof.
  unfold CATEGORIES. cbn [List.filter].
  destruct (f "character"), (f "factions"), (f "items"), (f "maps"), (f "npc"),
    (f "timeline"); reflexivity.
Qed.

Lemma retriever_of_keys d cats :
  (∀ c, c ∈ cats → loadable d c) →
  (omap (retriever_of d) cats).*1 = List.filter (present d) cats.
Proof.
  induction cats as [|c cats IH]; intros Hl; [done|].
  cbn [omap list_omap List.filter]. unfold retriever_of at 1, present at 1.
  destruct (dirs d !! path_join PERSIST_ROOT c) as [content|] eqn:Hc.
  - destruct (Hl c) with content as [r Hr]; [left|done|]. rewrite Hr.
    rewrite bool_decide_eq_true_2 by done. cbn [fmap list_fmap fst].
    f_equal. apply IH. intros c' Hc'. apply Hl. by right.
  - rewrite bool_decide_eq_false_2 by (by intros [? ?]).
    apply IH. intros c' Hc'. apply Hl. by right.
Qed.

(** The loop, when every directory it meets loads. *)
Lemma load_categories_ok d cats : ∀ acc out,
  NoDup cats →
  (∀ c, c ∈ cats → c ∉ acc.*1) →
  (∀ c, c ∈ cats → loadable d c) →
  load_categories cats d acc out
  = (Ok (acc ++ omap (retriever_of d) cats), out ++ warnings d cats).
Proof.
  induction cats as [|c cats IH]; intros acc out Hnd Hacc Hl.
  - cbn. by rewrite !app_nil_r.
  - apply NoDup_cons in Hnd as [Hc Hnd].
    cbn [Startup.load_categories omap list_omap]. unfold warnings.
    cbn [List.filter]. unfold retriever_of at 1, present at 1.
    destruct (dirs d !! path_join PERSIST_ROOT c) as [content|] eqn:Hdir.
    + destruct (Hl c) with content as [r Hr]; [left|done|]. rewrite Hr.
      rewrite bool_decide_eq_true_2 by done. cbn [negb].
      rewrite setitem_fresh by (apply Hacc; left).
      rewrite IH; [by rewrite <- (assoc_L (++) acc)|done| |].
      * intros c' Hc'. rewrite fmap_app, elem_of_app. cbn.
        rewrite list_elem_of_singleton. intros [Hin| ->]; [|done].
        revert Hin. apply Hacc. by right.
      * intros c' Hc'. apply Hl. by right.
    + rewrite bool_decide_eq_false_2 by (by intros [? ?]). cbn [negb].
      rewrite IH; [|done| |].
      * by rewrite fmap_cons, <- (assoc_L (++) out).
      * intros c' Hc'. apply Hacc. by right.
      * intros c' Hc'. apply Hl. by right.
Qed.

(** The loop stops at the first directory that does not load. *)
Lemma load_categories_raises d cats c content e : ∀ acc out,
  c ∈ cats →
  dirs d !! path_join PERSIST_ROOT c = Some content →
  load_index content = Raise e →
  ∃ c' content' e' out',
    load_categories cats d acc out = (Raise e', out ++ out')
    ∧ c' ∈ cats
    ∧ dirs d !! path_join PERSIST_ROOT c' = Some content'
    ∧ load_index content' = Raise e'
    ∧ Forall (λ line, ∃ c0, line = missing_index_text c0) out'.
Proof.
  induction cats as [|c1 cats IH]; intros acc out Hin Hdir He.
  { by apply elem_of_nil in Hin. }
  cbn [Startup.load_categories].
  destruct (dirs d !! path_join PERSIST_ROOT c1) as [content1|] eqn:Hdir1.
  - destruct (load_index content1) as [r|e1] eqn:Hload1.
    + apply elem_of_cons in Hin as [->|Hin]; [congruence|].
      destruct (IH (setitem acc c1 r) out Hin Hdir He)
        as (c' & content' & e' & out' & -> & Hc' & ? & ? & ?).
      exists c', content', e', out'. split_and!; [done|by right|done..].
    + exists c1, content1, e1, []. rewrite app_nil_r.
      split_and!; [done|by left|done..].
  - apply elem_of_cons in Hin as [->|Hin]; [congruence|].
    destruct (IH acc (out ++ [missing_index_text c1]) Hin Hdir He)
      as (c' & content' & e' & out' & -> & Hc' & ? & ? & Hout).
    exists c', content', e', (missing_index_text c1 :: out').
    rewrite <- (assoc_L (++) out). split_and!; [done|by right|done..|].
    apply Forall_cons. split; [by eexists|done].
Qed.

(** X17. When the persist root exists and the directory of every category
    that has one loads, [load_retrievers] returns the retrievers of exactly
    the categories that have a directory, in the order of [CATEGORIES], each
    made from the content of its directory; it prints one warning for each
    category without a directory and then the names of the loaded ones. *)
Theorem load_retrievers_loads_present (d : disk Index) :
  is_Some (dirs d !! PERSIST_ROOT) →
  (∀ c, c ∈ CATEGORIES → loadable d c) →
  load_retrievers d
  = (Ok (omap (retriever_of d) CATEGORIES),
     warnings d CATEGORIES ++
     ["✅ Retrievers loaded: " +:+ repr_list (List.filter (present d) CATEGORIES)])
  ∧ (omap (retriever_of d) CATEGORIES).*1 = List.filter (present d) CATEGORIES.
Proof.
  intros [root Hroot] Hl. split; [|by apply retriever_of_keys].
  unfold Startup.load_retrievers. rewrite Hroot.
  rewrite load_categories_ok; [|apply categories_NoDup|set_solver|done].
  cbn [app]. by rewrite retriever_of_keys, sorted_filter_categories.
Qed.

(** X18. One directory of a category that does not load stops the start-up:
    [load_retrievers] raises the error that loading a directory of a
    category gave, prints nothing but warnings for missing directories, and
    never reports the retrievers as loaded.  With the persist root missing
    it raises before it prints anything. *)
Theorem broken_index_stops_startup (d : disk Index) (c : string)
    (content : option Index) (e : string) :
  c ∈ CATEGORIES →
  dirs d !! path_join PERSIST_ROOT c = Some content →
  load_index content = Raise e →
  (dirs d !! PERSIST_ROOT = None ∧ load_retrievers d = (Raise missing_root_text, []))
  ∨ (∃ c' content' e' out,
       load_retrievers d = (Raise e', out)
       ∧ c' ∈ CATEGORIES
       ∧ dirs d !! path_join PERSIST_ROOT c' = Some content'
       ∧ load_index content' = Raise e'
       ∧ Forall (λ line, ∃ c0, line = missing_index_text c0) out).
Proof.
  intros Hc Hdir He. unfold Startup.load_retrievers.
  destruct (dirs d !! PERSIST_ROOT) as [root|]; [right|by left].
  destruct (load_categories_raises d CATEGORIES c content e [] [] Hc Hdir He)
    as (c' & content' & e' & out' & -> & ? & ? & ? & ?).
  by exists c', content', e', out'.
Qed.
End StartupFacts.

Lemma load_retrievers_loads_present_witness :
  Startup.load_retrievers SampleStorage.load_files
    (BuildIndex.fs SampleDisk.before)
  = (Ok (omap (Storage.retriever_of SampleStorage.load_files
                 (BuildIndex.fs SampleDisk.before)) Main.CATEGORIES),
     Storage.warnings (BuildIndex.fs SampleDisk.before) Main.CATEGORIES ++
     ["✅ Retrievers loaded: ['maps', 'npc']"])
  ∧ (omap (Storage.retriever_of SampleStorage.load_files
             (BuildIndex.fs SampleDisk.before)) Main.CATEGORIES).*1
    = ["maps"; "npc"].
Proof.
  apply (load_retrievers_loads_present SampleStorage.load_files
           (BuildIndex.fs SampleDisk.before)).
  - by eexists.
  - intros c Hc content Hcontent.
    unfold Main.CATEGORIES in Hc.
    repeat (apply elem_of_cons in Hc as [->|Hc];
            [vm_compute in Hcontent; try discriminate;
             injection Hcontent as <-; by eexists|]).
    by apply elem_of_nil in Hc.
Defined.

Lemma broken_index_stops_startup_witness :
  let d := {| Disk.md_files := ∅;
              Disk.dirs := {[ "storage" := None; "storage/items" := None;
                              "storage/npc" := Some ["data/npc/penjaga.md"] ]} |} in
  (Disk.dirs d !! Disk.PERSIST_ROOT = None
   ∧ Startup.load_retrievers SampleStorage.load_files d
     = (Raise Startup.missing_root_text, []))
  ∨ (∃ c' content' e' out,
       Startup.load_retrievers SampleStorage.load_files d = (Raise e', out)
       ∧ c' ∈ Main.CATEGORIES
       ∧ Disk.dirs d !! Disk.path_join Disk.PERSIST_ROOT c' = Some content'
       ∧ SampleStorage.load_files content' = Raise e'
       ∧ Forall (λ line, ∃ c0, line = Startup.missing_index_text c0) out).
Proof.
  intros d.
  refine (broken_index_stops_startup SampleStorage.load_files d "items" None
            "No index in storage context" _ eq_refl eq_refl).
  unfold Main.CATEGORIES. set_solver.
Defined.

(** ** The builder: order of the listing, failures, and the final line *)

Section RebuildFacts.
Import Py Disk BuildIndex Report.
Context {Doc Index : Type}.
Variable load_data : list string → res (list Doc).
Variable make_index : list Doc → res Index.

Local Abbreviation build_one := (build_one load_data make_index).
Local Abbreviation build_each := (build_each load_data make_index).
Local Abbreviation main := (main load_data make_index).
Local Abbreviation state := (@state Index).

Lemma insert_sorted_perm p l : insert_sorted p l ≡ₚ p :: l.
Proof.
  induction l as [|x l IH]; [done|]. cbn [insert_sorted].
  destruct (String.leb p x); [done|]. rewrite IH. apply Permutation_swap.
Qed.

Lemma sorted_perm l : sorted l ≡ₚ l.
Proof.
  induction l as [|x l IH]; [done|]. unfold sorted in *. cbn [foldr].
  by rewrite insert_sorted_perm, IH.
Qed.

Lemma insert_sorted_Sorted p l :
  Sorted String.le l → Sorted String.le (insert_sorted p l).
Proof.
  induction l as [|x l IH]; intros Hl; [by repeat constructor|].
  cbn [insert_sorted]. destruct (String.leb p x) eqn:Hpx.
  - constructor; [done|]. constructor. unfold String.le. by rewrite Hpx.
  - apply Sorted_inv in Hl as [Hl Hx]. constructor; [by apply IH|].
    assert (String.le x p) as Hxp.
    { destruct (total String.le x p) as [?|Hle]; [done|].
      unfold String.le in Hle. by rewrite Hpx in Hle. }
    destruct l as [|y l]; cbn [insert_sorted]; [by constructor|].
    destruct (String.leb p y); constructor; [done|]. by apply HdRel_inv in Hx.
Qed.

Lemma sorted_Sorted l : Sorted String.le (sorted l).
Proof.
  induction l as [|x l IH]; [constructor|]. unfold sorted in *. cbn [foldr].
  by apply insert_sorted_Sorted.
Qed.

(** [sorted] forgets the order of the listing. *)
Lemma sorted_listing l1 l2 : l1 ≡ₚ l2 → sorted l1 = sorted l2.
Proof.
  intros Hp. apply (Sorted_unique String.le); [apply sorted_Sorted..|].
  by rewrite !sorted_perm.
Qed.

(** What [build_one] does on a category with markdown files. *)
Lemma build_one_files category src_dir persist_root (st : state) :
  sorted (default [] (md_files (fs st) !! src_dir)) ≠ [] →
  let md := sorted (default [] (md_files (fs st) !! src_dir)) in
  let persist_dir := path_join persist_root category in
  let line1 := "📥 [" +:+ category +:+ "] Baca " +:+
               str_of_N (N.of_nat (length md)) +:+ " file markdown..." in
  let line2 := "🔨 [" +:+ category +:+ "] Susun nodes & bangun index..." in
  let line3 := "💾 [" +:+ category +:+ "] Simpan index ke " +:+ persist_dir +:+ " ..." in
  build_one category src_dir persist_root st
  = match load_data md with
    | Raise e =>
        (Raise e, {| fs := {| md_files := md_files (fs st);
                              dirs := delete persist_dir (dirs (fs st)) |};
                     out := out st ++ [line1] |})
    | Ok docs =>
        match make_index docs with
        | Raise e =>
            (Raise e, {| fs := {| md_files := md_files (fs st);
                                  dirs := delete persist_dir (dirs (fs st)) |};
                         out := out st ++ [line1; line2] |})
        | Ok idx =>
            (Ok (), {| fs := {| md_files := md_files (fs st);
                                dirs := <[persist_dir := Some idx]> (dirs (fs st)) |};
                       out := out st ++ [line1; line2; line3] |})
        end
    end.
Proof.
  intros Hmd. cbv zeta.
  unfold BuildIndex.build_one, mbind, ST_bind, glob_md.
  revert Hmd. generalize (sorted (default [] (md_files (fs st) !! src_dir))).
  intros md Hmd. destruct md as [|f md']; [done|].
  unfold path_exists, print, external, rmtree, persist, mret, ST_ret.
  set (persist_dir := path_join persist_root category).
  destruct (bool_decide (is_Some (dirs (fs st) !! persist_dir))) eqn:Hthere;
    cbn [fs out md_files dirs].
  - destruct (load_data (f :: md')) as [docs|e]; cbn [fs out md_files dirs]; [|done].
    destruct (make_index docs) as [idx|e]; cbn [fs out md_files dirs].
    + by rewrite insert_delete_eq, <- !(assoc_L (++) (out st)).
    + by rewrite <- !(assoc_L (++) (out st)).
  - apply bool_decide_eq_false in Hthere.
    rewrite (delete_id (dirs (fs st)) persist_dir) by (by apply eq_None_not_Some).
    destruct st as [[md0 dirs0] out0]. cbn [fs out md_files dirs] in *.
    destruct (load_data (f :: md')) as [docs|e]; cbn [fs out md_files dirs]; [|done].
    destruct (make_index docs) as [idx|e]; cbn [fs out md_files dirs];
      by rewrite <- !(assoc_L (++) out0).
Qed.

(** X19. The rebuild of a category is not atomic: the old index is removed
    before the files are read, so when reading or indexing raises,
    [build_one] raises the same error and leaves the category without its
    directory, whatever index it held before; the sources are untouched. *)
Theorem failed_rebuild_loses_old_index (category src_dir persist_root : string)
    (st : state) (e : string) :
  sorted (default [] (md_files (fs st) !! src_dir)) ≠ [] →
  (load_data (sorted (default [] (md_files (fs st) !! src_dir))) = Raise e
   ∨ ∃ docs, load_data (sorted (default [] (md_files (fs st) !! src_dir))) = Ok docs
             ∧ make_index docs = Raise e) →
  (build_one category src_dir persist_root st).1 = Raise e
  ∧ dirs (fs (build_one category src_dir persist_root st).2)
    = delete (path_join persist_root category) (dirs (fs st))
  ∧ md_files (fs (build_one category src_dir persist_root st).2) = md_files (fs st).
Proof.
  intros Hmd Hfail. rewrite (build_one_files _ _ _ _ Hmd). cbv zeta.
  destruct Hfail as [->|(docs & -> & ->)]; done.
Qed.

(** X20. What [build_one] makes of a category with markdown files depends
    on the set of these files only: not on the order in which the directory
    lists them, and not on what the persist directory held before.  Two
    runs on listings that are permutations of each other end alike and
    leave the same content in the directory of the category. *)
Theorem build_one_depends_on_sources_only (category src_dir persist_root : string)
    (st1 st2 : state) :
  default [] (md_files (fs st1) !! src_dir)
    ≡ₚ default [] (md_files (fs st2) !! src_dir) →
  default [] (md_files (fs st1) !! src_dir) ≠ [] →
  (build_one category src_dir persist_root st1).1
    = (build_one category src_dir persist_root st2).1
  ∧ dirs (fs (build_one category src_dir persist_root st1).2)
      !! path_join persist_root category
    = dirs (fs (build_one category src_dir persist_root st2).2)
      !! path_join persist_root category.
Proof.
  intros Hperm Hne.
  assert (sorted (default [] (md_files (fs st1) !! src_dir)) ≠ []) as Hne1.
  { by rewrite sorted_nil. }
  pose proof (sorted_listing _ _ Hperm) as Hs.
  assert (sorted (default [] (md_files (fs st2) !! src_dir)) ≠ []) as Hne2.
  { by rewrite <- Hs. }
  rewrite (build_one_files _ _ _ st1 Hne1), (build_one_files _ _ _ st2 Hne2).
  cbv zeta. rewrite <- Hs.
  destruct (load_data _) as [docs|e]; cbn [fst snd fs dirs].
  - destruct (make_index docs) as [idx|e]; cbn [fst snd fs dirs].
    + by rewrite !lookup_insert_eq.
    + by rewrite !lookup_delete_eq.
  - by rewrite !lookup_delete_eq.
Qed.

Lemma build_one_raise_out category src_dir persist_root (st st' : state) e :
  build_one category src_dir persist_root st = (Raise e, st') →
  ∃ l line, out st' = l ++ [line] ∧ line ≠ done_text.
Proof.
  destruct (decide (sorted (default [] (md_files (fs st) !! src_dir)) = []))
    as [Hmd|Hmd].
  { apply (proj1 (sorted_nil _)) in Hmd. by rewrite (build_one_skip _ _ _ _ _ _ Hmd). }
  rewrite (build_one_files _ _ _ _ Hmd). cbv zeta.
  destruct (load_data _) as [docs|e1].
  - destruct (make_index docs) as [idx|e1]; [done|]. intros [= _ <-].
    cbn [out]. eexists (out st ++ [_]), _. split.
    + by rewrite <- (assoc_L (++) (out st)).
    + discriminate.
  - intros [= _ <-]. cbn [out]. eexists _, _. split; [done|discriminate].
Qed.

Lemma build_each_raise_out cats : ∀ (st st' : state) e,
  build_each cats st = (Raise e, st') →
  ∃ l line, out st' = l ++ [line] ∧ line ≠ done_text.
Proof.
  induction cats as [|[c src] cats IH]; intros st st' e; [done|].
  cbn [BuildIndex.build_each]. unfold mbind, ST_bind.
  destruct (build_one c src PERSIST_ROOT st) as [[[]|e1] st1] eqn:Hone.
  - apply IH.
  - intros [= <- <-]. by eapply build_one_raise_out.
Qed.

(** X21. The builder prints its final line exactly when every category was
    built or skipped without an error: a run ends without an exception if
    and only if the last line printed is the final one. *)
Theorem final_line_iff_success (st : state) :
  (main st).1 = Ok () ↔ last (out (main st).2) = Some done_text.
Proof.
  unfold BuildIndex.main, mbind, ST_bind, mkdir, print.
  set (st0 := {| fs := _; out := out st |}).
  destruct (build_each CATEGORIES st0) as [[[]|e] st1] eqn:Heach; cbn [fst snd out].
  - by rewrite last_snoc.
  - destruct (build_each_raise_out _ _ _ _ Heach) as (l & line & -> & Hline).
    rewrite last_snoc. split; [done|]. by intros [= ->].
Qed.

(** [build_each] writes no directory but those of its categories. *)
Lemma build_each_other cats : ∀ (st : state) p,
  (∀ c src, (c, src) ∈ cats → p ≠ path_join PERSIST_ROOT c) →
  dirs (fs (build_each cats st).2) !! p = dirs (fs st) !! p.
Proof.
  induction cats as [|[c src] cats IH]; intros st p Hp; [done|].
  cbn [BuildIndex.build_each]. unfold mbind, ST_bind.
  destruct (build_one_frame load_data make_index c src PERSIST_ROOT st) as [_ Hdirs].
  destruct (build_one c src PERSIST_ROOT st) as [[[]|e] st1]; cbn [snd] in *.
  - rewrite IH by (intros c' src' Hin; apply (Hp c' src'); by right).
    apply Hdirs, (Hp c src). by left.
  - apply Hdirs, (Hp c src). by left.
Qed.

(** After [build_each] has returned, every category with markdown files
    holds an index. *)
Lemma build_each_built cats : ∀ (st : state),
  NoDup cats.*1 →
  (build_each cats st).1 = Ok () →
  ∀ c src, (c, src) ∈ cats →
    default [] (md_files (fs st) !! src) ≠ [] →
    ∃ idx, dirs (fs (build_each cats st).2) !! path_join PERSIST_ROOT c
           = Some (Some idx).
Proof.
  induction cats as [|[c1 src1] cats IH]; intros st Hnd Hok c src Hin Hmd.
  { by apply elem_of_nil in Hin. }
  rewrite fmap_cons in Hnd. apply NoDup_cons in Hnd as [Hc1 Hnd].
  cbn [BuildIndex.build_each] in *. unfold mbind, ST_bind in *.
  destruct (build_one_frame load_data make_index c1 src1 PERSIST_ROOT st)
    as [Hfiles _].
  destruct (build_one c1 src1 PERSIST_ROOT st) as [[[]|e] st1] eqn:Hone;
    [|done]. cbn [snd] in Hfiles.
  apply elem_of_cons in Hin as [[= -> ->]|Hin].
  - assert (sorted (default [] (md_files (fs st) !! src1)) ≠ []) as Hs.
    { by rewrite sorted_nil. }
    rewrite (build_one_files _ _ _ _ Hs) in Hone. cbv zeta in Hone.
    destruct (load_data _) as [docs|e]; [|done].
    destruct (make_index docs) as [idx|e]; [|done].
    injection Hone as <-. exists idx.
    rewrite build_each_other; [cbn [fs dirs]; apply lookup_insert_eq|].
    intros c' src' Hin' Heq%path_join_inj. subst c'.
    apply Hc1. apply list_elem_of_fmap. by exists (c1, src').
  - apply (IH st1 Hnd Hok c src Hin). by rewrite Hfiles.
Qed.

(** The disk after a run of the builder that returned: the persist root
    exists, every category with markdown files holds an index, every other
    category is as it was. *)
Lemma main_result (st : state) :
  (main st).1 = Ok () →
  is_Some (dirs (fs (main st).2) !! PERSIST_ROOT)
  ∧ ∀ c src, (c, src) ∈ CATEGORIES →
      (default [] (md_files (fs st) !! src) ≠ [] →
       ∃ idx, dirs (fs (main st).2) !! path_join PERSIST_ROOT c = Some (Some idx))
      ∧ (default [] (md_files (fs st) !! src) = [] →
         dirs (fs (main st).2) !! path_join PERSIST_ROOT c
         = dirs (fs st) !! path_join PERSIST_ROOT c).
Proof.
  unfold BuildIndex.main, mbind, ST_bind, mkdir, print.
  set (st0 := {| fs := _; out := out st |}).
  assert (md_files (fs st0) = md_files (fs st)) as Hmd0 by done.
  assert (is_Some (dirs (fs st0) !! PERSIST_ROOT)) as Hroot.
  { unfold st0. cbn [fs dirs].
    destruct (dirs (fs st) !! PERSIST_ROOT) eqn:Hr; [by rewrite Hr|].
    by rewrite lookup_insert_eq. }
  assert (∀ c, dirs (fs st0) !! path_join PERSIST_ROOT c
               = dirs (fs st) !! path_join PERSIST_ROOT c) as Hd0.
  { intros c. unfold st0. cbn [fs dirs].
    destruct (dirs (fs st) !! PERSIST_ROOT); [done|].
    apply lookup_insert_ne, root_is_no_category_dir. }
  pose proof (build_each_built CATEGORIES st0) as Hbuilt.
  pose proof (build_each_other CATEGORIES st0 PERSIST_ROOT
                (λ c _ _, root_is_no_category_dir c)) as Hother.
  destruct (build_each_frame load_data make_index CATEGORIES st0) as [_ Hframe].
  destruct (build_each CATEGORIES st0) as [[[]|e] st1]; [|done].
  cbn [fst snd fs] in *. intros _. split.
  - by rewrite Hother.
  - intros c src Hin. split.
    + intros Hmd. apply Hbuilt with src; [|done..].
      apply (bool_decide_unpack _). by vm_compute.
    + intros Hmd. rewrite Hframe; [apply Hd0|].
      intros c' src' Hin' ->%path_join_inj. rewrite Hmd0.
      by rewrite (categories_functional _ _ _ Hin' Hin).
Qed.
End RebuildFacts.

Lemma failed_rebuild_loses_old_index_witness :
  (BuildIndex.build_one SampleDisk.read_all SampleFailure.index_none
     "maps" "data/maps" "storage" SampleDisk.before).1
  = Raise "embedding model not found"
  ∧ Disk.dirs (BuildIndex.fs
                 (BuildIndex.build_one SampleDisk.read_all SampleFailure.index_none
                    "maps" "data/maps" "storage" SampleDisk.before).2)
    = delete (Disk.path_join "storage" "maps")
        (Disk.dirs (BuildIndex.fs SampleDisk.before))
  ∧ Disk.md_files (BuildIndex.fs
                     (BuildIndex.build_one SampleDisk.read_all SampleFailure.index_none
                        "maps" "data/maps" "storage" SampleDisk.before).2)
    = Disk.md_files (BuildIndex.fs SampleDisk.before).
Proof.
  apply (failed_rebuild_loses_old_index SampleDisk.read_all SampleFailure.index_none
           "maps" "data/maps" "storage" SampleDisk.before
           "embedding model not found").
  - vm_compute. discriminate.
  - right. eexists. split; reflexivity.
Defined.

Lemma build_one_depends_on_sources_only_witness :
  let st2 : @BuildIndex.state (list string) :=
    {| BuildIndex.fs :=
         {| Disk.md_files :=
              {[ "data/maps" := ["data/maps/desa.md"; "data/maps/kota.md"] ]};
            Disk.dirs := ∅ |};
       BuildIndex.out := [] |} in
  (BuildIndex.build_one SampleDisk.read_all SampleDisk.index_all
     "maps" "data/maps" "storage" SampleDisk.before).1
  = (BuildIndex.build_one SampleDisk.read_all SampleDisk.index_all
       "maps" "data/maps" "storage" st2).1
  ∧ Disk.dirs (BuildIndex.fs
                 (BuildIndex.build_one SampleDisk.read_all SampleDisk.index_all
                    "maps" "data/maps" "storage" SampleDisk.before).2)
      !! Disk.path_join "storage" "maps"
    = Disk.dirs (BuildIndex.fs
                   (BuildIndex.build_one SampleDisk.read_all SampleDisk.index_all
                      "maps" "data/maps" "storage" st2).2)
      !! Disk.path_join "storage" "maps".
Proof.
  intros st2.
  apply (build_one_depends_on_sources_only SampleDisk.read_all SampleDisk.index_all
           "maps" "data/maps" "storage" SampleDisk.before st2).
  - apply Permutation_swap.
  - vm_compute. discriminate.
Defined.

(** ** From the builder to the bot *)

Section PipelineFacts.
Import Py Disk Storage.
Context {Doc Index : Type}.
Variable load_data : list string → res (list Doc).
Variable make_index : list Doc → res Index.
Variable load_index : option Index → res Main.retriever.

Local Abbreviation main := (BuildIndex.main load_data make_index).

(** Both programs list the same categories. *)
Lemma same_categories : Main.CATEGORIES = BuildIndex.CATEGORIES.*1.
Proof. reflexivity. Qed.

(** X22. The storage that a finished run of the builder leaves is one the
    bot starts on: when an index that was persisted loads and no directory
    of a category was left without index state, [load_retrievers] returns,
    and the categories it loads are those that have markdown files or had a
    directory before the run. *)
Theorem built_storage_loads (st : @BuildIndex.state Index) :
  (main st).1 = Ok () →
  (∀ idx, ∃ r, load_index (Some idx) = Ok r) →
  (∀ c, c ∈ Main.CATEGORIES →
        dirs (BuildIndex.fs st) !! path_join PERSIST_ROOT c ≠ Some None) →
  ∃ rs out,
    Startup.load_retrievers load_index (BuildIndex.fs (main st).2) = (Ok rs, out)
    ∧ ∀ c, c ∈ rs.*1 ↔
        ∃ src, (c, src) ∈ BuildIndex.CATEGORIES
               ∧ (default [] (md_files (BuildIndex.fs st) !! src) ≠ []
                  ∨ is_Some (dirs (BuildIndex.fs st) !! path_join PERSIST_ROOT c)).
Proof.
  intros Hok Hload Hfull.
  destruct (main_result load_data make_index st Hok) as [[root Hroot] Hcats].
  set (d := BuildIndex.fs (main st).2) in *.
  assert (∀ c, c ∈ Main.CATEGORIES → loadable load_index d c) as Hl.
  { intros c Hc content Hcontent. rewrite same_categories in Hc.
    apply list_elem_of_fmap in Hc as [[c' src] [-> Hin]]. cbn [fst] in *.
    destruct (Hcats c' src Hin) as [Hbuilt Hkept].
    destruct (decide (default [] (md_files (BuildIndex.fs st) !! src) = []))
      as [Hmd|Hmd].
    - rewrite (Hkept Hmd) in Hcontent. destruct content as [idx|]; [apply Hload|].
      destruct (Hfull c'); [|done]. rewrite same_categories.
      apply list_elem_of_fmap. by exists (c', src).
    - destruct (Hbuilt Hmd) as [idx Hidx]. rewrite Hidx in Hcontent.
      injection Hcontent as <-. apply Hload. }
  exists (omap (retriever_of load_index d) Main.CATEGORIES). eexists. split.
  - unfold Startup.load_retrievers. rewrite Hroot.
    rewrite (load_categories_ok load_index);
      [done|apply categories_NoDup|set_solver|done].
  - intros c. rewrite (retriever_of_keys load_index d _ Hl).
    rewrite list_elem_of_In, filter_In, <- list_elem_of_In. unfold present.
    rewrite bool_decide_eq_true. split.
    + intros [Hc Hpresent]. rewrite same_categories in Hc.
      apply list_elem_of_fmap in Hc as [[c' src] [-> Hin]]. cbn [fst] in *.
      exists src. split; [done|].
      destruct (decide (default [] (md_files (BuildIndex.fs st) !! src) = []))
        as [Hmd|Hmd]; [right|by left].
      destruct (Hcats c' src Hin) as [_ Hkept]. by rewrite <- (Hkept Hmd).
    + intros (src & Hin & Hwhy). split.
      { rewrite same_categories. apply list_elem_of_fmap. by exists (c, src). }
      destruct (Hcats c src Hin) as [Hbuilt Hkept].
      destruct (decide (default [] (md_files (BuildIndex.fs st) !! src) = []))
        as [Hmd|Hmd].
      * rewrite (Hkept Hmd). by destruct Hwhy.
      * destruct (Hbuilt Hmd) as [idx ->]. by eexists.
Qed.
End PipelineFacts.

Lemma built_storage_loads_witness :
  ∃ rs out,
    Startup.load_retrievers SampleStorage.load_files
      (BuildIndex.fs (BuildIndex.main SampleDisk.read_all SampleDisk.index_all
                        SampleDisk.before).2)
    = (Ok rs, out)
    ∧ ∀ c, c ∈ rs.*1 ↔
        ∃ src, (c, src) ∈ BuildIndex.CATEGORIES
               ∧ (default [] (Disk.md_files (BuildIndex.fs SampleDisk.before) !! src) ≠ []
                  ∨ is_Some (Disk.dirs (BuildIndex.fs SampleDisk.before)
                               !! Disk.path_join Disk.PERSIST_ROOT c)).
Proof.
  apply (built_storage_loads SampleDisk.read_all SampleDisk.index_all
           SampleStorage.load_files SampleDisk.before).
  - reflexivity.
  - intros idx. by eexists.
  - intros c Hc. unfold Main.CATEGORIES in Hc.
    repeat (apply elem_of_cons in Hc as [->|Hc]; [vm_compute; discriminate|]).
    by apply elem_of_nil in Hc.
Defined.

(** ** The alias table and the reranker *)

Section AliasFacts.
Import Py Main Observe.

(** X23. The name of each category is one of its own aliases, so the word
    on a button of the category keyboard also works as a typed prefix; and
    no alias is listed for two categories, so the order in which the loop of
    [detect_category_and_query] goes through [ALIASES] decides nothing. *)
Theorem category_name_is_its_alias (c question : string) :
  c ∈ CATEGORIES →
  detect_category_and_query (Some (c +:+ ":" +:+ question))
    = Ok (Some c, strip question)
  ∧ ∀ p c1 c2, alias_of c1 p → alias_of c2 p → c1 = c2.
Proof.
  intros Hc. split.
  - unfold CATEGORIES in Hc.
    repeat (apply elem_of_cons in Hc as [->|Hc]; [by apply detect_alias|]).
    by apply elem_of_nil in Hc.
  - intros p c1 c2 H1%alias_category_Some H2%alias_category_Some. congruence.
Qed.

Lemma category_name_is_its_alias_witness :
  detect_category_and_query
    (Some ("timeline" +:+ ":" +:+ (Sample.nbsp +:+ "kapan perang?" +:+ Sample.wide_space)))
    = Ok (Some "timeline", "kapan perang?")
  ∧ ∀ p c1 c2, alias_of c1 p → alias_of c2 p → c1 = c2.
Proof.
  apply (category_name_is_its_alias "timeline"
           (Sample.nbsp +:+ "kapan perang?" +:+ Sample.wide_space)).
  unfold CATEGORIES. do 5 right. left.
Defined.
End AliasFacts.

Section RerankFacts.
Import Py Main Observe Outcome.

Lemma getitem_absent {V} (d : list (string * V)) key :
  key ∉ d.*1 → getitem d key = Raise ("'" +:+ key +:+ "'").
Proof.
  induction d as [|[k v] d IH]; [done|]. rewrite fmap_cons, not_elem_of_cons.
  intros [Hne Hd]. cbn [getitem fst]. rewrite bool_decide_eq_false_2 by done.
  by apply IH.
Qed.

(** A retrieval that returned was not one for a category without retriever. *)
Lemma retrieve_nodes_indexed E cat q nodes l :
  retrieve_nodes E cat q = (Ok nodes, l) →
  truthy_opt cat && negb (indexed_opt E cat) = false.
Proof.
  unfold retrieve_nodes, truthy_cat. destruct (truthy_opt cat) eqn:Ht; [|done].
  destruct cat as [c|]; [|done]. cbn [indexed_opt andb]. unfold indexed.
  case_bool_decide as Hin; [done|]. by rewrite (getitem_absent _ _ Hin).
Qed.

(** X24. When the reranker returns on the chunks that were retrieved, the
    answer is composed from what it returned and from nothing else: the
    context of the prompt and the source note come from its chunks, in its
    order, and when it returns no chunk the not-found text is shown without
    a call of the model. *)
Theorem reranked_chunks_are_used (E : env) (text : string)
    (ud : gmap string (option string)) (cp : option string) (q : string)
    (rr : list retrieved → string → res (list retrieved))
    (nodes nodes' : list retrieved) (l : list event) :
  detect_category_and_query (Some text) = Ok (cp, q) →
  reranker E = Some rr →
  retrieve_nodes E (match cp with Some c => Some c | None => selected_cat ud end) q
    = (Ok nodes, l) →
  nodes ≠ [] →
  rr nodes q = Ok nodes' →
  events (handle_message E (Some text) ud)
  = ReplyText loading_text None :: l ++
    events (compose_answer E text
              (match cp with Some c => Some c | None => selected_cat ud end) q nodes') ++
    match (compose_answer E text
             (match cp with Some c => Some c | None => selected_cat ud end) q nodes').1 with
    | Ok _ => []
    | Raise e => [EditLoading (error_text e)]
    end
  ∧ (nodes' = [] →
     events (handle_message E (Some text) ud)
     = ReplyText loading_text None :: l ++ [EditLoading not_found_text]).
Proof.
  intros Hd Hrr Hret Hne Hrank.
  set (cat := match cp with Some c => Some c | None => selected_cat ud end) in *.
  assert (events (handle_message E (Some text) ud)
          = ReplyText loading_text None :: l ++
            events (compose_answer E text cat q nodes') ++
            match (compose_answer E text cat q nodes').1 with
            | Ok _ => []
            | Raise e => [EditLoading (error_text e)]
            end) as Hev.
  { assert (handle_message_try E text ud
            = ((compose_answer E text cat q nodes').1,
               l ++ (compose_answer E text cat q nodes').2)) as Htry.
    { unfold handle_message_try, lift. rewrite Hd, bind_pair.
      cbn [fst snd app]. fold cat.
      rewrite (retrieve_nodes_indexed _ _ _ _ _ Hret), Hret, bind_pair.
      unfold rerank_nodes. rewrite Hrr. destruct nodes as [|n nodes]; [done|].
      rewrite Hrank. unfold lift, try_except. rewrite bind_pair.
      cbn [fst snd app]. by rewrite ?app_nil_r. }
    rewrite handle_message_events, or_empty_Some, Htry. unfold events.
    cbn [fst snd]. by rewrite <- (assoc_L (++)). }
  split; [done|]. intros ->. rewrite Hev.
  by rewrite compose_answer_no_chunk.
Qed.

Lemma reranked_chunks_are_used_witness :
  events (handle_message SampleRerank.reranking_bot (Some "npc: siapa raja?") ∅)
  = ReplyText loading_text None :: [Retrieve "npc" "siapa raja?"] ++
    events (compose_answer SampleRerank.reranking_bot "npc: siapa raja?"
              (Some "npc") "siapa raja?" [Sample.chunk "Raja tua." "raja.md"]) ++
    match (compose_answer SampleRerank.reranking_bot "npc: siapa raja?"
             (Some "npc") "siapa raja?" [Sample.chunk "Raja tua." "raja.md"]).1 with
    | Ok _ => []
    | Raise e => [EditLoading (error_text e)]
    end
  ∧ ([Sample.chunk "Raja tua." "raja.md"] = [] →
     events (handle_message SampleRerank.reranking_bot (Some "npc: siapa raja?") ∅)
     = ReplyText loading_text None :: [Retrieve "npc" "siapa raja?"] ++
       [EditLoading not_found_text]).
Proof.
  exact (reranked_chunks_are_used SampleRerank.reranking_bot "npc: siapa raja?" ∅
           (Some "npc") "siapa raja?" SampleRerank.keep_last
           [ Sample.chunk "Penjaga gerbang." "penjaga.md";
             Sample.chunk "Raja tua." "raja.md" ]
           [ Sample.chunk "Raja tua." "raja.md" ]
           [ Retrieve "npc" "siapa raja?" ]
           eq_refl eq_refl eq_refl ltac:(discriminate) eq_refl).
Defined.
End RerankFacts.
